(** * sevalla-go: the request/response pipeline, embedded and verified

    The development follows the Go sources of the client core:
    client construction ([NewClient] and its options), the request
    builder ([NewRequest]), the executor ([Do]), the pagination parser
    ([populatePageValues]), the error decoder ([CheckResponse]) and the
    classification predicates of [errors.go].

    The Go standard library packages the core calls into ([strings],
    [strconv], [net/url], [encoding/json], [net/http]) are modelled
    first, each in a module of its own named after the package; the
    package [sevalla] itself follows in [Module Sevalla].  Go strings
    are byte strings: [string] with one [ascii] per byte.  Go [int] is
    [Z]. *)

From Stdlib Require Import String Ascii List ZArith NArith Bool Lia.
From stdpp Require Import base gmap strings.
Import ListNotations.
Open Scope string_scope.
Open Scope Z_scope.

(* string concatenation computes under [simpl], as in the Standard Library *)
#[local] Arguments String.append !s1 s2 : simpl nomatch.

(** ** Bytes *)

Definition code (c : ascii) : N := N_of_ascii c.

Definition between (lo hi : N) (c : ascii) : bool :=
  ((lo <=? code c) && (code c <=? hi))%N.

Definition isDigit (c : ascii) : bool := between 48 57 c.
Definition isLower (c : ascii) : bool := between 97 122 c.
Definition isUpper (c : ascii) : bool := between 65 90 c.
Definition isAlpha (c : ascii) : bool := isLower c || isUpper c.
Definition isAlnum (c : ascii) : bool := isAlpha c || isDigit c.

Definition toLower (c : ascii) : ascii :=
  if isUpper c then ascii_of_N (code c + 32) else c.
Definition toUpper (c : ascii) : ascii :=
  if isLower c then ascii_of_N (code c - 32) else c.

(** membership of a byte in a cutset given as a string *)
Fixpoint inSet (set : string) (c : ascii) : bool :=
  match set with
  | "" => false
  | String d r => Ascii.eqb c d || inSet r c
  end.

Definition LF : ascii := ascii_of_N 10.
Definition CR : ascii := ascii_of_N 13.
Definition TAB : ascii := ascii_of_N 9.
Definition DQ : ascii := ascii_of_N 34.
Definition BSL : ascii := ascii_of_N 92.

(** ** Control flow of Go code

    A Go function either returns or panics (an index out of range is a
    run-time panic that unwinds through every caller that does not
    recover; nothing in this library recovers). *)

Inductive Outcome (A : Type) : Type :=
| Returns (a : A)
| Panics (msg : string).
Arguments Returns {A} a.
Arguments Panics {A} msg.

Definition obind {A B} (m : Outcome A) (k : A -> Outcome B) : Outcome B :=
  match m with
  | Returns a => k a
  | Panics msg => Panics msg
  end.

Notation "'let!' x ':=' m 'in' k" := (obind m (fun x => k))
  (at level 10, x name, m at level 100, k at level 200).

(** [l[i]] on a slice: panics out of range. *)
Definition index {A} (l : list A) (i : nat) : Outcome A :=
  match nth_error l i with
  | Some a => Returns a
  | None => Panics "index out of range"
  end.

(** [*p] on a pointer: a nil pointer dereference is a run-time
    panic. *)
Definition deref {A} (p : option A) : Outcome A :=
  match p with
  | Some a => Returns a
  | None => Panics "invalid memory address or nil pointer dereference"
  end.

(** Errors of other packages, as far as the core tells them apart:
    [io.EOF] is compared against by [Do]; every other one, named here
    by its package and its message, is only passed on. *)
Inductive liberror : Type :=
| EOF
| LibError (pkg msg : string).

(** A Go call returning [(T, error)]. *)
Inductive result (A : Type) : Type :=
| Ok (a : A)
| Err (e : liberror).
Arguments Ok {A} a.
Arguments Err {A} e.

(** ** Package strings

    Every separator the core passes to [Split] and every pattern it
    passes to [Cut], [Index] and [LastIndex] is a single byte, so the
    separator is an [ascii] here. *)
Module Strings.

Definition HasPrefix (s p : string) : bool := String.prefix p s.

Fixpoint Contains (s : string) (c : ascii) : bool :=
  match s with
  | "" => false
  | String d r => Ascii.eqb d c || Contains r c
  end.

Fixpoint Count (s : string) (c : ascii) : nat :=
  match s with
  | "" => O
  | String d r => ((if Ascii.eqb d c then 1 else 0) + Count r c)%nat
  end.

(** [Split s sep]: the pieces of [s] between the separators; a string
    without separator (the empty one too) gives one piece. *)
Fixpoint Split (s : string) (sep : ascii) : list string :=
  match s with
  | "" => [""]
  | String c r =>
      if Ascii.eqb c sep then "" :: Split r sep
      else match Split r sep with
           | h :: t => String c h :: t
           | [] => [String c ""]
           end
  end.

(** [Cut s sep] = (before, after, found) around the first [sep]. *)
Fixpoint Cut (s : string) (sep : ascii) : string * string * bool :=
  match s with
  | "" => ("", "", false)
  | String c r =>
      if Ascii.eqb c sep then ("", r, true)
      else let '(b, a, f) := Cut r sep in (String c b, a, f)
  end.

(** [s[:i+1]] for [i = LastIndex(s, sep)]: [s] through its last
    separator, empty when there is none. *)
Fixpoint throughLast (s : string) (sep : ascii) : string :=
  match s with
  | "" => ""
  | String c r =>
      if Contains r sep then String c (throughLast r sep)
      else if Ascii.eqb c sep then String c "" else ""
  end.

(** [s[i+1:]] for [i = LastIndex(s, sep)]; all of [s] without one. *)
Fixpoint afterLast (s : string) (sep : ascii) : string :=
  match s with
  | "" => ""
  | String c r =>
      if Contains r sep then afterLast r sep
      else if Ascii.eqb c sep then r else s
  end.

(** [s[:i]] for [i = LastIndex(s, sep)], when there is one. *)
Fixpoint beforeLast (s : string) (sep : ascii) : string :=
  match s with
  | "" => ""
  | String c r =>
      if Contains r sep then String c (beforeLast r sep) else ""
  end.

Fixpoint TrimLeftFunc (f : ascii -> bool) (s : string) : string :=
  match s with
  | "" => ""
  | String c r => if f c then TrimLeftFunc f r else s
  end.

Fixpoint TrimRightFunc (f : ascii -> bool) (s : string) : string :=
  match s with
  | "" => ""
  | String c r =>
      match TrimRightFunc f r with
      | "" => if f c then "" else String c ""
      | r' => String c r'
      end
  end.

Definition Trim (s cutset : string) : string :=
  TrimRightFunc (inSet cutset) (TrimLeftFunc (inSet cutset) s).

(** White space as [unicode.IsSpace] has it.  In ASCII: tab, newline,
    vertical tab, form feed, carriage return, space. *)
Definition isSpace (c : ascii) : bool := between 9 13 c || (code c =? 32)%N.

(** Beyond ASCII, in UTF-8: U+0085 and U+00A0 take two bytes; U+1680,
    U+2000 to U+200A, U+2028, U+2029, U+202F, U+205F and U+3000 take
    three.  Bytes that are not the UTF-8 of a rune decode to U+FFFD,
    which is no white space. *)
Definition isSpace2 (c d : ascii) : bool :=
  (code c =? 194)%N && ((code d =? 133)%N || (code d =? 160)%N).

Definition isSpace3 (c d e : ascii) : bool :=
  ((code c =? 225)%N && (code d =? 154)%N && (code e =? 128)%N)
  || ((code c =? 226)%N && (code d =? 128)%N
      && (between 128 138 e || (code e =? 168)%N || (code e =? 169)%N
          || (code e =? 175)%N))
  || ((code c =? 226)%N && (code d =? 129)%N && (code e =? 159)%N)
  || ((code c =? 227)%N && (code d =? 128)%N && (code e =? 128)%N).

(** [TrimLeftFunc(s, unicode.IsSpace)]: the runes are read from the
    left. *)
Fixpoint TrimLeftSpace (s : string) : string :=
  match s with
  | "" => ""
  | String c r =>
      if isSpace c then TrimLeftSpace r
      else
        match r with
        | String d r1 =>
            if isSpace2 c d then TrimLeftSpace r1
            else
              match r1 with
              | String e r2 => if isSpace3 c d e then TrimLeftSpace r2 else s
              | "" => s
              end
        | "" => s
        end
  end.

(** [TrimRightFunc(s, unicode.IsSpace)]: the runes are read from the
    right, and what goes is the longest end of [s] that is white space
    only. *)
Fixpoint TrimRightSpace (s : string) : string :=
  match s with
  | "" => ""
  | String c r =>
      if String.eqb (TrimLeftSpace s) "" then "" else String c (TrimRightSpace r)
  end.

(** [TrimSpace], that is [TrimFunc(s, unicode.IsSpace)]; its loops
    over ASCII bytes are a shortcut to the same result. *)
Definition TrimSpace (s : string) : string :=
  TrimRightSpace (TrimLeftSpace s).

Fixpoint ToLower (s : string) : string :=
  match s with
  | "" => ""
  | String c r => String (toLower c) (ToLower r)
  end.

Definition HasSuffix (s : string) (c : ascii) : bool :=
  match String.length s with
  | O => false
  | S n => match String.get n s with
           | Some d => Ascii.eqb d c
           | None => false
           end
  end.

(** [s[:len(s)-1]] *)
Fixpoint dropLast (s : string) : string :=
  match s with
  | "" => ""
  | String c "" => ""
  | String c r => String c (dropLast r)
  end.

End Strings.

(** ** Package strconv *)
Module Strconv.

Fixpoint digits (acc : Z) (s : string) : option Z :=
  match s with
  | "" => Some acc
  | String c r =>
      if isDigit c then digits (acc * 10 + (Z.of_N (code c) - 48)) r
      else None
  end.

(** [Atoi]: an optional sign, then one decimal digit or more; the
    value has to fit the 64-bit [int]. *)
Definition Atoi (s : string) : result Z :=
  let syntax := Err (LibError "strconv" "invalid syntax") in
  let parse (neg : bool) (ds : string) :=
    match ds with
    | "" => syntax
    | _ =>
        match digits 0 ds with
        | None => syntax
        | Some n =>
            let v := if neg then - n else n in
            if (- 2 ^ 63 <=? v) && (v <=? 2 ^ 63 - 1) then Ok v
            else Err (LibError "strconv" "value out of range")
        end
    end in
  match s with
  | "" => syntax
  | String c r =>
      if Ascii.eqb c "-" then parse true r
      else if Ascii.eqb c "+" then parse false r
      else parse false s
  end.

(** The decimal digits of [n], least significant first, each put in
    front of [acc]; [fuel] bounds their number. *)
Fixpoint formatBits (fuel : nat) (n : Z) (acc : string) : string :=
  match fuel with
  | O => acc
  | S f =>
      let acc' := String (ascii_of_N (48 + Z.to_N (n mod 10))) acc in
      if n <? 10 then acc' else formatBits f (n / 10) acc'
  end.

(** A number has no more decimal digits than binary ones. *)
Definition digitsBound (n : Z) : nat := S (Z.to_nat (Z.log2 n)).

(** [Itoa(i)], that is [FormatInt(int64(i), 10)]; [%d] of [fmt] and
    [fmt.Sprint] write an [int] the same way. *)
Definition Itoa (i : Z) : string :=
  if i <? 0 then String "-" (formatBits (digitsBound (- i)) (- i) "")
  else formatBits (digitsBound i) i "".

End Strconv.


(** ** Package net/url

    [Parse] is the reference parser ([viaRequest] false throughout this
    library), with [ResolveReference], [String] and [Query().Get]. *)
Module Url.

Record Userinfo : Type := {
  username : string;
  password : string;
  passwordSet : bool }.

Record URL : Type := {
  Scheme : string;
  Opaque : string;
  User : option Userinfo;
  Host : string;
  Path : string;
  RawPath : string;
  OmitHost : bool;
  ForceQuery : bool;
  RawQuery : string;
  Fragment : string;
  RawFragment : string }.

Definition zero : URL :=
  {| Scheme := ""; Opaque := ""; User := None; Host := ""; Path := "";
     RawPath := ""; OmitHost := false; ForceQuery := false;
     RawQuery := ""; Fragment := ""; RawFragment := "" |}.

Inductive encoding : Type :=
| encodePath | encodePathSegment | encodeHost | encodeZone
| encodeUserPassword | encodeQueryComponent | encodeFragment.

Definition hostMode (m : encoding) : bool :=
  match m with encodeHost | encodeZone => true | _ => false end.

Definition shouldEscape (c : ascii) (mode : encoding) : bool :=
  if isAlnum c then false
  else if hostMode mode && inSet ("!$&'()*+,;=:[]<>" ++ String DQ "") c then false
  else if inSet "-_.~" c then false
  else if inSet "$&+,/:;=?@" c then
    match mode with
    | encodePath => Ascii.eqb c "?"
    | encodePathSegment => inSet "/;,?" c
    | encodeUserPassword => inSet "@/?:" c
    | encodeQueryComponent => true
    | encodeFragment => false
    | encodeHost | encodeZone => true
    end
  else match mode with
       | encodeFragment => negb (inSet "!()*" c)
       | _ => true
       end.

Definition ishex (c : ascii) : bool :=
  isDigit c || between 97 102 c || between 65 70 c.

Definition unhex (c : ascii) : N :=
  if isDigit c then (code c - 48)%N
  else if between 97 102 c then (code c - 97 + 10)%N
  else if between 65 70 c then (code c - 65 + 10)%N
  else 0%N.

Definition hexDigit (n : N) : ascii :=
  match String.get (N.to_nat n) "0123456789ABCDEF" with
  | Some c => c
  | None => "0"%char
  end.

Definition escapeError : liberror := LibError "net/url" "invalid URL escape".
Definition hostError : liberror :=
  LibError "net/url" "invalid character in host name".

Fixpoint unescape (mode : encoding) (s : string) : result string :=
  match s with
  | "" => Ok ""
  | String c r =>
      if Ascii.eqb c "%" then
        match r with
        | String h1 (String h2 r') =>
            if ishex h1 && ishex h2 then
              let v := ascii_of_N (16 * unhex h1 + unhex h2) in
              let is25 := Ascii.eqb h1 "2" && Ascii.eqb h2 "5" in
              let bad :=
                match mode with
                | encodeHost => (unhex h1 <? 8)%N && negb is25
                | encodeZone =>
                    negb is25 && negb (Ascii.eqb v " ")
                    && shouldEscape v encodeHost
                | _ => false
                end in
              if bad then Err escapeError
              else match unescape mode r' with
                   | Ok t => Ok (String v t)
                   | Err e => Err e
                   end
            else Err escapeError
        | _ => Err escapeError
        end
      else if hostMode mode && (code c <? 128)%N && shouldEscape c encodeHost
      then Err hostError
      else
        let d := match mode with
                 | encodeQueryComponent =>
                     if Ascii.eqb c "+" then " "%char else c
                 | _ => c
                 end in
        match unescape mode r with
        | Ok t => Ok (String d t)
        | Err e => Err e
        end
  end.

Fixpoint escape (s : string) (mode : encoding) : string :=
  match s with
  | "" => ""
  | String c r =>
      if shouldEscape c mode then
        match mode with
        | encodeQueryComponent =>
            if Ascii.eqb c " " then String "+" (escape r mode)
            else String "%" (String (hexDigit (code c / 16))
                   (String (hexDigit (code c mod 16)) (escape r mode)))
        | _ => String "%" (String (hexDigit (code c / 16))
                   (String (hexDigit (code c mod 16)) (escape r mode)))
        end
      else String c (escape r mode)
  end.

Fixpoint validEncoded (s : string) (mode : encoding) : bool :=
  match s with
  | "" => true
  | String c r =>
      (inSet "!$&'()*+,;=:@[]%" c || negb (shouldEscape c mode))
      && validEncoded r mode
  end.

Definition setPath (u : URL) (p : string) : result URL :=
  match unescape encodePath p with
  | Err e => Err e
  | Ok path =>
      let raw := if String.eqb p (escape path encodePath) then "" else p in
      Ok {| Scheme := Scheme u; Opaque := Opaque u; User := User u;
            Host := Host u; Path := path; RawPath := raw;
            OmitHost := OmitHost u; ForceQuery := ForceQuery u;
            RawQuery := RawQuery u; Fragment := Fragment u;
            RawFragment := RawFragment u |}
  end.

Definition EscapedPath (u : URL) : string :=
  let viaRaw :=
    if negb (String.eqb (RawPath u) "") && validEncoded (RawPath u) encodePath then
      match unescape encodePath (RawPath u) with
      | Ok p => String.eqb p (Path u)
      | Err _ => false
      end
    else false in
  if viaRaw then RawPath u
  else if String.eqb (Path u) "*" then "*"
  else escape (Path u) encodePath.

Definition setFragment (u : URL) (f : string) : result URL :=
  match unescape encodeFragment f with
  | Err e => Err e
  | Ok frag =>
      let raw := if String.eqb f (escape frag encodeFragment) then "" else f in
      Ok {| Scheme := Scheme u; Opaque := Opaque u; User := User u;
            Host := Host u; Path := Path u; RawPath := RawPath u;
            OmitHost := OmitHost u; ForceQuery := ForceQuery u;
            RawQuery := RawQuery u; Fragment := frag;
            RawFragment := raw |}
  end.

Definition EscapedFragment (u : URL) : string :=
  let viaRaw :=
    if negb (String.eqb (RawFragment u) "")
       && validEncoded (RawFragment u) encodeFragment then
      match unescape encodeFragment (RawFragment u) with
      | Ok f => String.eqb f (Fragment u)
      | Err _ => false
      end
    else false in
  if viaRaw then RawFragment u else escape (Fragment u) encodeFragment.

(** The scheme scan of [getScheme]: [Some (scheme, rest)] when a
    colon ends a run of scheme bytes that starts with a letter. *)
Fixpoint scanScheme (first : bool) (s : string) : option (string * string) :=
  match s with
  | "" => None
  | String c r =>
      let continue :=
        match scanScheme false r with
        | Some (sch, rest) => Some (String c sch, rest)
        | None => None
        end in
      if isAlpha c then continue
      else if isDigit c || inSet "+-." c then
        if first then None else continue
      else if Ascii.eqb c ":" then
        if first then None else Some ("", r)
      else None
  end.

Definition getScheme (rawURL : string) : result (string * string) :=
  match rawURL with
  | String ":" _ => Err (LibError "net/url" "missing protocol scheme")
  | _ =>
      match scanScheme true rawURL with
      | Some (sch, rest) => Ok (sch, rest)
      | None => Ok ("", rawURL)
      end
  end.

Fixpoint allDigits (s : string) : bool :=
  match s with
  | "" => true
  | String c r => isDigit c && allDigits r
  end.

Definition validOptionalPort (port : string) : bool :=
  match port with
  | "" => true
  | String c r => Ascii.eqb c ":" && allDigits r
  end.

Definition portError : liberror := LibError "net/url" "invalid port after host".

(** [s[:i]] and [s[i:]] for [i = strings.Index(s, "%25")], when there
    is one. *)
Fixpoint cutZone (s : string) : option (string * string) :=
  match s with
  | "" => None
  | String c r =>
      if Strings.HasPrefix s "%25" then Some ("", s)
      else match cutZone r with
           | Some (a, b) => Some (String c a, b)
           | None => None
           end
  end.

(** An IP literal in brackets may carry a zone after [%25] (RFC 6874):
    the address before it and the bracket after it are read as a host,
    the zone with the rules of a zone. *)
Definition parseHost (host : string) : result string :=
  if Strings.HasPrefix host "[" then
    if negb (Strings.Contains host "]") then
      Err (LibError "net/url" "missing ']' in host")
    else if negb (validOptionalPort (Strings.afterLast host "]")) then
      Err portError
    else
      match cutZone (Strings.beforeLast host "]") with
      | Some (address, zone) =>
          match unescape encodeHost address with
          | Err e => Err e
          | Ok host1 =>
              match unescape encodeZone zone with
              | Err e => Err e
              | Ok host2 =>
                  match unescape encodeHost
                          (String "]" (Strings.afterLast host "]")) with
                  | Err e => Err e
                  | Ok host3 => Ok (host1 ++ host2 ++ host3)
                  end
              end
          end
      | None => unescape encodeHost host
      end
  else if Strings.Contains host ":" then
    if negb (validOptionalPort (String ":" (Strings.afterLast host ":"))) then
      Err portError
    else unescape encodeHost host
  else unescape encodeHost host.

Fixpoint validUserinfo (s : string) : bool :=
  match s with
  | "" => true
  | String c r =>
      (isAlnum c || inSet "-._:~!$&'()*+,;=%@" c) && validUserinfo r
  end.

Definition parseAuthority (authority : string)
  : result (option Userinfo * string) :=
  if negb (Strings.Contains authority "@") then
    match parseHost authority with
    | Ok host => Ok (None, host)
    | Err e => Err e
    end
  else
    match parseHost (Strings.afterLast authority "@") with
    | Err e => Err e
    | Ok host =>
        let userinfo := Strings.beforeLast authority "@" in
        if negb (validUserinfo userinfo) then
          Err (LibError "net/url" "invalid userinfo")
        else if negb (Strings.Contains userinfo ":") then
          match unescape encodeUserPassword userinfo with
          | Err e => Err e
          | Ok n =>
              Ok (Some {| username := n; password := "";
                          passwordSet := false |}, host)
          end
        else
          let '(n, p, _) := Strings.Cut userinfo ":" in
          match unescape encodeUserPassword n, unescape encodeUserPassword p with
          | Ok n', Ok p' =>
              Ok (Some {| username := n'; password := p';
                          passwordSet := true |}, host)
          | Err e, _ => Err e
          | _, Err e => Err e
          end
    end.

Fixpoint stringContainsCTLByte (s : string) : bool :=
  match s with
  | "" => false
  | String c r =>
      (code c <? 32)%N || (code c =? 127)%N || stringContainsCTLByte r
  end.

(** [parse(rawURL, false)] *)
Definition parse (rawURL : string) : result URL :=
  if stringContainsCTLByte rawURL then
    Err (LibError "net/url" "invalid control character in URL")
  else if String.eqb rawURL "*" then
    Ok {| Scheme := ""; Opaque := ""; User := None; Host := ""; Path := "*";
          RawPath := ""; OmitHost := false; ForceQuery := false;
          RawQuery := ""; Fragment := ""; RawFragment := "" |}
  else
    match getScheme rawURL with
    | Err e => Err e
    | Ok (scheme0, rest0) =>
        let scheme := Strings.ToLower scheme0 in
        let '(rest1, rawQuery, forceQuery) :=
          if Strings.HasSuffix rest0 "?" && (Strings.Count rest0 "?" =? 1)%nat
          then (Strings.dropLast rest0, "", true)
          else let '(b, a, _) := Strings.Cut rest0 "?" in (b, a, false) in
        let mk user host omit :=
          {| Scheme := scheme; Opaque := ""; User := user; Host := host;
             Path := ""; RawPath := ""; OmitHost := omit;
             ForceQuery := forceQuery; RawQuery := rawQuery;
             Fragment := ""; RawFragment := "" |} in
        let rooted := Strings.HasPrefix rest1 "/" in
        if negb rooted && negb (String.eqb scheme "") then
          Ok {| Scheme := scheme; Opaque := rest1; User := None; Host := "";
                Path := ""; RawPath := ""; OmitHost := false;
                ForceQuery := forceQuery; RawQuery := rawQuery;
                Fragment := ""; RawFragment := "" |}
        else if negb rooted
                && Strings.Contains (fst (fst (Strings.Cut rest1 "/"))) ":"
        then Err (LibError "net/url"
                    "first path segment in URL cannot contain colon")
        else if (negb (String.eqb scheme "")
                 || negb (Strings.HasPrefix rest1 "///"))
                && Strings.HasPrefix rest1 "//" then
          let '(authority, after, found) :=
            Strings.Cut (String.substring 2 (String.length rest1 - 2) rest1) "/" in
          let rest2 := if found then String "/" after else "" in
          match parseAuthority authority with
          | Err e => Err e
          | Ok (user, host) => setPath (mk user host false) rest2
          end
        else if negb (String.eqb scheme "") && rooted then
          setPath (mk None "" true) rest1
        else setPath (mk None "" false) rest1
    end.

Definition Parse (rawURL : string) : result URL :=
  let '(u, frag, _) := Strings.Cut rawURL "#" in
  match parse u with
  | Err e => Err e
  | Ok url =>
      if String.eqb frag "" then Ok url else setFragment url frag
  end.

(** One round of the loop of [resolvePath] over the element [elem];
    the state is the builder [dst] and the flag [first]. *)
Definition resolveStep (st : string * bool) (elem : string) : string * bool :=
  let '(dst, first) := st in
  if String.eqb elem "." then (dst, false)
  else if String.eqb elem ".." then
    let str := String.substring 1 (String.length dst - 1) dst in
    if Strings.Contains str "/"
    then (String "/" (Strings.beforeLast str "/"), first)
    else ("/", true)
  else ((if first then dst else dst ++ "/") ++ elem, false).

Definition resolvePath (base ref : string) : string :=
  let full :=
    match ref with
    | "" => base
    | String c _ =>
        if Ascii.eqb c "/" then ref
        else Strings.throughLast base "/" ++ ref
    end in
  if String.eqb full "" then ""
  else
    let elems := Strings.Split full "/" in
    let '(dst, _) := fold_left resolveStep elems ("/", true) in
    let last := List.last elems "" in
    let dst :=
      if String.eqb last "." || String.eqb last ".." then dst ++ "/" else dst in
    match dst with
    | String _ (String "/" _ as r) => r
    | _ => dst
    end.

(** [setPath] whose error [ResolveReference] drops. *)
Definition setPath_ignore (u : URL) (p : string) : URL :=
  match setPath u p with
  | Ok u' => u'
  | Err _ => u
  end.

Definition ResolveReference (u ref : URL) : URL :=
  let url0 :=
    {| Scheme := if String.eqb (Scheme ref) "" then Scheme u else Scheme ref;
       Opaque := Opaque ref; User := User ref; Host := Host ref;
       Path := Path ref; RawPath := RawPath ref; OmitHost := OmitHost ref;
       ForceQuery := ForceQuery ref; RawQuery := RawQuery ref;
       Fragment := Fragment ref; RawFragment := RawFragment ref |} in
  let rebase (user : option Userinfo) (host op : string) (x : URL) :=
    {| Scheme := Scheme x; Opaque := op; User := user; Host := host;
       Path := ""; RawPath := RawPath x; OmitHost := OmitHost x;
       ForceQuery := ForceQuery x; RawQuery := RawQuery x;
       Fragment := Fragment x; RawFragment := RawFragment x |} in
  if negb (String.eqb (Scheme ref) "") || negb (String.eqb (Host ref) "")
     || (match User ref with Some _ => true | None => false end) then
    setPath_ignore url0 (resolvePath (EscapedPath ref) "")
  else if negb (String.eqb (Opaque ref) "") then
    rebase None "" (Opaque ref) url0
  else
    let url1 :=
      if String.eqb (Path ref) "" && negb (ForceQuery ref)
         && String.eqb (RawQuery ref) "" then
        {| Scheme := Scheme url0; Opaque := Opaque url0; User := User url0;
           Host := Host url0; Path := Path url0; RawPath := RawPath url0;
           OmitHost := OmitHost url0; ForceQuery := ForceQuery url0;
           RawQuery := RawQuery u;
           Fragment := if String.eqb (Fragment ref) "" then Fragment u
                       else Fragment url0;
           RawFragment := if String.eqb (Fragment ref) "" then RawFragment u
                          else RawFragment url0 |}
      else url0 in
    if String.eqb (Path ref) "" && negb (String.eqb (Opaque u) "") then
      rebase None "" (Opaque u) url1
    else
      let url2 :=
        {| Scheme := Scheme url1; Opaque := Opaque url1; User := User u;
           Host := Host u; Path := Path url1; RawPath := RawPath url1;
           OmitHost := OmitHost url1; ForceQuery := ForceQuery url1;
           RawQuery := RawQuery url1; Fragment := Fragment url1;
           RawFragment := RawFragment url1 |} in
      setPath_ignore url2 (resolvePath (EscapedPath u) (EscapedPath ref)).

(** [u.Parse(ref)] *)
Definition URL_Parse (u : URL) (ref : string) : result URL :=
  match Parse ref with
  | Err e => Err e
  | Ok refURL => Ok (ResolveReference u refURL)
  end.

Definition Userinfo_String (ui : Userinfo) : string :=
  escape (username ui) encodeUserPassword
  ++ (if passwordSet ui
      then String ":" (escape (password ui) encodeUserPassword) else "").

Definition URL_String (u : URL) : string :=
  let scheme := if String.eqb (Scheme u) "" then "" else Scheme u ++ ":" in
  let tail :=
    (if ForceQuery u || negb (String.eqb (RawQuery u) "")
     then String "?" (RawQuery u) else "")
    ++ (if String.eqb (Fragment u) "" then ""
        else String "#" (EscapedFragment u)) in
  if negb (String.eqb (Opaque u) "") then scheme ++ Opaque u ++ tail
  else
    let hasUser := match User u with Some _ => true | None => false end in
    let authority :=
      if negb (String.eqb (Scheme u) "") || negb (String.eqb (Host u) "")
         || hasUser then
        if OmitHost u && String.eqb (Host u) "" && negb hasUser then ""
        else
          (if negb (String.eqb (Host u) "") || negb (String.eqb (Path u) "")
              || hasUser then "//" else "")
          ++ (match User u with
              | Some ui => Userinfo_String ui ++ "@"
              | None => ""
              end)
          ++ (if String.eqb (Host u) "" then "" else escape (Host u) encodeHost)
      else "" in
    let path := EscapedPath u in
    let slash :=
      match path with
      | String c _ =>
          if negb (Ascii.eqb c "/") && negb (String.eqb (Host u) "")
          then "/" else ""
      | "" => ""
      end in
    let buf := scheme ++ authority ++ slash in
    let dot :=
      if String.eqb buf ""
         && Strings.Contains (fst (fst (Strings.Cut path "/"))) ":"
      then "./" else "" in
    buf ++ dot ++ path ++ tail.

(** [ParseQuery], whose error [Query] drops: the pairs it keeps, in
    the order of the query string. *)
Definition queryPair (piece : string) : option (string * string) :=
  if Strings.Contains piece ";" then None
  else if String.eqb piece "" then None
  else
    let '(k, v, _) := Strings.Cut piece "=" in
    match unescape encodeQueryComponent k, unescape encodeQueryComponent v with
    | Ok k', Ok v' => Some (k', v')
    | _, _ => None
    end.

(** [u.Host = host] *)
Definition setHost (u : URL) (host : string) : URL :=
{| Scheme := Scheme u; Opaque := Opaque u; User := User u; Host := host;
   Path := Path u; RawPath := RawPath u; OmitHost := OmitHost u;
   ForceQuery := ForceQuery u; RawQuery := RawQuery u;
   Fragment := Fragment u; RawFragment := RawFragment u |}.

Definition Values : Type := list (string * string).

Definition Query (u : URL) : Values :=
  omap queryPair (Strings.Split (RawQuery u) "&").

Fixpoint Values_Get (v : Values) (key : string) : string :=
  match v with
  | [] => ""
  | (k, x) :: r => if String.eqb k key then x else Values_Get r key
  end.

(** [u.RawQuery = q] *)
Definition setRawQuery (u : URL) (q : string) : URL :=
{| Scheme := Scheme u; Opaque := Opaque u; User := User u; Host := Host u;
   Path := Path u; RawPath := RawPath u; OmitHost := OmitHost u;
   ForceQuery := ForceQuery u; RawQuery := q;
   Fragment := Fragment u; RawFragment := RawFragment u |}.

Definition QueryEscape (s : string) : string := escape s encodeQueryComponent.

Definition QueryUnescape (s : string) : result string :=
  unescape encodeQueryComponent s.

(** [v.Add(key, value)]: the value comes after those the key has. *)
Definition Values_Add (v : Values) (key value : string) : Values :=
  (v ++ [(key, value)])%list.

(** The keys of [v], each once, in the order of [slices.Sort]: byte by
    byte, a proper prefix first. *)
Fixpoint insertKey (k : string) (keys : list string) : list string :=
  match keys with
  | [] => [k]
  | h :: t =>
      match String.compare k h with
      | Lt => k :: keys
      | Eq => keys
      | Gt => h :: insertKey k t
      end
  end.

Definition sortedKeys (v : Values) : list string :=
  fold_right (fun kv keys => insertKey (fst kv) keys) [] v.

(** [v.Encode()]: key by key in sorted order, the values of a key in
    the order they were added, [&] before every pair but the first. *)
Definition Values_Encode (v : Values) : string :=
  fold_left
    (fun buf k =>
       fold_left
         (fun buf kv =>
            if String.eqb (fst kv) k then
              (if (0 <? String.length buf)%nat then buf ++ "&" else buf)
              ++ QueryEscape k ++ "=" ++ QueryEscape (snd kv)
            else buf)
         v buf)
    (sortedKeys v) "".

End Url.

(** ** Package unicode/utf8 *)
Module Utf8.

Definition cont (c : ascii) : bool := between 128 191 c.

(** Length of the well-formed sequence at the head of [s]; [0] when
    the head byte starts none ([DecodeRune] then gives [RuneError]
    with size 1). *)
Definition width (s : string) : nat :=
  match s with
  | "" => 0%nat
  | String c0 r =>
      if (code c0 <? 128)%N then 1%nat
      else if between 194 223 c0 then
        match r with
        | String c1 _ => if cont c1 then 2%nat else 0%nat
        | _ => 0%nat
        end
      else if between 224 239 c0 then
        match r with
        | String c1 (String c2 _) =>
            let lo := if (code c0 =? 224)%N then 160%N else 128%N in
            let hi := if (code c0 =? 237)%N then 159%N else 191%N in
            if between lo hi c1 && cont c2 then 3%nat else 0%nat
        | _ => 0%nat
        end
      else if between 240 244 c0 then
        match r with
        | String c1 (String c2 (String c3 _)) =>
            let lo := if (code c0 =? 240)%N then 144%N else 128%N in
            let hi := if (code c0 =? 244)%N then 143%N else 191%N in
            if between lo hi c1 && cont c2 && cont c3 then 4%nat else 0%nat
        | _ => 0%nat
        end
      else 0%nat
  end.

Fixpoint ValidString (s : string) : bool :=
  match s with
  | "" => true
  | String _ r =>
      match width s, r with
      | 1%nat, _ => ValidString r
      | 2%nat, String _ r2 => ValidString r2
      | 3%nat, String _ (String _ r3) => ValidString r3
      | 4%nat, String _ (String _ (String _ r4)) => ValidString r4
      | _, _ => false
      end
  end.

(** U+FFFD in UTF-8 *)
Definition RuneError : string :=
  String (ascii_of_N 239) (String (ascii_of_N 191) (String (ascii_of_N 189) "")).

(** [AppendRune] to the empty buffer: the UTF-8 form of a code point. *)
Definition AppendRune (r : N) : string :=
  let b (n : N) := ascii_of_N n in
  (if r <=? 127 then String (b r) ""
   else if r <=? 2047 then
     String (b (192 + r / 64)) (String (b (128 + r mod 64)) "")
   else if (1114111 <? r) || ((55296 <=? r) && (r <=? 57343)) then RuneError
   else if r <=? 65535 then
     String (b (224 + r / 4096))
       (String (b (128 + (r / 64) mod 64)) (String (b (128 + r mod 64)) ""))
   else
     String (b (240 + r / 262144))
       (String (b (128 + (r / 4096) mod 64))
          (String (b (128 + (r / 64) mod 64))
             (String (b (128 + r mod 64)) ""))))%N.

End Utf8.

(** ** Package encoding/json

    A JSON document is a [value]; a number is kept as its text.  The
    parser follows the scanner's grammar and its nesting limit; the
    printer is the compact encoder with HTML escaping off. *)
Module Json.

#[local] Unset Elimination Schemes.
Inductive value : Type :=
| Null
| Bool (b : bool)
| Number (lit : string)
| Str (s : string)
| Array (l : list value)
| Object (m : list (string * value)).
#[local] Set Elimination Schemes.

Definition syntaxError : liberror := LibError "encoding/json" "syntax error".

Definition isSpace (c : ascii) : bool :=
  Ascii.eqb c " " || Ascii.eqb c TAB || Ascii.eqb c CR || Ascii.eqb c LF.

Fixpoint skipSpace (s : string) : string :=
  match s with
  | "" => ""
  | String c r => if isSpace c then skipSpace r else s
  end.

(** *** String literals *)

Definition hex4 (a b c d : ascii) : option N :=
  if Url.ishex a && Url.ishex b && Url.ishex c && Url.ishex d then
    Some (4096 * Url.unhex a + 256 * Url.unhex b + 16 * Url.unhex c + Url.unhex d)%N
  else None.

Definition simpleEscape (e : ascii) : option ascii :=
  if Ascii.eqb e DQ then Some DQ
  else if Ascii.eqb e BSL then Some BSL
  else if Ascii.eqb e "/" then Some "/"%char
  else if Ascii.eqb e "b" then Some (ascii_of_N 8)
  else if Ascii.eqb e "f" then Some (ascii_of_N 12)
  else if Ascii.eqb e "n" then Some LF
  else if Ascii.eqb e "r" then Some CR
  else if Ascii.eqb e "t" then Some TAB
  else None.

Definition isSurrogate (r : N) : bool := ((55296 <=? r) && (r <=? 57343))%N.

(** [utf16.DecodeRune]: the code point of a surrogate pair, if it is one *)
Definition decodePair (r1 r2 : N) : option N :=
  if ((55296 <=? r1) && (r1 <=? 56319) && (56320 <=? r2) && (r2 <=? 57343))%N
  then Some ((r1 - 55296) * 1024 + (r2 - 56320) + 65536)%N
  else None.

Definition push (p : string) (k : option (string * string))
  : option (string * string) :=
  match k with
  | Some (t, rest) => Some (p ++ t, rest)
  | None => None
  end.

(** The text of a string literal after its opening quote: the string
    it denotes and what follows the closing quote. *)
Fixpoint unquote (s : string) : option (string * string) :=
  match s with
  | "" => None
  | String c r =>
      if Ascii.eqb c DQ then Some ("", r)
      else if Ascii.eqb c BSL then
        match r with
        | "" => None
        | String e r1 =>
            match simpleEscape e with
            | Some d => push (String d "") (unquote r1)
            | None =>
                if Ascii.eqb e "u" then
                  match r1 with
                  | String h1 (String h2 (String h3 (String h4 r2))) =>
                      match hex4 h1 h2 h3 h4 with
                      | None => None
                      | Some rr =>
                          if isSurrogate rr then
                            match r2 with
                            | String b1 (String u1 (String g1 (String g2
                                (String g3 (String g4 r3))))) =>
                                match
                                  (if Ascii.eqb b1 BSL && Ascii.eqb u1 "u"
                                   then hex4 g1 g2 g3 g4 else None)
                                with
                                | Some rr1 =>
                                    match decodePair rr rr1 with
                                    | Some dec =>
                                        push (Utf8.AppendRune dec) (unquote r3)
                                    | None => push Utf8.RuneError (unquote r2)
                                    end
                                | None => push Utf8.RuneError (unquote r2)
                                end
                            | _ => push Utf8.RuneError (unquote r2)
                            end
                          else push (Utf8.AppendRune rr) (unquote r2)
                      end
                  | _ => None
                  end
                else None
            end
        end
      else if (code c <? 32)%N then None
      else if (code c <? 128)%N then push (String c "") (unquote r)
      else
        match Utf8.width s, r with
        | 2%nat, String c1 r2 =>
            push (String c (String c1 "")) (unquote r2)
        | 3%nat, String c1 (String c2 r3) =>
            push (String c (String c1 (String c2 ""))) (unquote r3)
        | 4%nat, String c1 (String c2 (String c3 r4)) =>
            push (String c (String c1 (String c2 (String c3 "")))) (unquote r4)
        | _, _ => push Utf8.RuneError (unquote r)
        end
  end.

(** *** Numbers *)

Inductive nstate : Type :=
| NStart | NNeg | NZero | NInt | NDot | NFrac | NE | NESign | NExp.

Definition isExp (c : ascii) : bool := Ascii.eqb c "e" || Ascii.eqb c "E".

Definition nstep (st : nstate) (c : ascii) : option nstate :=
  match st with
  | NStart =>
      if Ascii.eqb c "-" then Some NNeg
      else if Ascii.eqb c "0" then Some NZero
      else if isDigit c then Some NInt else None
  | NNeg =>
      if Ascii.eqb c "0" then Some NZero
      else if isDigit c then Some NInt else None
  | NZero =>
      if Ascii.eqb c "." then Some NDot
      else if isExp c then Some NE else None
  | NInt =>
      if isDigit c then Some NInt
      else if Ascii.eqb c "." then Some NDot
      else if isExp c then Some NE else None
  | NDot => if isDigit c then Some NFrac else None
  | NFrac =>
      if isDigit c then Some NFrac
      else if isExp c then Some NE else None
  | NE =>
      if Ascii.eqb c "+" || Ascii.eqb c "-" then Some NESign
      else if isDigit c then Some NExp else None
  | NESign => if isDigit c then Some NExp else None
  | NExp => if isDigit c then Some NExp else None
  end.

Definition naccept (st : nstate) : bool :=
  match st with
  | NZero | NInt | NFrac | NExp => true
  | _ => false
  end.

(** The longest run of [s] the number grammar can follow from [st]:
    the run, the rest, and the state reached. *)
Fixpoint scanNumber (st : nstate) (s : string) : string * string * nstate :=
  match s with
  | "" => ("", "", st)
  | String c r =>
      match nstep st c with
      | Some st' =>
          let '(lit, rest, fin) := scanNumber st' r in (String c lit, rest, fin)
      | None => ("", s, st)
      end
  end.

Definition isValidNumber (lit : string) : bool :=
  let '(_, rest, fin) := scanNumber NStart lit in
  String.eqb rest "" && naccept fin.

(** *** Values *)

Definition maxNestingDepth : N := 10000.

Definition literal (word : string) (v : value) (s : string)
  : option (value * string) :=
  if String.prefix word s
  then Some (v, String.substring (String.length word)
                  (String.length s - String.length word) s)
  else None.

(** [s] starts at the first byte of the value. *)
Fixpoint parseValue (fuel : nat) (depth : N) (s : string) {struct fuel}
  : option (value * string) :=
  match fuel with
  | O => None
  | S f =>
      match s with
      | "" => None
      | String c r =>
          if Ascii.eqb c "{" then
            if (maxNestingDepth <=? depth)%N then None
            else
              match skipSpace r with
              | "" => None
              | String c1 r1 as s1 =>
                  if Ascii.eqb c1 "}" then Some (Object [], r1)
                  else
                    match parseMembers f (depth + 1)%N s1 with
                    | Some (m, r2) => Some (Object m, r2)
                    | None => None
                    end
              end
          else if Ascii.eqb c "[" then
            if (maxNestingDepth <=? depth)%N then None
            else
              match skipSpace r with
              | "" => None
              | String c1 r1 as s1 =>
                  if Ascii.eqb c1 "]" then Some (Array [], r1)
                  else
                    match parseElements f (depth + 1)%N s1 with
                    | Some (l, r2) => Some (Array l, r2)
                    | None => None
                    end
              end
          else if Ascii.eqb c DQ then
            match unquote r with
            | Some (t, r1) => Some (Str t, r1)
            | None => None
            end
          else if Ascii.eqb c "t" then literal "true" (Bool true) s
          else if Ascii.eqb c "f" then literal "false" (Bool false) s
          else if Ascii.eqb c "n" then literal "null" Null s
          else
            let '(lit, rest, fin) := scanNumber NStart s in
            if naccept fin then Some (Number lit, rest) else None
      end
  end

(** after ['['] or [','], white space skipped: a value, then [','] or [']'] *)
with parseElements (fuel : nat) (depth : N) (s : string) {struct fuel}
  : option (list value * string) :=
  match fuel with
  | O => None
  | S f =>
      match parseValue f depth s with
      | None => None
      | Some (v, r) =>
          match skipSpace r with
          | "" => None
          | String c r1 =>
              if Ascii.eqb c "," then
                match parseElements f depth (skipSpace r1) with
                | Some (l, r2) => Some (v :: l, r2)
                | None => None
                end
              else if Ascii.eqb c "]" then Some ([v], r1)
              else None
          end
      end
  end

(** after ['{'] or [','], white space skipped: a key, [':'], a value,
    then [','] or ['}'] *)
with parseMembers (fuel : nat) (depth : N) (s : string) {struct fuel}
  : option (list (string * value) * string) :=
  match fuel with
  | O => None
  | S f =>
      match s with
      | "" => None
      | String q r =>
          if negb (Ascii.eqb q DQ) then None
          else
            match unquote r with
            | None => None
            | Some (k, r1) =>
                match skipSpace r1 with
                | "" => None
                | String c r2 =>
                    if negb (Ascii.eqb c ":") then None
                    else
                      match parseValue f depth (skipSpace r2) with
                      | None => None
                      | Some (v, r3) =>
                          match skipSpace r3 with
                          | "" => None
                          | String c3 r4 =>
                              if Ascii.eqb c3 "," then
                                match parseMembers f depth (skipSpace r4) with
                                | Some (m, r5) => Some ((k, v) :: m, r5)
                                | None => None
                                end
                              else if Ascii.eqb c3 "}" then Some ([(k, v)], r4)
                              else None
                          end
                      end
                end
            end
      end
  end.

(** Fuel that no input exhausts: every call that spends a unit has
    read a byte first, or is followed by one that has. *)
Definition fuelFor (s : string) : nat := (2 * String.length s + 2)%nat.

(** The first value of a stream, as [Decoder.Decode] reads it: what
    follows the value stays unread. *)
Definition readValue (data : string) : result value :=
  match skipSpace data with
  | "" => Err EOF
  | s =>
      match parseValue (fuelFor s) 0 s with
      | Some (v, _) => Ok v
      | None => Err syntaxError
      end
  end.

(** The one value of a document, as [Unmarshal] checks it: only white
    space may follow. *)
Definition parseDocument (data : string) : result value :=
  let s := skipSpace data in
  match parseValue (fuelFor s) 0 s with
  | Some (v, rest) =>
      if String.eqb (skipSpace rest) "" then Ok v else Err syntaxError
  | None => Err syntaxError
  end.

(** *** The encoder ([SetEscapeHTML(false)]) *)

Definition hexLower (n : N) : ascii :=
  match String.get (N.to_nat n) "0123456789abcdef" with
  | Some c => c
  | None => "0"%char
  end.

Definition escapeByte (c : ascii) : string :=
  if Ascii.eqb c BSL || Ascii.eqb c DQ then String BSL (String c "")
  else if (code c =? 8)%N then String BSL "b"
  else if (code c =? 12)%N then String BSL "f"
  else if Ascii.eqb c LF then String BSL "n"
  else if Ascii.eqb c CR then String BSL "r"
  else if Ascii.eqb c TAB then String BSL "t"
  else String BSL (String "u" (String "0" (String "0"
         (String (hexLower (code c / 16)) (String (hexLower (code c mod 16)) ""))))).

(** [safeSet]: the ASCII bytes written as they are *)
Definition safe (c : ascii) : bool :=
  (32 <=? code c)%N && negb (Ascii.eqb c DQ) && negb (Ascii.eqb c BSL).

Definition isE2 (c : ascii) : bool := (code c =? 226)%N.

(** the bytes of a string between the quotes *)
Fixpoint encodeBytes (s : string) : string :=
  match s with
  | "" => ""
  | String c r =>
      if (code c <? 128)%N then
        (if safe c then String c "" else escapeByte c) ++ encodeBytes r
      else
        match Utf8.width s, r with
        | 2%nat, String c1 r2 => String c (String c1 (encodeBytes r2))
        | 3%nat, String c1 (String c2 r3) =>
            if isE2 c && (code c1 =? 128)%N
               && ((code c2 =? 168)%N || (code c2 =? 169)%N)
            then String BSL (String "u" (String "2" (String "0" (String "2"
                   (String (hexLower (code c2 - 160)) (encodeBytes r3))))))
            else String c (String c1 (String c2 (encodeBytes r3)))
        | 4%nat, String c1 (String c2 (String c3 r4)) =>
            String c (String c1 (String c2 (String c3 (encodeBytes r4))))
        | _, _ => String BSL "ufffd" ++ encodeBytes r
        end
  end.

Definition encodeString (s : string) : string :=
  String DQ (encodeBytes s ++ String DQ "").

Fixpoint encodeValue (v : value) : option string :=
  match v with
  | Null => Some "null"
  | Bool true => Some "true"
  | Bool false => Some "false"
  | Number lit => if isValidNumber lit then Some lit else None
  | Str s => Some (encodeString s)
  | Array l =>
      let fix elems (l : list value) : option string :=
        match l with
        | [] => Some ""
        | [v] => encodeValue v
        | v :: l' =>
            match encodeValue v, elems l' with
            | Some a, Some b => Some (a ++ String "," b)
            | _, _ => None
            end
        end in
      match elems l with
      | Some t => Some (String "[" (t ++ "]"))
      | None => None
      end
  | Object m =>
      let fix members (m : list (string * value)) : option string :=
        match m with
        | [] => Some ""
        | [(k, v)] =>
            match encodeValue v with
            | Some a => Some (encodeString k ++ String ":" a)
            | None => None
            end
        | (k, v) :: m' =>
            match encodeValue v, members m' with
            | Some a, Some b =>
                Some (encodeString k ++ String ":" (a ++ String "," b))
            | _, _ => None
            end
        end in
      match members m with
      | Some t => Some (String "{" (t ++ "}"))
      | None => None
      end
  end.

(** [Encoder.Encode]: the value, then a newline. *)
Definition Encode (v : value) : result string :=
  match encodeValue v with
  | Some t => Ok (t ++ String LF "")
  | None => Err (LibError "encoding/json" "unsupported value")
  end.

(** *** What the encoder and the parser preserve *)

Fixpoint depth (v : value) : N :=
  match v with
  | Array l => (1 + fold_right (fun x d => N.max (depth x) d) 0 l)%N
  | Object m => (1 + fold_right (fun kv d => N.max (depth (snd kv)) d) 0 m)%N
  | _ => 0%N
  end.

Fixpoint textValid (v : value) : bool :=
  match v with
  | Str s => Utf8.ValidString s
  | Array l => forallb textValid l
  | Object m =>
      forallb (fun kv => Utf8.ValidString (fst kv) && textValid (snd kv)) m
  | _ => true
  end.

End Json.

(** ** Package io

    A body is the bytes the transport delivers, whole: [ReadAll] gives
    them with no error. *)
Module Io.

Definition ReadAll (body : string) : string * option liberror := (body, None).

(** An [io.Writer]: a buffer that keeps what it is given (as
    [bytes.Buffer] does), or a writer of the caller whose [Write]
    reports [e], an error of whatever type [E] the caller has. *)
Inductive Writer (E : Type) : Type :=
| Buffer (content : string)
| Failing (e : E).
Arguments Buffer {E} content.
Arguments Failing {E} e.

(** [Copy] writes what it reads and returns the error of the writer
    as it is; with nothing to read, nothing is written. *)
Definition Copy {E} (w : Writer E) (body : string) : Writer E * option E :=
  match w with
  | Buffer b => (Buffer (b ++ body), None)
  | Failing e => if String.eqb body "" then (w, None) else (w, Some e)
  end.

End Io.

(** ** Package net/http *)
Module Http.

Abbreviation Header := (gmap string (list string)).

Definition StatusOK : Z := 200.
Definition StatusNoContent : Z := 204.
Definition StatusBadRequest : Z := 400.
Definition StatusUnauthorized : Z := 401.
Definition StatusForbidden : Z := 403.
Definition StatusNotFound : Z := 404.
Definition StatusConflict : Z := 409.
Definition StatusUnprocessableEntity : Z := 422.
Definition StatusTooManyRequests : Z := 429.
Definition StatusInternalServerError : Z := 500.

Definition isToken (c : ascii) : bool :=
  isAlnum c || inSet "!#$%&'*+-.^_`|~" c.

Fixpoint allToken (s : string) : bool :=
  match s with
  | "" => true
  | String c r => isToken c && allToken r
  end.

Fixpoint canonical (upper : bool) (s : string) : string :=
  match s with
  | "" => ""
  | String c r =>
      let c' := if upper then toUpper c else toLower c in
      String c' (canonical (Ascii.eqb c' "-") r)
  end.

Definition CanonicalMIMEHeaderKey (s : string) : string :=
  if allToken s then canonical true s else s.

Definition Header_Get (h : Header) (key : string) : string :=
  match h !! CanonicalMIMEHeaderKey key with
  | Some (v :: _) => v
  | _ => ""
  end.

Definition Header_Set (h : Header) (key value : string) : Header :=
  <[CanonicalMIMEHeaderKey key := [value]]> h.

Record Request : Type := {
  Method : string;
  URL : Url.URL;
  ReqHeader : Header;
  ReqBody : option string;
  ReqHost : string }.

Record Response : Type := {
  StatusCode : Z;
  Header_ : Header;
  Body : string }.

Definition validMethod (method : string) : bool :=
  negb (String.eqb method "") && allToken method.

Definition removeEmptyPort (host : string) : string :=
  if Strings.HasSuffix host ":" then Strings.dropLast host else host.

(** [NewRequestWithContext] with a live context *)
Definition NewRequestWithContext (method url : string) (body : option string)
  : result Request :=
  let method := if String.eqb method "" then "GET" else method in
  if negb (validMethod method) then
    Err (LibError "net/http" "invalid method")
  else
    match Url.Parse url with
    | Err e => Err e
    | Ok u =>
        let host := removeEmptyPort (Url.Host u) in
        let u' := Url.setHost u host in
        Ok {| Method := method; URL := u'; ReqHeader := ∅;
              ReqBody := body; ReqHost := host |}
    end.

Definition Request_SetHeader (req : Request) (key value : string) : Request :=
  {| Method := Method req; URL := URL req;
     ReqHeader := Header_Set (ReqHeader req) key value;
     ReqBody := ReqBody req; ReqHost := ReqHost req |}.

(** An HTTP client: its timeout (seconds) and what sending a request
    gives, a response or a transport error. *)
Record Client : Type := {
  Timeout : Z;
  Do : Request -> result Response }.

End Http.

(** ** Package sevalla *)
Module Sevalla.

(** *** errors.go *)

Module ErrorDetail.
Record t : Type := mk {
  Field : string;
  Code : string;
  Message : string }.
Definition zero : t := mk "" "" "".
End ErrorDetail.

(** An [ErrorResponse] points at the response it was built from:
    [CheckResponse] sets the field; a struct literal may leave it
    nil. *)
Module ErrorResponse.
Record t : Type := mk {
  Response : option Http.Response;
  Message : string;
  Code : string;
  RequestID : string;
  Errors : list ErrorDetail.t }.
End ErrorResponse.

Module ValidationError.
Record t : Type := mk {
  Field : string;
  Message : string }.
End ValidationError.

Module RateLimitError.
Record t : Type := mk {
  ErrorResponse_ : option ErrorResponse.t;
  RetryAfter : Z }.
End RateLimitError.

(** The dynamic type of a non-nil [error]: a pointer to one of the
    three error types of this package, which may be a nil pointer, or
    an error of another package (a transport failure, a URL or JSON
    error, an error of the caller's own). *)
Inductive error_value : Type :=
| APIError (p : option ErrorResponse.t)
| Validation (p : option ValidationError.t)
| RateLimit (p : option RateLimitError.t)
| Foreign (e : liberror).

(** [nil] is [None]. *)
Definition error : Type := option error_value.

(** [e.Response.StatusCode] for [e *ErrorResponse]: both pointers are
    followed. *)
Definition statusOf (p : option ErrorResponse.t) : Outcome Z :=
  let! e := deref p in
  let! r := deref (ErrorResponse.Response e) in
  Returns (Http.StatusCode r).

Definition IsNotFound (err : error) : Outcome bool :=
  match err with
  | Some (APIError p) =>
      let! s := statusOf p in Returns (s =? Http.StatusNotFound)
  | _ => Returns false
  end.

Definition IsBadRequest (err : error) : Outcome bool :=
  match err with
  | Some (APIError p) =>
      let! s := statusOf p in Returns (s =? Http.StatusBadRequest)
  | _ => Returns false
  end.

Definition IsUnauthorized (err : error) : Outcome bool :=
  match err with
  | Some (APIError p) =>
      let! s := statusOf p in Returns (s =? Http.StatusUnauthorized)
  | _ => Returns false
  end.

Definition IsForbidden (err : error) : Outcome bool :=
  match err with
  | Some (APIError p) =>
      let! s := statusOf p in Returns (s =? Http.StatusForbidden)
  | _ => Returns false
  end.

Definition IsConflict (err : error) : Outcome bool :=
  match err with
  | Some (APIError p) =>
      let! s := statusOf p in Returns (s =? Http.StatusConflict)
  | _ => Returns false
  end.

Definition IsUnprocessableEntity (err : error) : Outcome bool :=
  match err with
  | Some (APIError p) =>
      let! s := statusOf p in Returns (s =? Http.StatusUnprocessableEntity)
  | _ => Returns false
  end.

Definition IsRateLimited (err : error) : Outcome bool :=
  match err with
  | Some (APIError p) =>
      let! s := statusOf p in Returns (s =? Http.StatusTooManyRequests)
  | _ => Returns false
  end.

Definition IsServerError (err : error) : Outcome bool :=
  match err with
  | Some (APIError p) =>
      let! s := statusOf p in Returns ((500 <=? s) && (s <? 600))
  | _ => Returns false
  end.

Definition IsClientError (err : error) : Outcome bool :=
  match err with
  | Some (APIError p) =>
      let! s := statusOf p in Returns ((400 <=? s) && (s <? 500))
  | _ => Returns false
  end.

(** *** Decoding an error body: [json.Unmarshal(data, errorResponse)]

    The struct tags of [ErrorResponse] and [ErrorDetail] name the
    keys; a key selects a field when the two have the same folded
    name.  A member of the wrong JSON type is reported once the
    object has been read through; [null] leaves a field as it is. *)

Definition typeError : liberror :=
  LibError "encoding/json" "cannot unmarshal into Go value".

(** [foldName]: each rune is replaced by the smallest rune of its
    orbit under Unicode simple case folding.  An ASCII letter becomes
    its capital; the two runes outside ASCII whose orbit holds an ASCII
    letter, U+017F (long s, bytes 197 191) and U+212A (Kelvin sign,
    bytes 226 132 170), become S and K.  Every other rune outside
    ASCII has a fold outside ASCII and is written here as it stands:
    the tags of this package are ASCII, and such a rune, folded or not,
    matches no byte of a folded tag. *)
Fixpoint foldName (s : string) : string :=
  match s with
  | "" => ""
  | String c r =>
      if (code c <? 128)%N then String (toUpper c) (foldName r)
      else
        match r with
        | String d r1 =>
            if (code c =? 197)%N && (code d =? 191)%N
            then String "S" (foldName r1)
            else
              match r1 with
              | String e r2 =>
                  if (code c =? 226)%N && (code d =? 132)%N
                     && (code e =? 170)%N
                  then String "K" (foldName r2)
                  else String c (foldName r)
              | "" => String c (foldName r)
              end
        | "" => String c ""
        end
  end.

Definition foldEq (key tag : string) : bool :=
  String.eqb (foldName key) (foldName tag).

Definition first (a b : option liberror) : option liberror :=
  match a with
  | Some _ => a
  | None => b
  end.

Definition storeString (v : Json.value) (cur : string)
  : string * option liberror :=
  match v with
  | Json.Str s => (s, None)
  | Json.Null => (cur, None)
  | _ => (cur, Some typeError)
  end.

Definition detailMember (st : ErrorDetail.t * option liberror)
  (kv : string * Json.value) : ErrorDetail.t * option liberror :=
  let '(d, err) := st in
  let '(k, v) := kv in
  if foldEq k "field" then
    let '(s, e) := storeString v (ErrorDetail.Field d) in
    (ErrorDetail.mk s (ErrorDetail.Code d) (ErrorDetail.Message d), first err e)
  else if foldEq k "code" then
    let '(s, e) := storeString v (ErrorDetail.Code d) in
    (ErrorDetail.mk (ErrorDetail.Field d) s (ErrorDetail.Message d), first err e)
  else if foldEq k "message" then
    let '(s, e) := storeString v (ErrorDetail.Message d) in
    (ErrorDetail.mk (ErrorDetail.Field d) (ErrorDetail.Code d) s, first err e)
  else st.

Definition storeDetail (v : Json.value) (cur : ErrorDetail.t)
  : ErrorDetail.t * option liberror :=
  match v with
  | Json.Object m => fold_left detailMember m (cur, None)
  | Json.Null => (cur, None)
  | _ => (cur, Some typeError)
  end.

(** An array into the slice: element [i] is decoded into the element
    the slice has at [i], or into a zero one. *)
Fixpoint storeDetails (l : list Json.value) (cur : list ErrorDetail.t)
  : list ErrorDetail.t * option liberror :=
  match l with
  | [] => ([], None)
  | v :: l' =>
      let '(d, e) := storeDetail v (hd ErrorDetail.zero cur) in
      let '(ds, es) := storeDetails l' (tl cur) in
      (d :: ds, first e es)
  end.

Definition storeErrors (v : Json.value) (cur : list ErrorDetail.t)
  : list ErrorDetail.t * option liberror :=
  match v with
  | Json.Array l => storeDetails l cur
  | Json.Null => ([], None)
  | _ => (cur, Some typeError)
  end.

Definition responseMember (st : ErrorResponse.t * option liberror)
  (kv : string * Json.value) : ErrorResponse.t * option liberror :=
  let '(r, err) := st in
  let '(k, v) := kv in
  let resp := ErrorResponse.Response r in
  if foldEq k "message" then
    let '(s, e) := storeString v (ErrorResponse.Message r) in
    (ErrorResponse.mk resp s (ErrorResponse.Code r)
       (ErrorResponse.RequestID r) (ErrorResponse.Errors r), first err e)
  else if foldEq k "code" then
    let '(s, e) := storeString v (ErrorResponse.Code r) in
    (ErrorResponse.mk resp (ErrorResponse.Message r) s
       (ErrorResponse.RequestID r) (ErrorResponse.Errors r), first err e)
  else if foldEq k "request_id" then
    let '(s, e) := storeString v (ErrorResponse.RequestID r) in
    (ErrorResponse.mk resp (ErrorResponse.Message r) (ErrorResponse.Code r)
       s (ErrorResponse.Errors r), first err e)
  else if foldEq k "errors" then
    let '(ds, e) := storeErrors v (ErrorResponse.Errors r) in
    (ErrorResponse.mk resp (ErrorResponse.Message r) (ErrorResponse.Code r)
       (ErrorResponse.RequestID r) ds, first err e)
  else st.

Definition storeErrorResponse (v : Json.value) (cur : ErrorResponse.t)
  : ErrorResponse.t * option liberror :=
  match v with
  | Json.Object m => fold_left responseMember m (cur, None)
  | Json.Null => (cur, None)
  | _ => (cur, Some typeError)
  end.

Definition Unmarshal (data : string) (cur : ErrorResponse.t)
  : ErrorResponse.t * option liberror :=
  match Json.parseDocument data with
  | Err e => (cur, Some e)
  | Ok v => storeErrorResponse v cur
  end.

Definition setMessage (e : ErrorResponse.t) (msg : string) : ErrorResponse.t :=
  ErrorResponse.mk (ErrorResponse.Response e) msg (ErrorResponse.Code e)
    (ErrorResponse.RequestID e) (ErrorResponse.Errors e).

(** *** sevalla.go *)

Definition BaseURL : string := "https://api.sevalla.com/v2".
Definition DefaultTimeout : Z := 30.
Definition Version : string := "0.1.0".
Definition UserAgent : string := "sevalla-go/" ++ Version.

(** The service handles of the Go struct point back at the client
    and hold nothing else; they are left out. *)
Record Client : Type := {
  client : Http.Client;
  baseURL : Url.URL;
  apiKey : string;
  userAgent : string }.

Definition ClientOption : Type := Client -> Client.

Definition WithAPIKey (key : string) : ClientOption :=
  fun c => {| client := client c; baseURL := baseURL c;
              apiKey := key; userAgent := userAgent c |}.

Definition WithHTTPClient (h : Http.Client) : ClientOption :=
  fun c => {| client := h; baseURL := baseURL c;
              apiKey := apiKey c; userAgent := userAgent c |}.

Definition WithBaseURL (baseURL0 : string) : ClientOption :=
  fun c =>
    match Url.Parse baseURL0 with
    | Ok u => {| client := client c; baseURL := u;
                 apiKey := apiKey c; userAgent := userAgent c |}
    | Err _ => c
    end.

Definition WithUserAgent (ua : string) : ClientOption :=
  fun c => {| client := client c; baseURL := baseURL c;
              apiKey := apiKey c; userAgent := ua |}.

(** [baseURL, _ := url.Parse(BaseURL)]: the constant parses, the
    other arm is never taken. *)
Definition parsedBaseURL : Url.URL :=
  match Url.Parse BaseURL with
  | Ok u => u
  | Err _ => Url.zero
  end.

(** [transport] is what the default [http.Client] does with a
    request. *)
Definition NewClient (transport : Http.Request -> result Http.Response)
  (opts : list ClientOption) : Client :=
  let c := {| client := {| Http.Timeout := DefaultTimeout; Http.Do := transport |};
              baseURL := parsedBaseURL;
              apiKey := "";
              userAgent := UserAgent |} in
  fold_left (fun c opt => opt c) opts c.

Definition NewRequest (c : Client) (method urlStr : string)
  (body : option Json.value) : result Http.Request :=
  match Url.URL_Parse (baseURL c) urlStr with
  | Err e => Err e
  | Ok u =>
      let buf :=
        match body with
        | Some b =>
            match Json.Encode b with
            | Ok t => Ok (Some t)
            | Err e => Err e
            end
        | None => Ok None
        end in
      match buf with
      | Err e => Err e
      | Ok buf =>
          match Http.NewRequestWithContext method (Url.URL_String u) buf with
          | Err e => Err e
          | Ok req =>
              let req :=
                match body with
                | Some _ =>
                    Http.Request_SetHeader req "Content-Type" "application/json"
                | None => req
                end in
              let req :=
                if negb (String.eqb (apiKey c) "") then
                  Http.Request_SetHeader req "Authorization" ("Bearer " ++ apiKey c)
                else req in
              Ok (Http.Request_SetHeader req "User-Agent" (userAgent c))
          end
      end
  end.

Module Rate.
(** [Reset] is a [time.Time]; its zero value is [0] here. *)
Record t : Type := mk {
  Limit : Z;
  Remaining : Z;
  Reset : Z }.
Definition zero : t := mk 0 0 0.
End Rate.

Module Response.
Record t : Type := mk {
  Response : Http.Response;
  NextPage : Z;
  PrevPage : Z;
  FirstPage : Z;
  LastPage : Z;
  Rate : Rate.t }.
End Response.

Definition setPage (r : Response.t) (rel : string) (pageNum : Z) : Response.t :=
  if String.eqb rel "next" then
    Response.mk (Response.Response r) pageNum (Response.PrevPage r)
      (Response.FirstPage r) (Response.LastPage r) (Response.Rate r)
  else if String.eqb rel "prev" then
    Response.mk (Response.Response r) (Response.NextPage r) pageNum
      (Response.FirstPage r) (Response.LastPage r) (Response.Rate r)
  else if String.eqb rel "first" then
    Response.mk (Response.Response r) (Response.NextPage r)
      (Response.PrevPage r) pageNum (Response.LastPage r) (Response.Rate r)
  else if String.eqb rel "last" then
    Response.mk (Response.Response r) (Response.NextPage r)
      (Response.PrevPage r) (Response.FirstPage r) pageNum (Response.Rate r)
  else r.

(** The body of the loop of [populatePageValues] for one entry;
    [Returns r] unchanged is a [continue]. *)
Definition pageEntry (r : Response.t) (link : string) : Outcome Response.t :=
  let segments := Strings.Split (Strings.TrimSpace link) ";" in
  if negb (length segments =? 2)%nat then Returns r
  else
    let! seg0 := index segments 0 in
    let urlStr := Strings.Trim seg0 "<>" in
    match Url.Parse urlStr with
    | Err _ => Returns r
    | Ok u =>
        let page := Url.Values_Get (Url.Query u) "page" in
        if String.eqb page "" then Returns r
        else
          match Strconv.Atoi page with
          | Err _ => Returns r
          | Ok pageNum =>
              let! seg1 := index segments 1 in
              let! quoted := index (Strings.Split seg1 "=") 1 in
              let rel := Strings.Trim quoted (String DQ "") in
              Returns (setPage r rel pageNum)
          end
    end.

Fixpoint pageEntries (r : Response.t) (links : list string) : Outcome Response.t :=
  match links with
  | [] => Returns r
  | link :: rest =>
      let! r' := pageEntry r link in
      pageEntries r' rest
  end.

Definition populatePageValues (r : Response.t) : Outcome Response.t :=
  let links := Http.Header_Get (Http.Header_ (Response.Response r)) "Link" in
  if negb (String.eqb links "") then pageEntries r (Strings.Split links ",")
  else Returns r.

Definition CheckResponse (r : Http.Response) : error :=
  let c := Http.StatusCode r in
  if (200 <=? c) && (c <=? 299) then None
  else
    let errorResponse := ErrorResponse.mk (Some r) "" "" "" [] in
    let '(data, err) := Io.ReadAll (Http.Body r) in
    let errorResponse :=
      match err with
      | None =>
          if (0 <? String.length data)%nat then
            match Unmarshal data errorResponse with
            | (e, Some _) => setMessage e data
            | (e, None) => e
            end
          else errorResponse
      | Some _ => errorResponse
      end in
    Some (APIError (Some errorResponse)).

(** The destination [v] of [Do]: [nil], an [io.Writer], or a value
    of some type [T] that JSON is decoded into. *)
Inductive Dest (T : Type) : Type :=
| DestNil
| DestWriter (w : Io.Writer error_value)
| DestValue (x : T).
Arguments DestNil {T}.
Arguments DestWriter {T} w.
Arguments DestValue {T} x.

Definition isNil {T} (v : Dest T) : bool :=
  match v with
  | DestNil => true
  | _ => false
  end.

Definition foreign (e : option liberror) : error :=
  match e with
  | Some x => Some (Foreign x)
  | None => None
  end.

(** A destination of a type that [encoding/json] stores into by
    itself: the errors are the library's. *)
Definition library {T} (store : Json.value -> T -> T * option liberror)
  : Json.value -> T -> T * error :=
  fun doc x => (fst (store doc x), foreign (snd (store doc x))).

Section Do.

(** How a document is stored into a value of the destination's type,
    and the error that is reported: the one of [encoding/json] on a
    mismatch, or whatever error an [UnmarshalJSON] of the caller
    returns, which [Decode] passes on as it is. *)
Context {T : Type} (store : Json.value -> T -> T * error).

(** [json.NewDecoder(body).Decode(v)] *)
Definition Decode (body : string) (x : T) : T * error :=
  match Json.readValue body with
  | Err e => (x, Some (Foreign e))
  | Ok doc => store doc x
  end.

(** The result is the pair Go returns and the destination as the
    call leaves it. *)
Definition Do (c : Client) (req : Http.Request) (v : Dest T)
  : Outcome (option Response.t * error * Dest T) :=
  match Http.Do (client c) req with
  | Err e => Returns (None, Some (Foreign e), v)
  | Ok resp =>
      let! response :=
        populatePageValues (Response.mk resp 0 0 0 0 Rate.zero) in
      match CheckResponse resp with
      | Some err => Returns (Some response, Some err, v)
      | None =>
          if negb (isNil v) && negb (Http.StatusCode resp =? Http.StatusNoContent)
          then
            match v with
            | DestWriter w =>
                let '(w', err) := Io.Copy w (Http.Body resp) in
                Returns (Some response, err, DestWriter w')
            | DestValue x =>
                let '(x', decErr) := Decode (Http.Body resp) x in
                let decErr :=
                  match decErr with
                  | Some (Foreign EOF) => None
                  | _ => decErr
                  end in
                Returns (Some response, decErr, DestValue x')
            | DestNil => Returns (Some response, None, v)
            end
          else Returns (Some response, None, v)
      end
  end.

End Do.

(** [c.Do(req, nil)] *)
Definition Do_nil (c : Client) (req : Http.Request)
  : Outcome (option Response.t * error) :=
  let! r := Do (fun (_ : Json.value) (x : unit) => (x, None)) c req DestNil in
  Returns (fst r).

(** The value a destination holds once [Do] is back. *)
Definition held {T} (v : Dest T) (x0 : T) : T :=
  match v with
  | DestValue x => x
  | _ => x0
  end.

(** *** The method [Error] of [ErrorResponse] (errors.go)

    [%s] writes the string as it is, [%d] the integer in decimal.
    The receiver is a pointer, and so is its field [Response]. *)

Definition ErrorResponse_Error (p : option ErrorResponse.t) : Outcome string :=
  let! e := deref p in
  if negb (String.eqb (ErrorResponse.Code e) "") then
    let! status := statusOf p in
    Returns ("sevalla: " ++ ErrorResponse.Code e ++ " (" ++ Strconv.Itoa status
             ++ ") - " ++ ErrorResponse.Message e)
  else if negb (String.eqb (ErrorResponse.RequestID e) "") then
    let! status := statusOf p in
    Returns ("sevalla: " ++ Strconv.Itoa status ++ " - "
             ++ ErrorResponse.Message e
             ++ " (request_id: " ++ ErrorResponse.RequestID e ++ ")")
  else
    let! status := statusOf p in
    Returns ("sevalla: " ++ Strconv.Itoa status ++ " - "
             ++ ErrorResponse.Message e).

(** *** Listings: [ListOptions] and [NewRequestWithQuery]

    [CompanyID] is the field the package documentation lists and the
    test-suite sets; left empty, it adds nothing to a query. *)

Module ListOptions.
Record t : Type := mk {
  Page : Z;
  PerPage : Z;
  Sort : string;
  Order : string;
  CompanyID : string }.
Definition zero : t := mk 0 0 "" "" "".
End ListOptions.

(** The [opts interface{}] of [NewRequestWithQuery], as its callers
    give it: the nil interface, or a [*ListOptions] that may be a
    nil pointer. *)
Inductive QueryOpts : Type :=
| OptsNil
| OptsList (p : option ListOptions.t).

(** A field tagged [omitempty] is left out when it is the zero value
    of its type. *)
Definition addInt (v : Url.Values) (name : string) (x : Z) : Url.Values :=
  if x =? 0 then v else Url.Values_Add v name (Strconv.Itoa x).

Definition addString (v : Url.Values) (name x : string) : Url.Values :=
  if String.eqb x "" then v else Url.Values_Add v name x.

(** [query.Values(opts)] of go-querystring on a [*ListOptions]: no
    value for a nil pointer; otherwise the fields in the order of the
    struct, each under the name of its [url] tag. *)
Definition query_Values (p : option ListOptions.t) : result Url.Values :=
  match p with
  | None => Ok []
  | Some o =>
      let v := addInt [] "page" (ListOptions.Page o) in
      let v := addInt v "per_page" (ListOptions.PerPage o) in
      let v := addString v "sort" (ListOptions.Sort o) in
      let v := addString v "order" (ListOptions.Order o) in
      let v := addString v "company_id" (ListOptions.CompanyID o) in
      Ok v
  end.

Definition NewRequestWithQuery (c : Client) (method urlStr : string)
  (opts : QueryOpts) : result Http.Request :=
  match Url.URL_Parse (baseURL c) urlStr with
  | Err e => Err e
  | Ok u =>
      let withQuery :=
        match opts with
        | OptsList p =>
            match query_Values p with
            | Ok v => Ok (Url.setRawQuery u (Url.Values_Encode v))
            | Err e => Err e
            end
        | OptsNil => Ok u
        end in
      match withQuery with
      | Err e => Err e
      | Ok u =>
          match Http.NewRequestWithContext method (Url.URL_String u) None with
          | Err e => Err e
          | Ok req =>
              let req :=
                if negb (String.eqb (apiKey c) "") then
                  Http.Request_SetHeader req "Authorization" ("Bearer " ++ apiKey c)
                else req in
              Ok (Http.Request_SetHeader req "User-Agent" (userAgent c))
          end
      end
  end.

(** *** The services

    A service is a handle on the client; its methods are given the
    client.  How [encoding/json] fills the resource types of types.go
    is left to the caller of a method that returns one: [store] says
    how a document other than [null] is stored into a value of the
    resource's type, and [zero] is the zero value of that type. *)

(** Decoding into a [**T], the [&p] of [p := new(T)]: [null] sets
    the pointer to nil; any other document is stored into what the
    pointer points to, a new zero value if it is nil. *)
Definition storePointer {A} (zero : A)
  (store : Json.value -> A -> A * option liberror)
  (doc : Json.value) (p : option A) : option A * option liberror :=
  match doc with
  | Json.Null => (None, None)
  | _ =>
      let '(a, e) := store doc (match p with Some a => a | None => zero end) in
      (Some a, e)
  end.

(** Decoding into a [*T] for a struct [T], the [&x] of [var x T]:
    [null] leaves the struct as it is. *)
Definition storeStruct {A} (store : Json.value -> A -> A * option liberror)
  (doc : Json.value) (x : A) : A * option liberror :=
  match doc with
  | Json.Null => (x, None)
  | _ => store doc x
  end.

(** Decoding into a [*[]*T], the [&xs] of [var xs []*T]: [null] sets
    the slice to nil; an array fills it element by element, each
    into the pointer the slice has there or into a nil one. *)
Fixpoint storeElements {A} (zero : A)
  (store : Json.value -> A -> A * option liberror)
  (l : list Json.value) (cur : list (option A))
  : list (option A) * option liberror :=
  match l with
  | [] => ([], None)
  | v :: l' =>
      let '(p, e) := storePointer zero store v (hd None cur) in
      let '(ps, es) := storeElements zero store l' (tl cur) in
      (p :: ps, first e es)
  end.

Definition storeSlice {A} (zero : A)
  (store : Json.value -> A -> A * option liberror)
  (doc : Json.value) (cur : option (list (option A)))
  : option (list (option A)) * option liberror :=
  match doc with
  | Json.Null => (None, None)
  | Json.Array l =>
      let '(ps, e) :=
        storeElements zero store l (match cur with Some ps => ps | None => [] end)
      in (Some ps, e)
  | _ => (cur, Some typeError)
  end.

(** Decoding into the [struct { Logs string }] of the log methods. *)
Definition logsMember (st : string * option liberror)
  (kv : string * Json.value) : string * option liberror :=
  let '(logs, err) := st in
  let '(k, v) := kv in
  if foldEq k "logs" then
    let '(s, e) := storeString v logs in (s, first err e)
  else st.

Definition storeLogs (doc : Json.value) (logs : string)
  : string * option liberror :=
  match doc with
  | Json.Object m => fold_left logsMember m (logs, None)
  | Json.Null => (logs, None)
  | _ => (logs, Some typeError)
  end.

(** A [map[string]string] is nil or a map.  Decoding into one: [null]
    sets it to nil; an object puts each member under its key, the
    string it holds, or the empty string (with a type error) for a
    member that is not a string. *)
Definition StringMap : Type := option (gmap string string).

Definition mapMember (st : gmap string string * option liberror)
  (kv : string * Json.value) : gmap string string * option liberror :=
  let '(m, err) := st in
  let '(k, v) := kv in
  let '(s, e) := storeString v "" in
  (<[k := s]> m, first err e).

Definition storeStringMap (doc : Json.value) (cur : StringMap)
  : StringMap * option liberror :=
  match doc with
  | Json.Null => (None, None)
  | Json.Object members =>
      let '(m, e) :=
        fold_left mapMember members
          (match cur with Some m => m | None => ∅ end, None)
      in (Some m, e)
  | _ => (cur, Some typeError)
  end.

(** Encoding a [map[string]string]: [null] for a nil map, otherwise
    an object with the keys in sorted order. *)
Fixpoint insertPair (kv : string * string) (l : list (string * string))
  : list (string * string) :=
  match l with
  | [] => [kv]
  | h :: t =>
      match String.compare (fst kv) (fst h) with
      | Gt => h :: insertPair kv t
      | _ => kv :: l
      end
  end.

Definition sortPairs (l : list (string * string)) : list (string * string) :=
  fold_right insertPair [] l.

Definition mapValue (vars : StringMap) : Json.value :=
  match vars with
  | None => Json.Null
  | Some m =>
      Json.Object
        (map (fun kv => (fst kv, Json.Str (snd kv))) (sortPairs (map_to_list m)))
  end.

Module ApplicationsService.

Section Resources.

Context {A : Type} (zero : A) (store : Json.value -> A -> A * option liberror).

Definition List (c : Client) (opts : option ListOptions.t)
  : Outcome (option (list (option A)) * option Response.t * error) :=
  let u := "applications" in
  match NewRequestWithQuery c "GET" u (OptsList opts) with
  | Err e => Returns (None, None, Some (Foreign e))
  | Ok req =>
      let! r :=
        Do (library (storeSlice zero store)) c req
          (DestValue None) in
      match snd (fst r) with
      | Some err => Returns (None, fst (fst r), Some err)
      | None => Returns (held (snd r) None, fst (fst r), None)
      end
  end.

Definition Get (c : Client) (id : string)
  : Outcome (option A * option Response.t * error) :=
  let u := "applications/" ++ id in
  match NewRequest c "GET" u None with
  | Err e => Returns (None, None, Some (Foreign e))
  | Ok req =>
      let! r :=
        Do (library (storePointer zero store)) c req
          (DestValue (Some zero)) in
      match snd (fst r) with
      | Some err => Returns (None, fst (fst r), Some err)
      | None => Returns (held (snd r) None, fst (fst r), None)
      end
  end.

End Resources.

Definition Delete (c : Client) (id : string)
  : Outcome (option Response.t * error) :=
  let u := "applications/" ++ id in
  match NewRequest c "DELETE" u None with
  | Err e => Returns (None, Some (Foreign e))
  | Ok req => Do_nil c req
  end.

Definition Restart (c : Client) (id : string)
  : Outcome (option Response.t * error) :=
  let u := "applications/" ++ id ++ "/restart" in
  match NewRequest c "POST" u None with
  | Err e => Returns (None, Some (Foreign e))
  | Ok req => Do_nil c req
  end.

Definition Stop (c : Client) (id : string)
  : Outcome (option Response.t * error) :=
  let u := "applications/" ++ id ++ "/stop" in
  match NewRequest c "POST" u None with
  | Err e => Returns (None, Some (Foreign e))
  | Ok req => Do_nil c req
  end.

Definition Start (c : Client) (id : string)
  : Outcome (option Response.t * error) :=
  let u := "applications/" ++ id ++ "/start" in
  match NewRequest c "POST" u None with
  | Err e => Returns (None, Some (Foreign e))
  | Ok req => Do_nil c req
  end.

Definition GetLogs (c : Client) (id : string) (lines : Z)
  : Outcome (string * option Response.t * error) :=
  let u := "applications/" ++ id ++ "/logs" in
  let u := if 0 <? lines then u ++ "?lines=" ++ Strconv.Itoa lines else u in
  match NewRequest c "GET" u None with
  | Err e => Returns ("", None, Some (Foreign e))
  | Ok req =>
      let! r :=
        Do (library storeLogs) c req
          (DestValue "") in
      match snd (fst r) with
      | Some err => Returns ("", fst (fst r), Some err)
      | None => Returns (held (snd r) "", fst (fst r), None)
      end
  end.

Definition SetEnvironmentVariables (c : Client) (id : string) (vars : StringMap)
  : Outcome (option Response.t * error) :=
  let u := "applications/" ++ id ++ "/env" in
  match NewRequest c "PUT" u (Some (mapValue vars)) with
  | Err e => Returns (None, Some (Foreign e))
  | Ok req => Do_nil c req
  end.

Definition GetEnvironmentVariables (c : Client) (id : string)
  : Outcome (StringMap * option Response.t * error) :=
  let u := "applications/" ++ id ++ "/env" in
  match NewRequest c "GET" u None with
  | Err e => Returns (None, None, Some (Foreign e))
  | Ok req =>
      let! r :=
        Do (library storeStringMap) c req
          (DestValue (Some ∅)) in
      match snd (fst r) with
      | Some err => Returns (None, fst (fst r), Some err)
      | None => Returns (held (snd r) None, fst (fst r), None)
      end
  end.

End ApplicationsService.

Module StaticSitesService.

Section Resources.

Context {A : Type} (zero : A) (store : Json.value -> A -> A * option liberror).

Definition List (c : Client) (opts : option ListOptions.t)
  : Outcome (option (list (option A)) * option Response.t * error) :=
  let u := "static-sites" in
  match NewRequestWithQuery c "GET" u (OptsList opts) with
  | Err e => Returns (None, None, Some (Foreign e))
  | Ok req =>
      let! r :=
        Do (library (storeSlice zero store)) c req
          (DestValue None) in
      match snd (fst r) with
      | Some err => Returns (None, fst (fst r), Some err)
      | None => Returns (held (snd r) None, fst (fst r), None)
      end
  end.

Definition Get (c : Client) (id : string)
  : Outcome (option A * option Response.t * error) :=
  let u := "static-sites/" ++ id in
  match NewRequest c "GET" u None with
  | Err e => Returns (None, None, Some (Foreign e))
  | Ok req =>
      let! r :=
        Do (library (storePointer zero store)) c req
          (DestValue (Some zero)) in
      match snd (fst r) with
      | Some err => Returns (None, fst (fst r), Some err)
      | None => Returns (held (snd r) None, fst (fst r), None)
      end
  end.

(** The deployment a deploy starts, a resource of another type. *)
Definition Deploy (c : Client) (id : string)
  : Outcome (option A * option Response.t * error) :=
  let u := "static-sites/" ++ id ++ "/deployments" in
  match NewRequest c "POST" u None with
  | Err e => Returns (None, None, Some (Foreign e))
  | Ok req =>
      let! r :=
        Do (library (storePointer zero store)) c req
          (DestValue (Some zero)) in
      match snd (fst r) with
      | Some err => Returns (None, fst (fst r), Some err)
      | None => Returns (held (snd r) None, fst (fst r), None)
      end
  end.

End Resources.

Definition Delete (c : Client) (id : string)
  : Outcome (option Response.t * error) :=
  let u := "static-sites/" ++ id in
  match NewRequest c "DELETE" u None with
  | Err e => Returns (None, Some (Foreign e))
  | Ok req => Do_nil c req
  end.

End StaticSitesService.

Module DeploymentsService.

Definition GetLogs (c : Client) (id : string)
  : Outcome (string * option Response.t * error) :=
  let u := "deployments/" ++ id ++ "/logs" in
  match NewRequest c "GET" u None with
  | Err e => Returns ("", None, Some (Foreign e))
  | Ok req =>
      let! r :=
        Do (library storeLogs) c req
          (DestValue "") in
      match snd (fst r) with
      | Some err => Returns ("", fst (fst r), Some err)
      | None => Returns (held (snd r) "", fst (fst r), None)
      end
  end.

End DeploymentsService.

Module PipelinesService.

Section Resources.

Context {A : Type} (zero : A) (store : Json.value -> A -> A * option liberror).

(** [var pipeline Pipeline], decoded into through [&pipeline], and
    returned as [&pipeline]: never nil without an error. *)
Definition Get (c : Client) (id : string)
  : Outcome (option A * option Response.t * error) :=
  let u := "pipelines/" ++ id in
  match NewRequest c "GET" u None with
  | Err e => Returns (None, None, Some (Foreign e))
  | Ok req =>
      let! r :=
        Do (library (storeStruct store)) c req
          (DestValue zero) in
      match snd (fst r) with
      | Some err => Returns (None, fst (fst r), Some err)
      | None => Returns (Some (held (snd r) zero), fst (fst r), None)
      end
  end.

End Resources.

Definition GetRunLogs (c : Client) (pipelineID runID : string)
  : Outcome (string * option Response.t * error) :=
  let u := "pipelines/" ++ pipelineID ++ "/runs/" ++ runID ++ "/logs" in
  match NewRequest c "GET" u None with
  | Err e => Returns ("", None, Some (Foreign e))
  | Ok req =>
      let! r :=
        Do (library storeLogs) c req
          (DestValue "") in
      match snd (fst r) with
      | Some err => Returns ("", fst (fst r), Some err)
      | None => Returns (held (snd r) "", fst (fst r), None)
      end
  end.

End PipelinesService.

End Sevalla.

(** * Vocabulary of the statements

    Fixtures of the test-suite and the notions the properties below are
    stated with. *)

Import Sevalla.

(** [err] is an [*ErrorResponse] that carries a response, whose
    status satisfies [p]. *)
Definition typedWith (err : error) (p : Z -> Prop) : Prop :=
  exists e resp,
    err = Some (APIError (Some e)) /\ ErrorResponse.Response e = Some resp
    /\ p (Http.StatusCode resp).

(** [err] is an [*ErrorResponse] with no response to look at: a nil
    pointer, or a struct whose [Response] is nil. *)
Definition lacksResponse (err : error) : Prop :=
  err = Some (APIError None)
  \/ exists e, err = Some (APIError (Some e))
               /\ ErrorResponse.Response e = None.

Definition merged (base ref : string) : string :=
  match ref with
  | "" => base
  | String c _ =>
      if Ascii.eqb c "/" then ref else Strings.throughLast base "/" ++ ref
  end.

Definition dotless (e : string) : Prop := e <> "." /\ e <> "..".

Definition clean (path : string) : Prop :=
  Forall dotless (Strings.Split path "/").

Fixpoint slashed (elems : list string) : string :=
  match elems with
  | [] => ""
  | e :: rest => String "/" (e ++ slashed rest)
  end.

(** A reference that is only a path (with or without query and
    fragment): no scheme, no authority, not opaque. *)
Definition pathReference (ref : Url.URL) : Prop :=
  Url.Scheme ref = "" /\ Url.Host ref = "" /\ Url.User ref = None
  /\ Url.Opaque ref = "".

(** The three header assignments that end [NewRequest]. *)
Definition withHeaders (c : Client) (body : option Json.value)
  (req0 : Http.Request) : Http.Request :=
  let req :=
    match body with
    | Some _ => Http.Request_SetHeader req0 "Content-Type" "application/json"
    | None => req0
    end in
  let req :=
    if negb (String.eqb (apiKey c) "") then
      Http.Request_SetHeader req "Authorization" ("Bearer " ++ apiKey c)
    else req in
  Http.Request_SetHeader req "User-Agent" (userAgent c).

(** The bytes handed to the HTTP layer for a body. *)
Definition encoded (body : option Json.value) (buf : option string) : Prop :=
  match body with
  | Some b => exists t, Json.Encode b = Ok t /\ buf = Some t
  | None => buf = None
  end.

(** A transport for clients that are only used to build requests. *)
Definition offline : Http.Request -> result Http.Response :=
  fun _ => Err (LibError "net" "connection refused").

(** The request of a client and a path satisfies the resolution rule:
    its URL is the one the HTTP layer reads from the text of
    [ResolveReference(B, ref)], where [ref] is the parsed path. *)
Definition targetResolved (c : Client) (P : string) (req : Http.Request) : Prop :=
  exists ref u0,
    Url.Parse P = Ok ref
    /\ Url.Parse (Url.URL_String (Url.ResolveReference (baseURL c) ref)) = Ok u0
    /\ Http.URL req = Url.setHost u0 (Http.removeEmptyPort (Url.Host u0)).

(** The path rule of the resolution, for a reference that is a path
    without dot segments against a base with a rooted path: the
    reference path stands alone when it starts with a slash; otherwise
    it is put behind the base path cut after its last slash, which
    appends it when the base path ends in a slash and replaces the last
    segment of the base path when it does not. *)
Definition pathRule (B : Url.URL) (P : string) : Prop :=
  forall ref tail p,
    Url.Parse P = Ok ref ->
    pathReference ref ->
    Url.EscapedPath ref <> "" ->
    let full := merged (Url.EscapedPath B) (Url.EscapedPath ref) in
    full = String "/" tail ->
    clean full ->
    Url.unescape Url.encodePath full = Ok p ->
    Url.Path (Url.ResolveReference B ref) = p
    /\ Url.Scheme (Url.ResolveReference B ref) = Url.Scheme B
    /\ Url.Host (Url.ResolveReference B ref) = Url.Host B
    /\ (forall c r, Url.EscapedPath ref = String c r ->
          (c = "/"%char -> full = Url.EscapedPath ref)
          /\ (c <> "/"%char ->
              full = Strings.throughLast (Url.EscapedPath B) "/" ++ Url.EscapedPath ref
              /\ forall b, Url.EscapedPath B = b ++ "/" ->
                           full = Url.EscapedPath B ++ Url.EscapedPath ref)).

(** An option that leaves the base URL alone, as [WithAPIKey],
    [WithHTTPClient] and [WithUserAgent] do. *)
Definition keepsBaseURL (o : ClientOption) : Prop :=
  forall c, baseURL (o c) = baseURL c.

(** The default base URL with its last path segment removed. *)
Definition apiRoot : Url.URL :=
  match Url.Parse "https://api.sevalla.com/" with
  | Ok u => u
  | Err _ => Url.zero
  end.

(** Test fixtures: a response, and the envelope [Do] starts from. *)
Definition httpResponse (status : Z) (headers : list (string * string))
  (body : string) : Http.Response :=
  {| Http.StatusCode := status;
     Http.Header_ := fold_left (fun h kv => Http.Header_Set h (fst kv) (snd kv))
                       headers ∅;
     Http.Body := body |}.

Definition envelope (resp : Http.Response) : Response.t :=
  Response.mk resp 0 0 0 0 Rate.zero.

Definition pages (r : Response.t) : Z * Z * Z * Z :=
  (Response.NextPage r, Response.PrevPage r, Response.FirstPage r,
   Response.LastPage r).

(** [rel="name"] *)
Definition rel (name : string) : string :=
  "rel=" ++ String DQ (name ++ String DQ "").

Definition success (resp : Http.Response) : Prop :=
  200 <= Http.StatusCode resp <= 299.

(** The error that handing the body of a successful response to the
    destination leaves: none for a nil destination and for status 204,
    the write error of a writer, the decoding error of a value unless
    it is [io.EOF]. *)
Definition deliveryError {T} (store : Json.value -> T -> T * error)
  (v : Dest T) (resp : Http.Response) : error :=
  if Http.StatusCode resp =? Http.StatusNoContent then None
  else
    match v with
    | DestNil => None
    | DestWriter w => snd (Io.Copy w (Http.Body resp))
    | DestValue x =>
        match snd (Decode store (Http.Body resp) x) with
        | Some (Foreign EOF) => None
        | e => e
        end
    end.

(** A destination that takes any document, as a [*interface{}] does. *)
Definition storeAny (doc : Json.value) (_ : Json.value)
  : Json.value * error := (doc, None).


Definition serving (resp : Http.Response) : Client :=
  NewClient (fun _ => Ok resp) [WithAPIKey "test-key"].

Definition anyRequest : Http.Request :=
  {| Http.Method := "GET"; Http.URL := parsedBaseURL; Http.ReqHeader := ∅;
     Http.ReqBody := None; Http.ReqHost := "api.sevalla.com" |}.

(** A 429 with the customary rate-limit headers and a Link header. *)
Definition limited : Http.Response :=
  httpResponse 429
    [("X-RateLimit-Limit", "100"); ("X-RateLimit-Remaining", "0");
     ("X-RateLimit-Reset", "1767225600");
     ("Link", "<https://x/items?page=2>; " ++ rel "next")]
    "slow down".

Definition isStr (v : Json.value) : Prop := exists s, v = Json.Str s.

Definition detailMemberShape (kv : string * Json.value) : Prop :=
  foldEq (fst kv) "field" || foldEq (fst kv) "code" || foldEq (fst kv) "message"
  = true -> isStr (snd kv).

Definition detailShape (v : Json.value) : Prop :=
  exists m, v = Json.Object m /\ Forall detailMemberShape m.

Definition memberShape (kv : string * Json.value) : Prop :=
  (foldEq (fst kv) "message" || foldEq (fst kv) "code"
   || foldEq (fst kv) "request_id" = true -> isStr (snd kv))
  /\ (foldEq (fst kv) "errors" = true ->
      exists l, snd kv = Json.Array l /\ Forall detailShape l).



Definition absent (tag : string) (m : list (string * Json.value)) : Prop :=
  Forall (fun kv => foldEq (fst kv) tag = false) m.

(** The string the members of [m] leave in the field tagged [tag]. *)
Definition stored (tag : string) (m : list (string * Json.value))
  (init : string) : string :=
  fold_left
    (fun acc kv =>
       if foldEq (fst kv) tag
       then match snd kv with Json.Str s => s | _ => acc end
       else acc)
    m init.

(** One member of the documented shape is stored without error. *)
Definition keep (tag : string) (kv : string * Json.value) (cur : string)
  : string :=
  if foldEq (fst kv) tag
  then match snd kv with Json.Str s => s | _ => cur end
  else cur.

(** a string literal of JSON text *)
Definition quoted (s : string) : string := String DQ (s ++ String DQ "").

(** The long s, U+017F, in UTF-8. *)
Definition longS : string :=
  String (ascii_of_N 197) (String (ascii_of_N 191) "").



(** What may follow a value in encoded text: a byte no state of the
    number grammar accepts. *)
Definition stops (rest : string) : Prop :=
  match rest with
  | "" => True
  | String c _ => forall st, Json.nstep st c = None
  end.

(** Induction on documents, with the hypothesis for every element of
    an array and every member of an object. *)
Section ValueInduction.

Variable P : Json.value -> Prop.
Hypothesis HNull : P Json.Null.
Hypothesis HBool : forall b, P (Json.Bool b).
Hypothesis HNumber : forall lit, P (Json.Number lit).
Hypothesis HStr : forall s, P (Json.Str s).
Hypothesis HArray : forall l, Forall P l -> P (Json.Array l).
Hypothesis HObject :
  forall m, Forall (fun kv => P (snd kv)) m -> P (Json.Object m).

Fixpoint value_induction (v : Json.value) : P v :=
  match v with
  | Json.Null => HNull
  | Json.Bool b => HBool b
  | Json.Number lit => HNumber lit
  | Json.Str s => HStr s
  | Json.Array l =>
      HArray l
        ((fix all (l : list Json.value) : Forall P l :=
            match l with
            | [] => @List.Forall_nil _ P
            | x :: l' => @List.Forall_cons _ P x l' (value_induction x) (all l')
            end) l)
  | Json.Object m =>
      HObject m
        ((fix all (m : list (string * Json.value))
            : Forall (fun kv => P (snd kv)) m :=
            match m with
            | [] => @List.Forall_nil _ (fun kv => P (snd kv))
            | kv :: m' =>
                @List.Forall_cons _ (fun kv => P (snd kv)) kv m'
                  (value_induction (snd kv)) (all m')
            end) m)
  end.

End ValueInduction.

(** The text of the elements of an array and of the members of an
    object, as [encodeValue] writes them between the brackets. *)
Definition encodeElems : list Json.value -> option string :=
  fix elems (l : list Json.value) : option string :=
    match l with
    | [] => Some ""
    | [v] => Json.encodeValue v
    | v :: l' =>
        match Json.encodeValue v, elems l' with
        | Some a, Some b => Some (a ++ String "," b)
        | _, _ => None
        end
    end.

Definition encodeMembers : list (string * Json.value) -> option string :=
  fix members (m : list (string * Json.value)) : option string :=
    match m with
    | [] => Some ""
    | [(k, v)] =>
        match Json.encodeValue v with
        | Some a => Some (Json.encodeString k ++ String ":" a)
        | None => None
        end
    | (k, v) :: m' =>
        match Json.encodeValue v, members m' with
        | Some a, Some b =>
            Some (Json.encodeString k ++ String ":" (a ++ String "," b))
        | _, _ => None
        end
    end.

(** Calls the parser needs for a document: one for each node and one
    for each element or member. *)
Fixpoint weight (v : Json.value) : nat :=
  match v with
  | Json.Array l => S (fold_right (fun x n => S (weight x + n)) O l)
  | Json.Object m => S (fold_right (fun kv n => S (weight (snd kv) + n)) O m)
  | _ => 1%nat
  end.

Definition weightElems (l : list Json.value) : nat :=
  fold_right (fun x n => S (weight x + n)) O l.

Definition weightMembers (m : list (string * Json.value)) : nat :=
  fold_right (fun kv n => S (weight (snd kv) + n)) O m.

Definition depthElems (l : list Json.value) : N :=
  fold_right (fun x d => N.max (Json.depth x) d) 0%N l.

Definition depthMembers (m : list (string * Json.value)) : N :=
  fold_right (fun kv d => N.max (Json.depth (snd kv)) d) 0%N m.

(** The first byte of an encoded value: not white space, and not a
    closing bracket. *)
Definition opens (t : string) : Prop :=
  exists c r, t = String c r /\ Json.isSpace c = false
              /\ Ascii.eqb c "]" = false /\ Ascii.eqb c "}" = false.

(** The statement of the round trip for one document: its encoding,
    followed by a delimiter, is parsed back to the document and the
    delimiter is left, at any depth that the nesting limit allows. *)
Definition readsBack (v : Json.value) : Prop :=
  forall t, Json.encodeValue v = Some t -> Json.textValid v = true ->
  forall d, (d + Json.depth v <= Json.maxNestingDepth)%N ->
  forall fuel, (weight v <= fuel)%nat ->
  forall rest, stops rest ->
    Json.parseValue fuel d (t ++ rest) = Some (v, rest).

(** The fuel of the parser covers every encoded document. *)
Definition fits (v : Json.value) : Prop :=
  forall t, Json.encodeValue v = Some t -> (weight v <= String.length t)%nat.

Definition htmlByte (c : ascii) : Prop :=
  c = "<"%char \/ c = ">"%char \/ c = "&"%char.

(** Printable ASCII other than the quote and the backslash. *)
Fixpoint plain (s : string) : bool :=
  match s with
  | "" => true
  | String c r => (code c <? 128)%N && Json.safe c && plain r
  end.

(** TestApplicationsService_Create sends such a body. *)
Definition createBody : Json.value :=
  Json.Object
    [("name", Json.Str "shop <v2> & co");
     ("repository_url", Json.Str "https://github.com/a/b?x=1&y=2");
     ("replicas", Json.Number "2");
     ("auto_deploy", Json.Bool true);
     ("environment_variables", Json.Object [("KEY", Json.Str "a<b")]);
     ("tags", Json.Array [Json.Null; Json.Number "-1.5e3"])].

(** The nine classification predicates of errors.go. *)
Definition classifiers : list (error -> Outcome bool) :=
  [IsNotFound; IsBadRequest; IsUnauthorized; IsForbidden; IsConflict;
   IsUnprocessableEntity; IsRateLimited; IsClientError; IsServerError].





(** The options a caller builds with the four constructors. *)
Inductive setting : Type :=
| SetAPIKey (key : string)
| SetHTTPClient (h : Http.Client)
| SetBaseURL (text : string)
| SetUserAgent (ua : string).

Definition optionOf (s : setting) : ClientOption :=
  match s with
  | SetAPIKey key => WithAPIKey key
  | SetHTTPClient h => WithHTTPClient h
  | SetBaseURL text => WithBaseURL text
  | SetUserAgent ua => WithUserAgent ua
  end.

(** What the last setting that [pick] selects gives; [d] when it
    selects none. *)
Definition lastOf {A} (pick : setting -> option A) (l : list setting) (d : A)
  : A :=
  fold_left (fun acc s => match pick s with Some a => a | None => acc end) l d.

Definition pickAPIKey (s : setting) : option string :=
  match s with SetAPIKey key => Some key | _ => None end.

Definition pickHTTPClient (s : setting) : option Http.Client :=
  match s with SetHTTPClient h => Some h | _ => None end.

(** A base URL counts when its text parses. *)
Definition pickBaseURL (s : setting) : option Url.URL :=
  match s with
  | SetBaseURL text =>
      match Url.Parse text with
      | Ok u => Some u
      | Err _ => None
      end
  | _ => None
  end.

Definition pickUserAgent (s : setting) : option string :=
  match s with SetUserAgent ua => Some ua | _ => None end.

(** Every byte of [s] satisfies [p]. *)
Fixpoint allBytes (p : ascii -> bool) (s : string) : bool :=
  match s with
  | "" => true
  | String c r => p c && allBytes p r
  end.

(** The bytes [QueryEscape] writes: letters, digits and [-_.~%+]. *)
Definition queryByte (c : ascii) : bool := isAlnum c || inSet "-_.~%+" c.

(** The pairs of [v] in the order [Encode] writes them: key by key
    in sorted order, the pairs of a key in their order in [v]. *)
Definition grouped (v : Url.Values) : Url.Values :=
  flat_map (fun k => List.filter (fun kv => String.eqb (fst kv) k) v)
    (Url.sortedKeys v).

(** One pair of an encoded query. *)
Definition queryPiece (kv : string * string) : string :=
  Url.QueryEscape (fst kv) ++ "=" ++ Url.QueryEscape (snd kv).

(** What [Encode] does with the buffer for one pair. *)
Definition addPiece (buf piece : string) : string :=
  (if (0 <? String.length buf)%nat then buf ++ "&" else buf) ++ piece.

(** A text with no query mark and no fragment mark. *)
Definition plainText (s : string) : Prop :=
  Strings.Contains s "?" = false /\ Strings.Contains s "#" = false.

(** The bytes of a scheme. *)
Definition schemeByte (c : ascii) : bool := isAlnum c || inSet "+-." c.

(** [req.URL = u] *)
Definition setURL (req : Http.Request) (u : Url.URL) : Http.Request :=
  {| Http.Method := Http.Method req; Http.URL := u;
     Http.ReqHeader := Http.ReqHeader req; Http.ReqBody := Http.ReqBody req;
     Http.ReqHost := Http.ReqHost req |}.

(** What [parse] does once the scheme is read and the query is cut
    off. *)
Definition parseAfterQuery (scheme rest1 rawQuery : string) (forceQuery : bool)
  : result Url.URL :=
  let mk user host omit :=
    {| Url.Scheme := scheme; Url.Opaque := ""; Url.User := user;
       Url.Host := host; Url.Path := ""; Url.RawPath := "";
       Url.OmitHost := omit; Url.ForceQuery := forceQuery;
       Url.RawQuery := rawQuery; Url.Fragment := ""; Url.RawFragment := "" |} in
  let rooted := Strings.HasPrefix rest1 "/" in
  if negb rooted && negb (String.eqb scheme "") then
    Ok {| Url.Scheme := scheme; Url.Opaque := rest1; Url.User := None;
          Url.Host := ""; Url.Path := ""; Url.RawPath := "";
          Url.OmitHost := false; Url.ForceQuery := forceQuery;
          Url.RawQuery := rawQuery; Url.Fragment := ""; Url.RawFragment := "" |}
  else if negb rooted
          && Strings.Contains (fst (fst (Strings.Cut rest1 "/"))) ":"
  then Err (LibError "net/url"
              "first path segment in URL cannot contain colon")
  else if (negb (String.eqb scheme "")
           || negb (Strings.HasPrefix rest1 "///"))
          && Strings.HasPrefix rest1 "//" then
    let '(authority, after, found) :=
      Strings.Cut (String.substring 2 (String.length rest1 - 2) rest1) "/" in
    let rest2 := if found then String "/" after else "" in
    match Url.parseAuthority authority with
    | Err e => Err e
    | Ok (user, host) => Url.setPath (mk user host false) rest2
    end
  else if negb (String.eqb scheme "") && rooted then
    Url.setPath (mk None "" true) rest1
  else Url.setPath (mk None "" false) rest1.

(** The bytes of an encoded query: those of [QueryEscape], and the
    two separators. *)
Definition encodedByte (c : ascii) : bool :=
  queryByte c || Ascii.eqb c "&" || Ascii.eqb c "=".

(** The names [ListOptions] gives its fields in a query. *)
Definition listKeys : list string :=
  ["page"; "per_page"; "sort"; "order"; "company_id"].

(** The bounds of a Go [int]. *)
Definition isInt (n : Z) : Prop := - 2 ^ 63 <= n <= 2 ^ 63 - 1.

(** The client of the test-suite, and options as its listings give
    them. *)
Definition testClient : Client :=
  NewClient offline [WithAPIKey "test-key"; WithBaseURL "http://127.0.0.1:8080"].

Definition someOptions : ListOptions.t :=
  ListOptions.mk 2 50 "name" "a b&c=d" "company-123".

Definition testTarget : Url.URL :=
  match Url.URL_Parse (baseURL testClient) "test?x=1" with
  | Ok u => u
  | Err _ => Url.zero
  end.

Definition testListing : Http.Request :=
  match NewRequestWithQuery testClient "GET" "test?x=1" (OptsList None) with
  | Ok req => req
  | Err _ => anyRequest
  end.

(** One entry of a Link header, for a target and a relation name, and
    a header of such entries. *)
Definition linkEntry (target name : string) : string :=
  "<" ++ target ++ ">; " ++ rel name.

Fixpoint linkHeader (entries : list (string * string * Z)) : string :=
  match entries with
  | [] => ""
  | (t, name, _) :: rest =>
      match rest with
      | [] => linkEntry t name
      | _ => linkEntry t name ++ ", " ++ linkHeader rest
      end
  end.

(** A target can stand between the angle brackets of an entry, and a
    name between the quotes, when they hold none of the bytes the
    header is cut at. *)
Definition linkTarget (t : string) : bool :=
  allBytes (fun c => negb (inSet ",;<>" c)) t.

Definition relName (name : string) : bool :=
  allBytes (fun c => negb (inSet (",;=" ++ String DQ "") c)) name.

(** The target is a URL whose query gives the page [n]. *)
Definition pageOf (target : string) (n : Z) : Prop :=
  exists u, Url.Parse target = Ok u
            /\ Strconv.Atoi (Url.Values_Get (Url.Query u) "page") = Ok n.

Definition wellFormed (e : string * string * Z) : Prop :=
  let '(t, name, n) := e in
  linkTarget t = true /\ relName name = true /\ pageOf t n.

(** What the entries ask for, one after the other. *)
Definition applyEntries (r : Response.t) (entries : list (string * string * Z))
  : Response.t :=
  fold_left (fun r e => let '(_, name, n) := e in setPage r name n) entries r.

(** The Link header of TestPaginationResponse, entry by entry. *)
Definition testLinks : list (string * string * Z) :=
  [("http://api.test/items?page=3", "next", 3);
   ("http://api.test/items?page=1", "prev", 1);
   ("http://api.test/items?page=1", "first", 1);
   ("http://api.test/items?page=10", "last", 10)].

(** What a service method never returns: a resource together with an
    error, or neither a response nor an error of a package below. *)
Definition disciplined {X} (none : X)
  (o : Outcome (X * option Response.t * error)) : Prop :=
  forall x resp err,
    o = Returns (x, resp, err) ->
    (err <> None -> x = none)
    /\ (resp = None -> exists e, err = Some (Foreign e))
    /\ (forall p, err = Some (APIError p) ->
          exists e env,
            p = Some e /\ resp = Some env
            /\ ErrorResponse.Response e = Some (Response.Response env)).






(** The variables of TestApplicationsService_SetEnvironmentVariables. *)
Definition testVars : StringMap :=
  Some (<["DATABASE_URL" := "postgresql://localhost/db"]>
          (<["API_KEY" := "secret123"]> ∅)).

Definition testVarsBody : string :=
  "{" ++ quoted "API_KEY" ++ ":" ++ quoted "secret123" ++ ","
  ++ quoted "DATABASE_URL" ++ ":" ++ quoted "postgresql://localhost/db" ++ "}"
  ++ String LF "".


(** The bytes of a path that are written as they are and cut no
    URL: letters, digits, [-_.~] and the slash. *)
Definition pathByte (c : ascii) : bool := isAlnum c || inSet "-_.~/" c.

(** [u.Path = p], with no raw path. *)
Definition withPath (u : Url.URL) (p : string) : Url.URL :=
  {| Url.Scheme := Url.Scheme u; Url.Opaque := Url.Opaque u;
     Url.User := Url.User u; Url.Host := Url.Host u; Url.Path := p;
     Url.RawPath := ""; Url.OmitHost := Url.OmitHost u;
     Url.ForceQuery := Url.ForceQuery u; Url.RawQuery := Url.RawQuery u;
     Url.Fragment := Url.Fragment u; Url.RawFragment := Url.RawFragment u |}.

(** A reference that is only a path. *)
Definition reference (p : string) : Url.URL := withPath Url.zero p.

(** A relative path of unreserved bytes and slashes, free of dot
    segments. *)
Definition relative (p : string) : Prop :=
  allBytes pathByte p = true /\ p <> ""
  /\ Strings.HasPrefix p "/" = false /\ clean p.

(** The directory a base URL stands for: its path, the root for a URL
    without one. *)
Definition root (B : Url.URL) : string :=
  if String.eqb (Url.Path B) "" then "/" else Url.Path B.

(** A base URL of the form [scheme://host] or [scheme://host/dir/],
    as its text reads: a path begins and ends with a slash, and there
    is no query and no fragment. *)
Definition directory (B : Url.URL) : Prop :=
  Url.Parse (Url.URL_String B) = Ok B
  /\ Url.Scheme B <> "" /\ allBytes schemeByte (Url.Scheme B) = true
  /\ Url.Opaque B = ""
  /\ Url.Host B <> "" /\ Strings.HasSuffix (Url.Host B) ":" = false
  /\ allBytes pathByte (root B) = true /\ clean (root B)
  /\ Strings.HasPrefix (root B) "/" = true
  /\ Strings.HasSuffix (root B) "/" = true
  /\ Url.RawPath B = "" /\ Url.OmitHost B = false
  /\ Url.ForceQuery B = false /\ Url.RawQuery B = ""
  /\ Url.Fragment B = "" /\ Url.RawFragment B = "".

(** The text of a path and a query. *)
Definition target (p q : string) : string :=
  if String.eqb q "" then p else p ++ String "?" q.

(** The request for the path [p] and the query [q] under the base URL
    of the client. *)
Definition request (c : Client) (method p q : string)
  (body : option Json.value) (buf : option string) : Http.Request :=
  withHeaders c body
    {| Http.Method := method;
       Http.URL := Url.setRawQuery
                     (withPath (baseURL c) (root (baseURL c) ++ p)) q;
       Http.ReqHeader := ∅;
       Http.ReqBody := buf;
       Http.ReqHost := Url.Host (baseURL c) |}.

(** The bytes of an identifier that is one segment of a path, and
    such an identifier: text that is not a dot segment. *)
Definition segmentByte (c : ascii) : bool := isAlnum c || inSet "-_.~" c.

Definition segment (id : string) : Prop :=
  allBytes segmentByte id = true /\ id <> "." /\ id <> "..".

(** The call reaches the transport with the request [req] and with
    nothing else: a failure of the transport on [req] is the error of
    the call, returned with what [failure] puts beside it, and
    transports that answer [req] alike give the same outcome. *)
Definition sends {R : Type} (call : Client -> Outcome R) (c : Client)
  (req : Http.Request) (failure : error -> R) : Prop :=
  forall h : Http.Client,
    (forall e, Http.Do h req = Err e ->
               call (WithHTTPClient h c) = Returns (failure (Some (Foreign e))))
    /\ (forall h', Http.Do h' req = Http.Do h req ->
                   call (WithHTTPClient h' c) = call (WithHTTPClient h c)).

(** * Properties *)

(** ** The model on the inputs of the test-suite *)

Example Split_pieces : Strings.Split "a,b,,c" "," = ["a"; "b"; ""; "c"].
Proof. reflexivity. Qed.

Example Trim_angle : Strings.Trim "<http://x/?page=2>" "<>" = "http://x/?page=2".
Proof. reflexivity. Qed.

Example Atoi_signed : Strconv.Atoi "-12" = Ok (-12).
Proof. reflexivity. Qed.

Example Atoi_range :
  Strconv.Atoi "9223372036854775808" = Err (LibError "strconv" "value out of range").
Proof. reflexivity. Qed.

Lemma BaseURL_parses : Url.Parse BaseURL = Ok parsedBaseURL.
Proof. reflexivity. Qed.

Example BaseURL_String : Url.URL_String parsedBaseURL = "https://api.sevalla.com/v2".
Proof. reflexivity. Qed.

(** ** Classification predicates (errors.go) *)

Lemma exact_code (err : error) (pred : error -> Outcome bool) (code : Z) :
  (forall p, pred (Some (APIError p))
             = let! s := statusOf p in Returns (s =? code)) ->
  (forall x, (forall p, x <> Some (APIError p)) -> pred x = Returns false) ->
  pred err = Returns true <-> typedWith err (fun s => s = code).
Proof.
  intros Hin Hout. split.
  - intros H. destruct err as [[p | | | ] | ];
      try (rewrite Hout in H by (intros p' ?; discriminate); discriminate).
    rewrite Hin in H. destruct p as [e |]; [| discriminate H].
    unfold statusOf in H. cbn [deref obind] in H.
    destruct (ErrorResponse.Response e) as [resp |] eqn:Er; [| discriminate H].
    cbn [deref obind] in H. injection H as H.
    exists e, resp. repeat split; [exact Er | lia].
  - intros (e & resp & -> & Er & Hs). rewrite Hin. unfold statusOf.
    cbn [deref obind]. rewrite Er. cbn [deref obind].
    f_equal. lia.
Qed.

Lemma range_code (err : error) (pred : error -> Outcome bool) (lo hi : Z) :
  (forall p, pred (Some (APIError p))
             = let! s := statusOf p in Returns ((lo <=? s) && (s <? hi + 1))) ->
  (forall x, (forall p, x <> Some (APIError p)) -> pred x = Returns false) ->
  pred err = Returns true <-> typedWith err (fun s => lo <= s <= hi).
Proof.
  intros Hin Hout. split.
  - intros H. destruct err as [[p | | | ] | ];
      try (rewrite Hout in H by (intros p' ?; discriminate); discriminate).
    rewrite Hin in H. destruct p as [e |]; [| discriminate H].
    unfold statusOf in H. cbn [deref obind] in H.
    destruct (ErrorResponse.Response e) as [resp |] eqn:Er; [| discriminate H].
    cbn [deref obind] in H. injection H as H.
    exists e, resp. repeat split; try exact Er; lia.
  - intros (e & resp & -> & Er & Hs). rewrite Hin. unfold statusOf.
    cbn [deref obind]. rewrite Er. cbn [deref obind].
    f_equal. lia.
Qed.

Ltac other_kinds :=
  intros [[? | ? | ? | ?] | ] Hx; try reflexivity; exfalso; eapply Hx; reflexivity.

(** C5 (amended).  Each predicate answers true exactly when the error
    is an [*ErrorResponse] that carries a response whose status is the
    predicate's code (404, 400, 401, 403, 409, 422, 429) or lies in
    its range (400-499, 500-599).  On every error of another kind
    (nil, a validation or rate-limit error, an error of another
    package such as a transport failure) all nine answer false.  On an
    [*ErrorResponse] without a response, a nil pointer or a struct
    whose [Response] is nil, none of them answers: all nine panic on
    the nil pointer.  On every other error value each of them
    answers. *)
Theorem C5_predicates_classify_by_status : forall err : error,
  (IsNotFound err = Returns true <-> typedWith err (fun s => s = 404)) /\
  (IsBadRequest err = Returns true <-> typedWith err (fun s => s = 400)) /\
  (IsUnauthorized err = Returns true <-> typedWith err (fun s => s = 401)) /\
  (IsForbidden err = Returns true <-> typedWith err (fun s => s = 403)) /\
  (IsConflict err = Returns true <-> typedWith err (fun s => s = 409)) /\
  (IsUnprocessableEntity err = Returns true
   <-> typedWith err (fun s => s = 422)) /\
  (IsRateLimited err = Returns true <-> typedWith err (fun s => s = 429)) /\
  (IsClientError err = Returns true
   <-> typedWith err (fun s => 400 <= s <= 499)) /\
  (IsServerError err = Returns true
   <-> typedWith err (fun s => 500 <= s <= 599)) /\
  ((forall p, err <> Some (APIError p)) ->
   map (fun pred => pred err)
     [IsNotFound; IsBadRequest; IsUnauthorized; IsForbidden; IsConflict;
      IsUnprocessableEntity; IsRateLimited; IsClientError; IsServerError]
   = repeat (Returns false) 9) /\
  (lacksResponse err ->
   map (fun pred => pred err)
     [IsNotFound; IsBadRequest; IsUnauthorized; IsForbidden; IsConflict;
      IsUnprocessableEntity; IsRateLimited; IsClientError; IsServerError]
   = repeat (Panics "invalid memory address or nil pointer dereference") 9) /\
  (~ lacksResponse err ->
   Forall (fun pred => exists b, pred err = Returns b)
     [IsNotFound; IsBadRequest; IsUnauthorized; IsForbidden; IsConflict;
      IsUnprocessableEntity; IsRateLimited; IsClientError; IsServerError]).
Proof.
  intros err.
  repeat match goal with
         | |- (_ <-> typedWith _ (fun s => s = _)) /\ _ =>
             split; [apply exact_code; [reflexivity | other_kinds] |]
         | |- (_ <-> typedWith _ (fun s => _ <= s <= _)) /\ _ =>
             split; [apply range_code; [reflexivity | other_kinds] |]
         end.
  split; [revert err; other_kinds |]. split.
  - intros [-> | (e & -> & Er)]; [reflexivity |].
    cbn [map IsNotFound IsBadRequest IsUnauthorized IsForbidden IsConflict
         IsUnprocessableEntity IsRateLimited IsClientError IsServerError].
    unfold statusOf. cbn [deref obind]. rewrite Er. reflexivity.
  - intros Hno.
    destruct err as [[[e |] | | | ] | ];
      try (repeat constructor; eexists; reflexivity).
    + destruct (ErrorResponse.Response e) as [resp |] eqn:Er.
      * repeat constructor;
          cbn [IsNotFound IsBadRequest IsUnauthorized IsForbidden IsConflict
               IsUnprocessableEntity IsRateLimited IsClientError IsServerError];
          unfold statusOf; cbn [deref obind]; rewrite Er; cbn [deref obind];
          eexists; reflexivity.
      * exfalso. apply Hno. right. exists e. split; [reflexivity | exact Er].
    + exfalso. apply Hno. left. reflexivity.
Qed.

(** C5 as stated fails on an [*ErrorResponse] that carries no
    response, as the struct literal [&ErrorResponse{}] builds it: it
    is no typed error with status 404, and [IsNotFound] does not
    answer false; it panics.  So does [IsServerError] on a nil
    [*ErrorResponse]. *)
Lemma C5_counterexample :
  ~ typedWith (Some (APIError (Some (ErrorResponse.mk None "" "" "" []))))
      (fun s => s = 404)
  /\ IsNotFound (Some (APIError (Some (ErrorResponse.mk None "" "" "" []))))
     = Panics "invalid memory address or nil pointer dereference"
  /\ IsNotFound (Some (APIError (Some (ErrorResponse.mk None "" "" "" []))))
     <> Returns false
  /\ ~ typedWith (Some (APIError None)) (fun s => 500 <= s <= 599)
  /\ IsServerError (Some (APIError None))
     = Panics "invalid memory address or nil pointer dereference"
  /\ IsServerError (Some (APIError None)) <> Returns false.
Proof.
  split; [| split; [| split; [| split; [| split]]]];
    try reflexivity; try discriminate.
  - intros (e & resp & He & Hr & _). injection He as <-. discriminate Hr.
  - intros (e & resp & He & _). discriminate He.
Qed.

(** [Error] follows the same pointers: on the [*ErrorResponse] that
    TestRateLimitError builds, which has no response, it panics *)
Example Error_without_response :
  ErrorResponse_Error
    (Some (ErrorResponse.mk None "Too many requests" "" "" []))
  = Panics "invalid memory address or nil pointer dereference".
Proof. reflexivity. Qed.

(** ** Client construction *)

Lemma WithBaseURL_unparsable (s : string) (e : liberror) (c : Client) :
  Url.Parse s = Err e -> WithBaseURL s c = c.
Proof. intros H. unfold WithBaseURL. rewrite H. reflexivity. Qed.

Lemma NewClient_app transport (before after : list ClientOption) :
  NewClient transport (before ++ after)
  = fold_left (fun c opt => opt c) after (NewClient transport before).
Proof. unfold NewClient. apply fold_left_app. Qed.

(** C8.  In any sequence of options, a base-URL option whose argument
    does not parse changes nothing: the client is the one built
    without it, so the base URL in effect before it (the default, or an
    earlier override) is kept.  Construction is a total function; it
    has no error to report. *)
Theorem C8_unparsable_base_url_is_ignored :
  forall transport (before after : list ClientOption) (s : string) (e : liberror),
    Url.Parse s = Err e ->
    NewClient transport (before ++ WithBaseURL s :: after)
    = NewClient transport (before ++ after)
    /\ baseURL (NewClient transport (before ++ [WithBaseURL s]))
       = baseURL (NewClient transport before).
Proof.
  intros transport before after s e H. split.
  - rewrite !NewClient_app. simpl.
    rewrite (WithBaseURL_unparsable s e) by assumption. reflexivity.
  - rewrite NewClient_app. simpl.
    rewrite (WithBaseURL_unparsable s e) by assumption. reflexivity.
Qed.

Lemma C8_witness :
  Url.Parse ":8080/v2" = Err (LibError "net/url" "missing protocol scheme")
  /\ forall transport,
       NewClient transport ([WithAPIKey "k"] ++ WithBaseURL ":8080/v2" :: [WithUserAgent "ua"])
       = NewClient transport ([WithAPIKey "k"] ++ [WithUserAgent "ua"])
       /\ baseURL (NewClient transport ([WithAPIKey "k"] ++ [WithBaseURL ":8080/v2"]))
          = baseURL (NewClient transport [WithAPIKey "k"]).
Proof.
  split; [reflexivity |]. intros transport.
  apply (C8_unparsable_base_url_is_ignored transport [WithAPIKey "k"]
           [WithUserAgent "ua"] ":8080/v2" (LibError "net/url" "missing protocol scheme")).
  reflexivity.
Defined.

(** ** Resolution of a reference path (net/url)

    [resolvePath base ref] first merges: a [ref] starting with a slash
    stands alone, any other is put after [base] cut behind its last
    slash.  It then removes dot segments.  On a merged path without dot
    segments the second step changes nothing. *)

Lemma append_assoc (a b c : string) : (a ++ b) ++ c = a ++ (b ++ c).
Proof. induction a as [| x a IH]; simpl; [reflexivity | now rewrite IH]. Qed.

Lemma append_nil_r (a : string) : a ++ "" = a.
Proof. induction a as [| x a IH]; simpl; [reflexivity | now rewrite IH]. Qed.

Lemma Split_nonempty (s : string) (sep : ascii) : Strings.Split s sep <> [].
Proof.
  destruct s as [| c r]; simpl; [discriminate |].
  destruct (Ascii.eqb c sep); [discriminate |].
  destruct (Strings.Split r sep); discriminate.
Qed.

Lemma Split_slashed (s : string) :
  match Strings.Split s "/" with
  | e :: rest => e ++ slashed rest = s
  | [] => False
  end.
Proof.
  induction s as [| c r IH]; simpl; [reflexivity |].
  destruct (Ascii.eqb_spec c "/") as [-> | Hc].
  - destruct (Strings.Split r "/") as [| e rest]; [contradiction |].
    simpl. now rewrite IH.
  - destruct (Strings.Split r "/") as [| e rest]; [contradiction |].
    simpl. now rewrite IH.
Qed.

Lemma dotless_eqb (e : string) :
  dotless e -> String.eqb e "." = false /\ String.eqb e ".." = false.
Proof.
  intros [H1 H2]. split; apply String.eqb_neq; assumption.
Qed.

Lemma resolveStep_dotless (dst e : string) (first : bool) :
  dotless e ->
  Url.resolveStep (dst, first) e
  = ((if first then dst else dst ++ "/") ++ e, false).
Proof.
  intros H. destruct (dotless_eqb e H) as [H1 H2].
  unfold Url.resolveStep. now rewrite H1, H2.
Qed.

Lemma fold_resolveStep_dotless (elems : list string) :
  Forall dotless elems ->
  forall dst, fold_left Url.resolveStep elems (dst, false)
              = (dst ++ slashed elems, false).
Proof.
  induction 1 as [| e rest He _ IH]; intros dst; cbn [fold_left slashed].
  - now rewrite append_nil_r.
  - rewrite resolveStep_dotless by assumption. rewrite IH.
    rewrite !append_assoc. reflexivity.
Qed.

Lemma last_dotless (elems : list string) :
  Forall dotless elems -> elems <> [] -> dotless (List.last elems "").
Proof.
  induction 1 as [| e rest He Hrest IH]; intros Hne; [contradiction |].
  destruct rest as [| e' rest']; [exact He |].
  change (dotless (List.last (e' :: rest') "")). apply IH. discriminate.
Qed.

(** The builder at the end of the loop holds a slash and the path. *)
Lemma resolve_loop_clean (full : string) :
  clean full ->
  fold_left Url.resolveStep (Strings.Split full "/") ("/", true)
  = (String "/" full, false).
Proof.
  unfold clean. intros H. pose proof (Split_slashed full) as Hs.
  destruct (Strings.Split full "/") as [| e rest]; [contradiction |].
  inversion H as [| ? ? He Hrest]; subst. cbn [fold_left].
  rewrite resolveStep_dotless by assumption.
  rewrite fold_resolveStep_dotless by assumption. reflexivity.
Qed.

Lemma resolvePath_merged (base ref : string) :
  Url.resolvePath base ref =
  let full := merged base ref in
  if String.eqb full "" then ""
  else
    let elems := Strings.Split full "/" in
    let '(dst, _) := fold_left Url.resolveStep elems ("/", true) in
    let last := List.last elems "" in
    let dst :=
      if String.eqb last "." || String.eqb last ".." then dst ++ "/" else dst in
    match dst with
    | String _ (String "/" _ as r) => r
    | _ => dst
    end.
Proof. reflexivity. Qed.

(** A merged path that is rooted and free of dot segments is the
    resolved path. *)
Lemma resolvePath_clean_rooted (base ref tail : string) :
  merged base ref = String "/" tail ->
  clean (merged base ref) ->
  Url.resolvePath base ref = merged base ref.
Proof.
  intros Hm Hc. rewrite resolvePath_merged. cbv zeta.
  rewrite resolve_loop_clean by assumption.
  pose proof (last_dotless _ Hc (Split_nonempty _ _)) as Hl.
  destruct (dotless_eqb _ Hl) as [H1 H2]. rewrite H1, H2. simpl.
  rewrite Hm. reflexivity.
Qed.

(** An unrooted one (the base has no path) gets its slash. *)
Lemma resolvePath_clean_unrooted (base ref : string) (c : ascii) (tail : string) :
  merged base ref = String c tail -> c <> "/"%char ->
  clean (merged base ref) ->
  Url.resolvePath base ref = String "/" (merged base ref).
Proof.
  intros Hm Hne Hc. rewrite resolvePath_merged. cbv zeta.
  rewrite resolve_loop_clean by assumption.
  pose proof (last_dotless _ Hc (Split_nonempty _ _)) as Hl.
  destruct (dotless_eqb _ Hl) as [H1 H2]. rewrite H1, H2. simpl.
  rewrite Hm. simpl.
  destruct c as [[] [] [] [] [] [] [] []]; try reflexivity.
  exfalso. apply Hne. reflexivity.
Qed.

(** For such a reference with a path, [ResolveReference] keeps the
    base's scheme and authority and sets the resolved path. *)
Lemma ResolveReference_path (B ref : Url.URL) (p : string) :
  pathReference ref ->
  (Url.Path ref = "" -> Url.Opaque B = "") ->
  Url.EscapedPath ref <> "" ->
  Url.unescape Url.encodePath
    (Url.resolvePath (Url.EscapedPath B) (Url.EscapedPath ref)) = Ok p ->
  let u := Url.ResolveReference B ref in
  Url.Scheme u = Url.Scheme B /\ Url.Host u = Url.Host B
  /\ Url.User u = Url.User B /\ Url.Path u = p.
Proof.
  intros (Hs & Hh & Hu & Ho) Hop Hne Hp.
  unfold Url.ResolveReference. rewrite Hs, Hh, Hu, Ho. simpl.
  assert (Hpath : Url.Path ref <> "").
  { intros E. apply Hne. unfold Url.EscapedPath. rewrite E.
    destruct (_ && _); simpl.
    - destruct (Url.unescape Url.encodePath (Url.RawPath ref)) as [q |] eqn:Eq.
      + destruct (String.eqb_spec q "") as [-> | Hq]; [| reflexivity].
        destruct (Url.RawPath ref) as [| a r]; [reflexivity |].
        exfalso. revert Eq. simpl.
        destruct (Ascii.eqb a "%").
        * destruct r as [| h1 [| h2 r']]; try discriminate.
          destruct (_ && _); [| discriminate].
          destruct (Url.unescape Url.encodePath r'); discriminate.
        * destruct (Url.unescape Url.encodePath r); discriminate.
      + reflexivity.
    - reflexivity. }
  apply String.eqb_neq in Hpath. rewrite Hpath. simpl.
  unfold Url.setPath_ignore, Url.setPath. simpl.
  match goal with
  | |- context [Url.unescape Url.encodePath ?x] =>
      replace (Url.unescape Url.encodePath x) with (Ok (A:=string) p)
  end.
  simpl. repeat split; reflexivity.
Qed.

(** ** The request builder *)

Lemma canonical_header_keys :
  Http.CanonicalMIMEHeaderKey "Authorization" = "Authorization"
  /\ Http.CanonicalMIMEHeaderKey "Content-Type" = "Content-Type"
  /\ Http.CanonicalMIMEHeaderKey "User-Agent" = "User-Agent"
  /\ Http.CanonicalMIMEHeaderKey "Link" = "Link".
Proof. repeat split; reflexivity. Qed.

Lemma Header_Get_Set (h : Http.Header) (k v : string) :
  Http.Header_Get (Http.Header_Set h k v) k = v.
Proof.
  unfold Http.Header_Get, Http.Header_Set. now rewrite lookup_insert_eq.
Qed.

Lemma Header_Get_Set_other (h : Http.Header) (k k' v : string) :
  Http.CanonicalMIMEHeaderKey k' <> Http.CanonicalMIMEHeaderKey k ->
  Http.Header_Get (Http.Header_Set h k' v) k = Http.Header_Get h k.
Proof.
  intros H. unfold Http.Header_Get, Http.Header_Set.
  now rewrite lookup_insert_ne.
Qed.

Lemma Header_Get_empty (k : string) : Http.Header_Get ∅ k = "".
Proof. unfold Http.Header_Get. now rewrite lookup_empty. Qed.

(** [NewRequest] returns a request exactly when the path parses, the
    body (if any) encodes and the HTTP layer accepts the method and the
    text of the resolved URL. *)
Lemma NewRequest_Ok (c : Client) (method P : string) (body : option Json.value)
  (req : Http.Request) :
  NewRequest c method P body = Ok req <->
  exists ref buf req0,
    Url.Parse P = Ok ref
    /\ encoded body buf
    /\ Http.NewRequestWithContext method
         (Url.URL_String (Url.ResolveReference (baseURL c) ref)) buf = Ok req0
    /\ req = withHeaders c body req0.
Proof.
  unfold NewRequest, Url.URL_Parse, withHeaders, encoded. split.
  - intros H.
    destruct (Url.Parse P) as [ref | e]; [| discriminate].
    destruct body as [b |].
    + destruct (Json.Encode b) as [t | e]; [| discriminate].
      destruct (Http.NewRequestWithContext _ _ _) as [req0 | e] eqn:EN;
        [| discriminate].
      injection H as <-. exists ref, (Some t), req0.
      split; [reflexivity |]. split; [exists t; split; reflexivity |].
      split; [exact EN | reflexivity].
    + destruct (Http.NewRequestWithContext _ _ _) as [req0 | e] eqn:EN;
        [| discriminate].
      injection H as <-. exists ref, None, req0.
      split; [reflexivity |]. split; [reflexivity |].
      split; [exact EN | reflexivity].
  - intros (ref & buf & req0 & -> & Hb & HN & ->).
    destruct body as [b |].
    + destruct Hb as (t & -> & ->). rewrite HN. reflexivity.
    + subst buf. rewrite HN. reflexivity.
Qed.

Lemma NewRequestWithContext_Ok (method target : string) (buf : option string)
  (req0 : Http.Request) :
  Http.NewRequestWithContext method target buf = Ok req0 ->
  exists u0,
    Url.Parse target = Ok u0
    /\ Http.URL req0 = Url.setHost u0 (Http.removeEmptyPort (Url.Host u0))
    /\ Http.Method req0 = (if String.eqb method "" then "GET" else method)
    /\ Http.ReqBody req0 = buf
    /\ Http.ReqHeader req0 = ∅.
Proof.
  unfold Http.NewRequestWithContext.
  destruct (negb _); [discriminate |].
  destruct (Url.Parse target) as [u0 |]; [| discriminate].
  intros [= <-]. exists u0. repeat split; reflexivity.
Qed.

Lemma withHeaders_spec (c : Client) (body : option Json.value) (req0 : Http.Request) :
  Http.ReqHeader req0 = ∅ ->
  let req := withHeaders c body req0 in
  Http.Method req = Http.Method req0
  /\ Http.URL req = Http.URL req0
  /\ Http.ReqBody req = Http.ReqBody req0
  /\ Http.Header_Get (Http.ReqHeader req) "Authorization"
     = (if String.eqb (apiKey c) "" then "" else "Bearer " ++ apiKey c)
  /\ Http.Header_Get (Http.ReqHeader req) "Content-Type"
     = (match body with Some _ => "application/json" | None => "" end)
  /\ Http.Header_Get (Http.ReqHeader req) "User-Agent" = userAgent c.
Proof.
  intros Hh. unfold withHeaders.
  destruct body as [b |]; destruct (String.eqb (apiKey c) "");
    cbn [negb Http.Method Http.URL Http.ReqBody Http.ReqHeader
           Http.Request_SetHeader];
    repeat split;
    repeat (first
      [ apply Header_Get_Set
      | rewrite Header_Get_Set_other by (vm_compute; discriminate)
      | rewrite Hh; apply Header_Get_empty ]).
Qed.

Lemma Contains_append_sep (b : string) (sep : ascii) :
  Strings.Contains (b ++ String sep "") sep = true.
Proof.
  induction b as [| c b IH]; simpl.
  - now rewrite Ascii.eqb_refl.
  - rewrite IH. apply orb_true_r.
Qed.

(** A base path that ends in a slash is kept whole by the merge. *)
Lemma throughLast_slash_end (b : string) :
  Strings.throughLast (b ++ "/") "/" = b ++ "/".
Proof.
  induction b as [| c b IH]; [reflexivity |].
  simpl. rewrite (Contains_append_sep b "/"). now rewrite IH.
Qed.

Lemma pathRule_holds (B : Url.URL) (P : string) : pathRule B P.
Proof.
  intros ref tail p HP Href Hne full Hfull Hclean Hp.
  assert (HR : Url.resolvePath (Url.EscapedPath B) (Url.EscapedPath ref) = full)
    by (eapply resolvePath_clean_rooted; eassumption).
  destruct (ResolveReference_path B ref p Href) as (Hs & Hh & _ & Hpath).
  - intros E. exfalso. apply Hne. unfold Url.EscapedPath. rewrite E.
    destruct (_ && _); simpl; [| reflexivity].
    destruct (Url.unescape Url.encodePath (Url.RawPath ref)) as [q |] eqn:Eq;
      [| reflexivity].
    destruct (String.eqb_spec q "") as [-> | Hq]; [| reflexivity].
    destruct (Url.RawPath ref) as [| a r]; [reflexivity |].
    exfalso. revert Eq. simpl.
    destruct (Ascii.eqb a "%").
    + destruct r as [| h1 [| h2 r']]; try discriminate.
      destruct (_ && _); [| discriminate].
      destruct (Url.unescape Url.encodePath r'); discriminate.
    + destruct (Url.unescape Url.encodePath r); discriminate.
  - assumption.
  - rewrite HR. assumption.
  - repeat split; try assumption.
    + intros ->. subst full. unfold merged. rewrite H. reflexivity.
    + subst full. unfold merged. rewrite H.
      destruct (Ascii.eqb_spec c "/"); [contradiction | reflexivity].
    + intros b Hb. subst full. unfold merged. rewrite H.
      destruct (Ascii.eqb_spec c "/"); [contradiction |].
      rewrite Hb. now rewrite throughLast_slash_end.
Qed.

(** C6 (amended).  Whenever [NewRequest] builds a request, the target
    is the reference [P] resolved against the base URL by
    [ResolveReference] (RFC 3986), the method is the verb (GET for the
    empty verb) and the Authorization header is [Bearer <key>] exactly
    when a key is configured.  The resolved path obeys [pathRule]: a
    path that starts with a slash replaces the base path; any other
    path replaces what follows the last slash of the base path, so that
    it is appended only to a base path that ends in a slash.  The
    scenario of the specification holds. *)
Theorem C6_target_is_the_resolved_reference :
  (forall (c : Client) (method P : string) (body : option Json.value)
          (req : Http.Request),
      NewRequest c method P body = Ok req ->
      targetResolved c P req
      /\ pathRule (baseURL c) P
      /\ Http.Method req = (if String.eqb method "" then "GET" else method)
      /\ Http.Header_Get (Http.ReqHeader req) "Authorization"
         = (if String.eqb (apiKey c) "" then "" else "Bearer " ++ apiKey c))
  /\ (forall transport,
        exists req,
          NewRequest
            (NewClient transport
               [WithBaseURL "https://api.example.com/v2/"; WithAPIKey "tok"])
            "GET" "applications/42" None = Ok req
          /\ Http.Method req = "GET"
          /\ Url.URL_String (Http.URL req)
             = "https://api.example.com/v2/applications/42"
          /\ Http.Header_Get (Http.ReqHeader req) "Authorization" = "Bearer tok").
Proof.
  split.
  - intros c method P body req H.
    apply NewRequest_Ok in H. destruct H as (ref & buf & req0 & HP & _ & HN & ->).
    destruct (NewRequestWithContext_Ok _ _ _ _ HN) as (u0 & Hu0 & HU & HM & _ & HH).
    destruct (withHeaders_spec c body req0 HH) as (Hm & Hu & _ & Ha & _).
    split; [| split; [| split]].
    + exists ref, u0. rewrite Hu. auto.
    + apply pathRule_holds.
    + rewrite Hm. exact HM.
    + exact Ha.
  - intros transport. eexists. split; [vm_compute; reflexivity |].
    repeat split; vm_compute; reflexivity.
Qed.

Lemma C6_witness :
  exists req,
    NewRequest (NewClient offline [WithBaseURL "https://api.example.com/v2/";
                                   WithAPIKey "tok"])
      "GET" "applications/42" None = Ok req
    /\ targetResolved (NewClient offline [WithBaseURL "https://api.example.com/v2/";
                                          WithAPIKey "tok"]) "applications/42" req
    /\ Http.Header_Get (Http.ReqHeader req) "Authorization" = "Bearer tok".
Proof.
  eexists. split; [vm_compute; reflexivity |].
  split.
  - eapply (proj1 C6_target_is_the_resolved_reference _ "GET" _ None).
    vm_compute. reflexivity.
  - vm_compute. reflexivity.
Defined.

(** The path rule at the scenario, and at a base path without the
    final slash. *)
Example pathRule_appends :
  forall B ref,
    Url.Parse "https://api.example.com/v2/" = Ok B ->
    Url.Parse "applications/42" = Ok ref ->
    Url.Path (Url.ResolveReference B ref) = "/v2/applications/42".
Proof.
  intros B ref HB Href.
  eapply (pathRule_holds B "applications/42" ref "v2/applications/42");
    vm_compute in HB, Href; injection HB as <-; injection Href as <-;
    try reflexivity.
  - repeat split; reflexivity.
  - discriminate.
  - repeat constructor; discriminate.
Qed.

Example pathRule_replaces :
  forall ref,
    Url.Parse "applications/42" = Ok ref ->
    Url.Path (Url.ResolveReference parsedBaseURL ref) = "/applications/42".
Proof.
  intros ref Href.
  eapply (pathRule_holds parsedBaseURL "applications/42" ref "applications/42");
    vm_compute in Href; injection Href as <-; try reflexivity.
  - repeat split; reflexivity.
  - discriminate.
  - repeat constructor; discriminate.
Qed.

(** C6 as stated fails where the base path does not end in a slash:
    against the default base URL the relative path "applications" is
    not appended to the base path /v2 but replaces its last segment. *)
Lemma C6_counterexample :
  exists req,
    NewRequest (NewClient offline []) "GET" "applications" None = Ok req
    /\ Url.Path (baseURL (NewClient offline [])) = "/v2"
    /\ Url.Path (Http.URL req) = "/applications"
    /\ Url.URL_String (Http.URL req) = "https://api.sevalla.com/applications"
    /\ Url.URL_String (Http.URL req) <> "https://api.sevalla.com/v2/applications"
    /\ String.prefix (Url.Path (baseURL (NewClient offline [])))
         (Url.Path (Http.URL req)) = false.
Proof.
  eexists. split; [vm_compute; reflexivity |].
  repeat split; try (vm_compute; reflexivity). vm_compute. discriminate.
Qed.

(** ** The default base URL *)

Lemma options_keep_baseURL (opts : list ClientOption) :
  Forall keepsBaseURL opts ->
  forall c, baseURL (fold_left (fun c opt => opt c) opts c) = baseURL c.
Proof.
  induction 1 as [| o opts Ho _ IH]; intros c; simpl; [reflexivity |].
  rewrite IH. apply Ho.
Qed.

Lemma NewClient_default_baseURL transport (opts : list ClientOption) :
  Forall keepsBaseURL opts ->
  baseURL (NewClient transport opts) = parsedBaseURL.
Proof.
  intros H. unfold NewClient. now rewrite options_keep_baseURL.
Qed.

Lemma other_options_keep_baseURL (key ua : string) (h : Http.Client) :
  keepsBaseURL (WithAPIKey key) /\ keepsBaseURL (WithHTTPClient h)
  /\ keepsBaseURL (WithUserAgent ua).
Proof. repeat split. Qed.

Lemma resolve_against_default (ref : Url.URL) (ch : ascii) (r : string) :
  pathReference ref ->
  Url.EscapedPath ref = String ch r -> ch <> "/"%char ->
  Url.ResolveReference parsedBaseURL ref = Url.ResolveReference apiRoot ref.
Proof.
  intros (Hs & Hh & Hu & Ho) He Hch.
  unfold Url.ResolveReference. rewrite Hs, Hh, Hu, Ho.
  change (Url.EscapedPath parsedBaseURL) with "/v2".
  change (Url.EscapedPath apiRoot) with "/".
  rewrite !resolvePath_merged, He. unfold merged.
  destruct (Ascii.eqb_spec ch "/") as [-> | _]; [contradiction |].
  reflexivity.
Qed.

(** C10.  A client built from options that leave the base URL alone
    has the default base URL https://api.sevalla.com/v2, which does not
    end in a slash.  Against it every relative path that does not start
    with a slash resolves exactly as it does against
    https://api.sevalla.com/: the segment v2 is replaced.  For the path
    "applications" the request is built and its URL is
    https://api.sevalla.com/applications. *)
Theorem C10_default_base_loses_v2 :
  forall transport (opts : list ClientOption),
    Forall keepsBaseURL opts ->
    Url.URL_String (baseURL (NewClient transport opts)) = "https://api.sevalla.com/v2"
    /\ Strings.HasSuffix (Url.URL_String (baseURL (NewClient transport opts))) "/" = false
    /\ (forall P ref ch r,
          Url.Parse P = Ok ref -> pathReference ref ->
          Url.EscapedPath ref = String ch r -> ch <> "/"%char ->
          Url.URL_Parse (baseURL (NewClient transport opts)) P
          = Ok (Url.ResolveReference apiRoot ref))
    /\ (exists req,
          NewRequest (NewClient transport opts) "GET" "applications" None = Ok req)
    /\ (forall method body req,
          NewRequest (NewClient transport opts) method "applications" body = Ok req ->
          Url.URL_String (Http.URL req) = "https://api.sevalla.com/applications").
Proof.
  intros transport opts H.
  pose proof (NewClient_default_baseURL transport opts H) as HB.
  rewrite HB. split; [reflexivity |]. split; [reflexivity |]. split; [| split].
  - intros P ref ch r HP Href He Hch. unfold Url.URL_Parse. rewrite HP.
    f_equal. eapply resolve_against_default; eassumption.
  - eexists. apply NewRequest_Ok. rewrite HB.
    eexists _, None, _. split; [vm_compute; reflexivity |].
    split; [reflexivity |]. split; [vm_compute; reflexivity | reflexivity].
  - intros method body req Hreq. apply NewRequest_Ok in Hreq.
    destruct Hreq as (ref & buf & req0 & HP & _ & HN & ->).
    vm_compute in HP. injection HP as <-. rewrite HB in HN.
    destruct (NewRequestWithContext_Ok _ _ _ _ HN) as (u0 & Hu0 & HU & _ & _ & HH).
    destruct (withHeaders_spec (NewClient transport opts) body req0 HH)
      as (_ & Hu & _).
    rewrite Hu, HU. vm_compute in Hu0. injection Hu0 as <-.
    vm_compute. reflexivity.
Qed.

Lemma C10_witness :
  Url.URL_String (baseURL (NewClient offline [WithAPIKey "k"; WithUserAgent "ua"]))
  = "https://api.sevalla.com/v2"
  /\ exists req,
       NewRequest (NewClient offline [WithAPIKey "k"; WithUserAgent "ua"])
         "GET" "applications" None = Ok req
       /\ Url.URL_String (Http.URL req) = "https://api.sevalla.com/applications".
Proof.
  assert (Hk : Forall keepsBaseURL [WithAPIKey "k"; WithUserAgent "ua"])
    by (repeat constructor).
  destruct (C10_default_base_loses_v2 offline _ Hk) as (Hb & _ & _ & [req Hreq] & Hurl).
  split; [exact Hb |]. exists req. split; [exact Hreq |].
  exact (Hurl _ _ _ Hreq).
Defined.

(** ** Pagination: [populatePageValues] *)

(** TestPopulatePageValues, "full pagination" *)
Example pages_full :
  populatePageValues
    (envelope (httpResponse 200
       [("Link",
         "<http://api.test/items?page=3>; " ++ rel "next"
         ++ ", <http://api.test/items?page=1>; " ++ rel "prev"
         ++ ", <http://api.test/items?page=1>; " ++ rel "first"
         ++ ", <http://api.test/items?page=10>; " ++ rel "last")] ""))
  = Returns
      (Response.mk
         (httpResponse 200
            [("Link",
              "<http://api.test/items?page=3>; " ++ rel "next"
              ++ ", <http://api.test/items?page=1>; " ++ rel "prev"
              ++ ", <http://api.test/items?page=1>; " ++ rel "first"
              ++ ", <http://api.test/items?page=10>; " ++ rel "last")] "")
         3 1 1 10 Rate.zero).
Proof. reflexivity. Qed.

(** the scenario of the specification, "only next" *)
Example pages_only_next :
  populatePageValues
    (envelope (httpResponse 200
       [("Link", "<https://x/items?page=2>; " ++ rel "next")] ""))
  = Returns
      (Response.mk
         (httpResponse 200 [("Link", "<https://x/items?page=2>; " ++ rel "next")] "")
         2 0 0 0 Rate.zero).
Proof. reflexivity. Qed.

Example pages_no_header :
  populatePageValues (envelope (httpResponse 200 [] ""))
  = Returns (envelope (httpResponse 200 [] "")).
Proof. reflexivity. Qed.

(** Entries with one segment, an unparsable URL or a page that is not
    a number are skipped and the entry after them is read. *)
Example pages_malformed_skipped :
  populatePageValues
    (envelope (httpResponse 200
       [("Link",
         "<https://x/items?page=2>, <:bad?page=4>; " ++ rel "next"
         ++ ", <https://x/items?page=zz>; " ++ rel "prev"
         ++ ", <https://x/items?page=7>; " ++ rel "last")] ""))
  = Returns
      (Response.mk
         (httpResponse 200
            [("Link",
              "<https://x/items?page=2>, <:bad?page=4>; " ++ rel "next"
              ++ ", <https://x/items?page=zz>; " ++ rel "prev"
              ++ ", <https://x/items?page=7>; " ++ rel "last")] "")
         0 0 0 7 Rate.zero).
Proof. reflexivity. Qed.

Lemma Split_without_sep (s : string) (sep : ascii) :
  Strings.Contains s sep = false -> Strings.Split s sep = [s].
Proof.
  induction s as [| c r IH]; simpl; [reflexivity |].
  intros H. apply orb_false_elim in H as [Hc Hr].
  rewrite Hc, (IH Hr). reflexivity.
Qed.

(** The page fields are all an entry can change. *)
Lemma setPage_frame (r : Response.t) (name : string) (n : Z) :
  Response.Response (setPage r name n) = Response.Response r
  /\ Response.Rate (setPage r name n) = Response.Rate r.
Proof.
  unfold setPage.
  repeat match goal with
         | |- context [if ?b then _ else _] => destruct b
         end; split; reflexivity.
Qed.

Lemma pageEntry_frame (r r' : Response.t) (link : string) :
  pageEntry r link = Returns r' ->
  Response.Response r' = Response.Response r
  /\ Response.Rate r' = Response.Rate r.
Proof.
  unfold pageEntry.
  destruct (negb _); [intros [= <-]; now split |].
  destruct (index _ 0) as [seg0 |]; [| discriminate]. cbn [obind].
  destruct (Url.Parse _) as [u |]; [| intros [= <-]; now split].
  destruct (String.eqb _ ""); [intros [= <-]; now split |].
  destruct (Strconv.Atoi _) as [n |]; [| intros [= <-]; now split].
  destruct (index _ 1) as [seg1 |]; [| discriminate]. cbn [obind].
  destruct (index _ 1) as [quoted |]; [| discriminate]. cbn [obind].
  intros [= <-]. apply setPage_frame.
Qed.

Lemma pageEntries_frame (links : list string) :
  forall r r', pageEntries r links = Returns r' ->
    Response.Response r' = Response.Response r
    /\ Response.Rate r' = Response.Rate r.
Proof.
  induction links as [| link rest IH]; intros r r'; simpl.
  - intros [= <-]. now split.
  - destruct (pageEntry r link) as [r1 |] eqn:E; [| discriminate]. cbn [obind].
    intros H. destruct (IH _ _ H) as [H1 H2].
    destruct (pageEntry_frame _ _ _ E) as [H3 H4].
    split; congruence.
Qed.

(** [populatePageValues] touches neither the wrapped response nor the
    rate-limit record. *)
Lemma populatePageValues_frame (r r' : Response.t) :
  populatePageValues r = Returns r' ->
  Response.Response r' = Response.Response r
  /\ Response.Rate r' = Response.Rate r.
Proof.
  unfold populatePageValues. destruct (negb _).
  - apply pageEntries_frame.
  - intros [= <-]. now split.
Qed.

(** The four [continue]s of the loop: an entry that does not have
    exactly two segments, whose URL does not parse, whose URL has no
    page, or whose page is not a number, leaves the envelope as it is. *)
Lemma pageEntry_skips (r : Response.t) (link : string) :
  let segments := Strings.Split (Strings.TrimSpace link) ";" in
  length segments <> 2%nat
  \/ (exists s0 s1, segments = [s0; s1]
       /\ match Url.Parse (Strings.Trim s0 "<>") with
          | Err _ => True
          | Ok u =>
              Url.Values_Get (Url.Query u) "page" = ""
              \/ exists e, Strconv.Atoi (Url.Values_Get (Url.Query u) "page") = Err e
          end) ->
  pageEntry r link = Returns r.
Proof.
  cbv zeta. unfold pageEntry. intros [Hlen | (s0 & s1 & -> & H)].
  - apply Nat.eqb_neq in Hlen. now rewrite Hlen.
  - cbn [length Nat.eqb negb index nth_error obind].
    destruct (Url.Parse (Strings.Trim s0 "<>")) as [u |]; [| reflexivity].
    destruct H as [-> | [e ->]]; [reflexivity |].
    now destruct (String.eqb _ "").
Qed.

(** The entry that is read: two segments, a URL with a numeric page,
    and a second segment with an equals sign; what follows the first
    equals sign, without its quotes, selects the field. *)
Lemma pageEntry_sets (r : Response.t) (link s0 s1 key value : string)
  (more : list string) (u : Url.URL) (n : Z) :
  Strings.Split (Strings.TrimSpace link) ";" = [s0; s1] ->
  Url.Parse (Strings.Trim s0 "<>") = Ok u ->
  Url.Values_Get (Url.Query u) "page" <> "" ->
  Strconv.Atoi (Url.Values_Get (Url.Query u) "page") = Ok n ->
  Strings.Split s1 "=" = key :: value :: more ->
  pageEntry r link = Returns (setPage r (Strings.Trim value (String DQ "")) n).
Proof.
  intros Hseg Hu Hpage Hn Hrel. unfold pageEntry.
  rewrite Hseg. cbn [length Nat.eqb negb index nth_error obind].
  rewrite Hu. apply String.eqb_neq in Hpage. rewrite Hpage, Hn, Hrel.
  reflexivity.
Qed.

(** An entry of two segments whose URL carries a numeric page and
    whose second segment has no equals sign: [strings.Split(segments[1],
    "=")] has one element and indexing it at 1 panics. *)
Lemma pageEntry_without_equals (r : Response.t) (link s0 s1 : string)
  (u : Url.URL) (n : Z) :
  Strings.Split (Strings.TrimSpace link) ";" = [s0; s1] ->
  Url.Parse (Strings.Trim s0 "<>") = Ok u ->
  Url.Values_Get (Url.Query u) "page" <> "" ->
  Strconv.Atoi (Url.Values_Get (Url.Query u) "page") = Ok n ->
  Strings.Contains s1 "=" = false ->
  pageEntry r link = Panics "index out of range".
Proof.
  intros Hseg Hu Hpage Hn Heq. unfold pageEntry.
  rewrite Hseg. cbn [length Nat.eqb negb index nth_error obind].
  rewrite Hu. apply String.eqb_neq in Hpage. rewrite Hpage, Hn.
  rewrite (Split_without_sep _ _ Heq). reflexivity.
Qed.

(** A panic in one entry is the result of the whole loop: the entries
    after it are not read. *)
Lemma pageEntries_panic (r : Response.t) (before after : list string)
  (link msg : string) :
  (forall x, In x before -> forall r0, pageEntry r0 x = Returns r0) ->
  pageEntry r link = Panics msg ->
  pageEntries r (before ++ link :: after) = Panics msg.
Proof.
  intros Hskip Hp. induction before as [| b before IH]; simpl.
  - rewrite Hp. reflexivity.
  - rewrite (Hskip b) by (now left). cbn [obind].
    apply IH. intros x Hx. apply Hskip. now right.
Qed.

(** C3 (the code fails it).  An entry whose rel parameter is missing,
    written with a second segment that has no equals sign, is not
    skipped: [populatePageValues] panics on it, whatever stands in the
    other entries, and [Do] panics with it instead of returning.  Here
    the header is <https://x/items?page=2>; next followed by a
    well-formed entry for rel="last". *)
Theorem C3_entry_without_equals_panics :
  (forall (r : Response.t) (link s0 s1 : string) (u : Url.URL) (n : Z),
      Strings.Split (Strings.TrimSpace link) ";" = [s0; s1] ->
      Url.Parse (Strings.Trim s0 "<>") = Ok u ->
      Url.Values_Get (Url.Query u) "page" <> "" ->
      Strconv.Atoi (Url.Values_Get (Url.Query u) "page") = Ok n ->
      Strings.Contains s1 "=" = false ->
      pageEntry r link = Panics "index out of range")
  /\ populatePageValues
       (envelope (httpResponse 200
          [("Link", "<https://x/items?page=2>; next, <https://x/items?page=9>; "
                    ++ rel "last")] ""))
     = Panics "index out of range"
  /\ (forall T (store : Json.value -> T -> T * error) (c : Client)
             (req : Http.Request) (v : Dest T),
        Http.Do (client c) req
        = Ok (httpResponse 200 [("Link", "<https://x/items?page=2>; next")] "[]") ->
        Do store c req v = Panics "index out of range").
Proof.
  split; [exact pageEntry_without_equals |]. split; [reflexivity |].
  intros T store c req v H. unfold Do. rewrite H. reflexivity.
Qed.

Lemma C3_witness :
  pageEntry (envelope (httpResponse 200 [] "")) "<https://x/items?page=2>; next"
  = Panics "index out of range".
Proof.
  destruct C3_entry_without_equals_panics as [entry _].
  eapply (entry _ "<https://x/items?page=2>; next" "<https://x/items?page=2>" " next").
  - reflexivity.
  - reflexivity.
  - vm_compute. discriminate.
  - reflexivity.
  - reflexivity.
Defined.

(** ** The executor: [Do] and [CheckResponse] *)

Lemma CheckResponse_success (resp : Http.Response) :
  success resp -> CheckResponse resp = None.
Proof.
  unfold success, CheckResponse. intros H.
  destruct (Z.leb_spec 200 (Http.StatusCode resp)); [| lia].
  destruct (Z.leb_spec (Http.StatusCode resp) 299); [| lia].
  reflexivity.
Qed.

Lemma responseMember_Response st kv :
  ErrorResponse.Response (fst (responseMember st kv))
  = ErrorResponse.Response (fst st).
Proof.
  destruct st as [r err], kv as [k v]. unfold responseMember.
  repeat match goal with
         | |- context [if ?b then _ else _] => destruct b
         | |- context [let '(_, _) := ?x in _] => destruct x
         end; reflexivity.
Qed.

Lemma storeErrorResponse_Response (doc : Json.value) (cur : ErrorResponse.t) :
  ErrorResponse.Response (fst (storeErrorResponse doc cur))
  = ErrorResponse.Response cur.
Proof.
  destruct doc; try reflexivity. simpl.
  change cur with (fst (cur, @None liberror)) at 2.
  generalize (cur, @None liberror). induction m as [| kv m IH]; intros st.
  - reflexivity.
  - simpl. rewrite IH. apply responseMember_Response.
Qed.

Lemma Unmarshal_Response (data : string) (cur : ErrorResponse.t) :
  ErrorResponse.Response (fst (Unmarshal data cur)) = ErrorResponse.Response cur.
Proof.
  unfold Unmarshal. destruct (Json.parseDocument data); [| reflexivity].
  apply storeErrorResponse_Response.
Qed.

(** Outside 200-299 the result is an [*ErrorResponse] that carries the
    response itself. *)
Lemma CheckResponse_failure (resp : Http.Response) :
  ~ success resp ->
  exists e, CheckResponse resp = Some (APIError (Some e))
            /\ ErrorResponse.Response e = Some resp.
Proof.
  unfold success, CheckResponse. intros H.
  destruct ((200 <=? Http.StatusCode resp) && (Http.StatusCode resp <=? 299)) eqn:E.
  { exfalso. apply H. apply andb_true_iff in E. lia. }
  unfold Io.ReadAll. eexists. split; [reflexivity |].
  destruct (0 <? String.length (Http.Body resp))%nat; [| reflexivity].
  pose proof (Unmarshal_Response (Http.Body resp)
                (ErrorResponse.mk (Some resp) "" "" "" [])) as HU.
  destruct (Unmarshal _ _) as [e [err |]]; exact HU.
Qed.

Lemma Do_success {T} (store : Json.value -> T -> T * error)
  (c : Client) (req : Http.Request) (v : Dest T) (resp : Http.Response)
  (env : Response.t) :
  Http.Do (client c) req = Ok resp ->
  populatePageValues (envelope resp) = Returns env ->
  success resp ->
  exists v', Do store c req v
             = Returns (Some env, deliveryError store v resp, v').
Proof.
  intros Hsend Hpages Hok. unfold Do, deliveryError.
  rewrite Hsend. fold (envelope resp). rewrite Hpages. cbn [obind].
  rewrite (CheckResponse_success resp Hok).
  destruct (Http.StatusCode resp =? Http.StatusNoContent).
  - rewrite andb_false_r. eexists. reflexivity.
  - destruct v as [| w | x]; cbn [isNil negb andb].
    + eexists. reflexivity.
    + destruct (Io.Copy w (Http.Body resp)). eexists. reflexivity.
    + destruct (Decode store (Http.Body resp) x) as [x' [[| | | [|]] |]];
        eexists; reflexivity.
Qed.

Lemma Do_failure {T} (store : Json.value -> T -> T * error)
  (c : Client) (req : Http.Request) (v : Dest T) (resp : Http.Response)
  (env : Response.t) :
  Http.Do (client c) req = Ok resp ->
  populatePageValues (envelope resp) = Returns env ->
  ~ success resp ->
  exists e, Do store c req v
            = Returns (Some env, Some (APIError (Some e)), v)
            /\ CheckResponse resp = Some (APIError (Some e))
            /\ ErrorResponse.Response e = Some resp.
Proof.
  intros Hsend Hpages Hko. unfold Do.
  rewrite Hsend. fold (envelope resp). rewrite Hpages. cbn [obind].
  destruct (CheckResponse_failure resp Hko) as (e & -> & He).
  exists e. repeat split. exact He.
Qed.




(** C2 (amended).  For every response received, whatever its status,
    and whose Link header [populatePageValues] gets through, [Do]
    returns the envelope of that response with the page fields
    [populatePageValues] reads from the Link header (all zero without
    one).  No header is read for the rate limit: the [Rate] record of
    the envelope has its zero value. *)
Theorem C2_envelope_has_pages_and_zero_rate :
  forall T (store : Json.value -> T -> T * error) (c : Client)
         (req : Http.Request) (v : Dest T) (resp : Http.Response)
         (env : Response.t),
    Http.Do (client c) req = Ok resp ->
    populatePageValues (envelope resp) = Returns env ->
    (exists err v', Do store c req v = Returns (Some env, err, v'))
    /\ Response.Response env = resp
    /\ Response.Rate env = Rate.zero
    /\ (Http.Header_Get (Http.Header_ resp) "Link" = "" ->
        pages env = (0, 0, 0, 0)).
Proof.
  intros T store c req v resp env Hsend Hpages.
  destruct (populatePageValues_frame _ _ Hpages) as [HR HRate].
  split; [| split; [exact HR | split; [exact HRate |]]].
  - destruct (Z_le_dec 200 (Http.StatusCode resp)) as [Hlo |];
      [destruct (Z_le_dec (Http.StatusCode resp) 299) as [Hhi |] |].
    + destruct (Do_success store c req v resp env Hsend Hpages (conj Hlo Hhi))
        as [v' H].
      eauto.
    + destruct (Do_failure store c req v resp env Hsend Hpages) as (e & H & _);
        [unfold success; lia | eauto].
    + destruct (Do_failure store c req v resp env Hsend Hpages) as (e & H & _);
        [unfold success; lia | eauto].
  - intros Hlink. revert Hpages. unfold populatePageValues.
    cbn [envelope Response.Response]. rewrite Hlink.
    intros [= <-]. reflexivity.
Qed.

Lemma C2_witness :
  (exists err v',
     Do storeAny (serving limited) anyRequest (DestValue Json.Null)
     = Returns (Some (Response.mk limited 2 0 0 0 Rate.zero), err, v'))
  /\ Response.Rate (Response.mk limited 2 0 0 0 Rate.zero) = Rate.zero.
Proof.
  destruct (C2_envelope_has_pages_and_zero_rate Json.value storeAny
              (serving limited) anyRequest (DestValue Json.Null) limited
              (Response.mk limited 2 0 0 0 Rate.zero) eq_refl eq_refl)
    as (Hdo & _ & Hrate & _).
  split; [exact Hdo | exact Hrate].
Defined.

(** C2 as stated fails on its rate-limit half: the headers are
    present and the fields of the envelope stay zero. *)
Lemma C2_counterexample :
  Http.Header_Get (Http.Header_ limited) "X-RateLimit-Limit" = "100"
  /\ Http.Header_Get (Http.Header_ limited) "X-RateLimit-Remaining" = "0"
  /\ Http.Header_Get (Http.Header_ limited) "X-RateLimit-Reset" = "1767225600"
  /\ exists env e,
       Do storeAny (serving limited) anyRequest (DestValue Json.Null)
       = Returns (Some env, Some (APIError (Some e)), DestValue Json.Null)
       /\ IsRateLimited (Some (APIError (Some e))) = Returns true
       /\ Response.NextPage env = 2
       /\ Rate.Limit (Response.Rate env) = 0
       /\ Rate.Limit (Response.Rate env) <> 100
       /\ Rate.Reset (Response.Rate env) = 0.
Proof.
  repeat split; try reflexivity.
  eexists _, _. split; [reflexivity |].
  repeat split; try reflexivity. discriminate.
Qed.

(** ** Status 204 *)

(** With status 204 nothing is read into the destination, whatever it
    is, provided [populatePageValues] gets through the Link header. *)
Lemma Do_no_content {T} (store : Json.value -> T -> T * error)
  (c : Client) (req : Http.Request) (v : Dest T) (resp : Http.Response)
  (env : Response.t) :
  Http.Do (client c) req = Ok resp ->
  Http.StatusCode resp = 204 ->
  populatePageValues (envelope resp) = Returns env ->
  Do store c req v = Returns (Some env, None, v).
Proof.
  intros Hsend Hst Hpages. unfold Do.
  rewrite Hsend. fold (envelope resp). rewrite Hpages. cbn [obind].
  rewrite CheckResponse_success by (unfold success; lia).
  rewrite Hst. cbn. rewrite andb_false_r. reflexivity.
Qed.

Example no_content_buffer_untouched :
  Do storeAny (serving (httpResponse 204 [] "")) anyRequest
    (DestWriter (Io.Buffer "kept"))
  = Returns (Some (envelope (httpResponse 204 [] "")), None,
             DestWriter (Io.Buffer "kept")).
Proof. reflexivity. Qed.

(** TestClient_DoWithIOWriter *)
Example writer_receives_body :
  Do storeAny (serving (httpResponse 200 [] "test file content")) anyRequest
    (DestWriter (Io.Buffer ""))
  = Returns (Some (envelope (httpResponse 200 [] "test file content")), None,
             DestWriter (Io.Buffer "test file content")).
Proof. reflexivity. Qed.

(** the scenario of the specification: status 200, empty body *)
Example empty_body_tolerated :
  Do storeAny (serving (httpResponse 200 [] "")) anyRequest (DestValue Json.Null)
  = Returns (Some (envelope (httpResponse 200 [] "")), None, DestValue Json.Null).
Proof. reflexivity. Qed.

(** C9 (the code fails it).  A 204 response that carries the Link
    header <https://x/items?page=2>; next makes [Do] panic before it
    looks at the status: it neither returns success nor hands the
    destination back.  On every 204 response whose Link header
    [populatePageValues] gets through, [Do] does return a nil error
    and the destination as it was ([Do_no_content]). *)
Theorem C9_no_content_after_bad_link_panics :
  forall T (store : Json.value -> T -> T * error) (c : Client)
         (req : Http.Request) (v : Dest T),
    Http.Do (client c) req
    = Ok (httpResponse 204 [("Link", "<https://x/items?page=2>; next")] "") ->
    Do store c req v = Panics "index out of range".
Proof.
  intros T store c req v H. unfold Do. rewrite H. reflexivity.
Qed.

Lemma C9_witness :
  Do storeAny
    (serving (httpResponse 204 [("Link", "<https://x/items?page=2>; next")] ""))
    anyRequest (DestWriter (Io.Buffer "kept"))
  = Panics "index out of range".
Proof.
  apply (C9_no_content_after_bad_link_panics Json.value storeAny
           (serving (httpResponse 204 [("Link", "<https://x/items?page=2>; next")] ""))).
  reflexivity.
Defined.

(** ** Decoding the error body *)

(** The documented shape of an error body: an object in which no key
    occurs twice (by folded name), whose [message], [code] and
    [request_id] members are strings and whose [errors] member is a
    list of objects with string members [field], [code] and
    [message]; [message] is there.  Other members may be present. *)

Lemma stored_absent (tag : string) (m : list (string * Json.value)) :
  absent tag m -> forall init, stored tag m init = init.
Proof.
  induction 1 as [| kv m Hkv _ IH]; intros init; [reflexivity |].
  unfold stored in *. simpl. rewrite Hkv. apply IH.
Qed.


Lemma foldEq_tags_apart (k a b : string) :
  foldName a <> foldName b -> foldEq k a = true -> foldEq k b = false.
Proof.
  unfold foldEq. intros Hab Ha. apply String.eqb_eq in Ha.
  apply String.eqb_neq. congruence.
Qed.

Ltac tags_apart := first [assumption | vm_compute; discriminate].

Lemma fold_detail_shaped (m : list (string * Json.value)) :
  Forall detailMemberShape m ->
  forall d, snd (fold_left detailMember m (d, None)) = None.
Proof.
  induction 1 as [| [k v] m Hkv _ IH]; intros d; [reflexivity |].
  simpl. unfold detailMemberShape in Hkv. simpl in Hkv.
  destruct (foldEq k "field") eqn:E1; [| destruct (foldEq k "code") eqn:E2;
    [| destruct (foldEq k "message") eqn:E3]];
    try (destruct Hkv as [s ->]; [reflexivity |]; simpl; apply IH).
  apply IH.
Qed.

Lemma storeDetails_shaped (l : list Json.value) :
  Forall detailShape l ->
  forall cur, snd (storeDetails l cur) = None.
Proof.
  induction 1 as [| v l (m & -> & Hm) _ IH]; intros cur; [reflexivity |].
  simpl. pose proof (fold_detail_shaped m Hm (hd ErrorDetail.zero cur)) as Hd.
  destruct (fold_left detailMember m _) as [d e]. simpl in Hd. subst e.
  specialize (IH (tl cur)). destruct (storeDetails l (tl cur)) as [ds es].
  simpl in IH. subst es. reflexivity.
Qed.

Lemma responseMember_shaped (r : ErrorResponse.t) (kv : string * Json.value) :
  memberShape kv ->
  exists r1,
    responseMember (r, None) kv = (r1, None)
    /\ ErrorResponse.Message r1 = keep "message" kv (ErrorResponse.Message r)
    /\ ErrorResponse.Code r1 = keep "code" kv (ErrorResponse.Code r)
    /\ ErrorResponse.RequestID r1
       = keep "request_id" kv (ErrorResponse.RequestID r).
Proof.
  destruct kv as [k v]. unfold memberShape, keep. cbn [fst snd].
  intros [Hstr Harr]. unfold responseMember.
  destruct (foldEq k "message") eqn:E1.
  { destruct Hstr as [s ->]; [reflexivity |].
    rewrite (foldEq_tags_apart k "message" "code") by tags_apart.
    rewrite (foldEq_tags_apart k "message" "request_id") by tags_apart.
    eexists. split; [reflexivity |]. repeat split. }
  destruct (foldEq k "code") eqn:E2.
  { destruct Hstr as [s ->]; [reflexivity |].
    rewrite (foldEq_tags_apart k "code" "request_id") by tags_apart.
    eexists. split; [reflexivity |]. repeat split. }
  destruct (foldEq k "request_id") eqn:E3.
  { destruct Hstr as [s ->]; [reflexivity |].
    eexists. split; [reflexivity |]. repeat split. }
  destruct (foldEq k "errors") eqn:E4.
  { destruct (Harr eq_refl) as (l & -> & Hl). cbn [storeErrors].
    pose proof (storeDetails_shaped l Hl (ErrorResponse.Errors r)) as Hd.
    destruct (storeDetails l (ErrorResponse.Errors r)) as [ds e].
    simpl in Hd. subst e. eexists. split; [reflexivity |]. repeat split. }
  eexists. split; [reflexivity |]. repeat split.
Qed.

(** Members of the documented shape are stored without error, and the
    three string fields hold what [stored] says. *)
Lemma fold_response_shaped (m : list (string * Json.value)) :
  Forall memberShape m ->
  forall r,
    snd (fold_left responseMember m (r, None)) = None
    /\ ErrorResponse.Message (fst (fold_left responseMember m (r, None)))
       = stored "message" m (ErrorResponse.Message r)
    /\ ErrorResponse.Code (fst (fold_left responseMember m (r, None)))
       = stored "code" m (ErrorResponse.Code r)
    /\ ErrorResponse.RequestID (fst (fold_left responseMember m (r, None)))
       = stored "request_id" m (ErrorResponse.RequestID r).
Proof.
  induction 1 as [| kv m Hkv _ IH]; intros r.
  - repeat split.
  - destruct (responseMember_shaped r kv Hkv) as (r1 & Hstep & Hm & Hc & Hr).
    unfold stored. cbn [fold_left]. rewrite Hstep.
    fold (keep "message" kv (ErrorResponse.Message r)).
    fold (keep "code" kv (ErrorResponse.Code r)).
    fold (keep "request_id" kv (ErrorResponse.RequestID r)).
    rewrite <- Hm, <- Hc, <- Hr. apply IH.
Qed.

(** What [CheckResponse] leaves in the message of a failed response
    with a body, by the result of [Unmarshal]. *)
Lemma CheckResponse_message (resp : Http.Response) :
  ~ success resp ->
  exists e,
    CheckResponse resp = Some (APIError (Some e))
    /\ ErrorResponse.Response e = Some resp
    /\ (Http.Body resp = "" ->
        e = ErrorResponse.mk (Some resp) "" "" "" [])
    /\ (Http.Body resp <> "" ->
        match Unmarshal (Http.Body resp)
                (ErrorResponse.mk (Some resp) "" "" "" []) with
        | (e', Some _) => e = setMessage e' (Http.Body resp)
        | (e', None) => e = e'
        end).
Proof.
  intros Hko. destruct (CheckResponse_failure resp Hko) as (e & He & HR).
  exists e. split; [exact He |]. split; [exact HR |].
  revert He. unfold CheckResponse, Io.ReadAll.
  destruct (_ && _); [discriminate |].
  destruct (Http.Body resp) as [| a body] eqn:Eb.
  - cbn. intros [= <-]. split; [reflexivity | intros H; now contradiction H].
  - cbn [String.length Nat.ltb Nat.leb].
    destruct (Unmarshal _ _) as [e' [err |]]; intros [= <-];
      (split; [discriminate | reflexivity]).
Qed.

(** The three string fields of the error for a body that is a JSON
    object whose members have the documented types. *)
Lemma CheckResponse_shaped (resp : Http.Response) (e : ErrorResponse.t)
  (m : list (string * Json.value)) :
  ~ success resp ->
  CheckResponse resp = Some (APIError (Some e)) ->
  Json.parseDocument (Http.Body resp) = Ok (Json.Object m) ->
  Forall memberShape m ->
  ErrorResponse.Message e = stored "message" m ""
  /\ ErrorResponse.Code e = stored "code" m ""
  /\ ErrorResponse.RequestID e = stored "request_id" m "".
Proof.
  intros Hko He Hparse Hshape.
  destruct (CheckResponse_message resp Hko) as (e1 & He1 & _ & _ & Hbody).
  rewrite He in He1. injection He1 as <-.
  assert (Hne : Http.Body resp <> "")
    by (intros E; rewrite E in Hparse; discriminate).
  specialize (Hbody Hne). unfold Unmarshal in Hbody. rewrite Hparse in Hbody.
  cbn [storeErrorResponse] in Hbody.
  destruct (fold_response_shaped m Hshape
              (ErrorResponse.mk (Some resp) "" "" "" []))
    as (Hnone & Hm & Hc & Hr).
  destruct (fold_left responseMember m _) as [e' err].
  cbn [fst snd] in *. subst err. subst e'. auto.
Qed.

(** A JSON object that decodes without error and has no [message]
    member leaves [Message] empty, and so does the document [null]:
    the raw body is used only when decoding reports an error. *)
Lemma CheckResponse_without_message (resp : Http.Response)
  (e : ErrorResponse.t) :
  ~ success resp ->
  CheckResponse resp = Some (APIError (Some e)) ->
  (forall m,
     Json.parseDocument (Http.Body resp) = Ok (Json.Object m) ->
     Forall memberShape m -> absent "message" m ->
     ErrorResponse.Message e = "")
  /\ (Json.parseDocument (Http.Body resp) = Ok Json.Null ->
      ErrorResponse.Message e = "").
Proof.
  intros Hko He. split.
  - intros m Hparse Hshape Ha.
    destruct (CheckResponse_shaped resp e m Hko He Hparse Hshape) as (Hm & _).
    rewrite Hm. now apply stored_absent.
  - intros Hparse.
    destruct (CheckResponse_message resp Hko) as (e1 & He1 & _ & _ & Hbody).
    rewrite He in He1. injection He1 as <-.
    assert (Hne : Http.Body resp <> "")
      by (intros E; rewrite E in Hparse; discriminate).
    specialize (Hbody Hne). unfold Unmarshal in Hbody. rewrite Hparse in Hbody.
    cbn in Hbody. subst e. reflexivity.
Qed.




(** TestCheckResponse_WithPlainTextError *)
Example plain_text_is_the_message :
  CheckResponse (httpResponse 500 [] "Internal Server Error")
  = Some (APIError
            (Some (ErrorResponse.mk
                     (Some (httpResponse 500 [] "Internal Server Error"))
                     "Internal Server Error" "" "" []))).
Proof. reflexivity. Qed.

(** a member of the wrong type: the raw body is the message, the code
    read before the error was met stays *)
Example wrong_type_is_an_error :
  CheckResponse
    (httpResponse 500 []
       ("{" ++ quoted "code" ++ ":" ++ quoted "X" ++ "," ++ quoted "message" ++ ":5}"))
  = Some (APIError
            (Some (ErrorResponse.mk
                     (Some (httpResponse 500 []
                              ("{" ++ quoted "code" ++ ":" ++ quoted "X" ++ ","
                               ++ quoted "message" ++ ":5}")))
                     ("{" ++ quoted "code" ++ ":" ++ quoted "X" ++ ","
                      ++ quoted "message" ++ ":5}")
                     "X" "" []))).
Proof. reflexivity. Qed.

(** a well-formed object without [message] decodes without error:
    the message stays empty *)
Example object_without_message :
  Json.parseDocument ("{" ++ quoted "error" ++ ":" ++ quoted "boom" ++ "}")
  = Ok (Json.Object [("error", Json.Str "boom")])
  /\ CheckResponse
       (httpResponse 500 [] ("{" ++ quoted "error" ++ ":" ++ quoted "boom" ++ "}"))
     = Some (APIError
               (Some (ErrorResponse.mk
                        (Some (httpResponse 500 []
                                 ("{" ++ quoted "error" ++ ":"
                                  ++ quoted "boom" ++ "}")))
                        "" "" "" []))).
Proof. split; reflexivity. Qed.

(** keys are matched by folded name: the long s (bytes 197 191) folds
    to S, so the second member is the message, as the later of two
    members that name one field *)
Example folded_key_names_the_field :
  CheckResponse
    (httpResponse 404 []
       ("{" ++ quoted "message" ++ ":" ++ quoted "a" ++ ","
        ++ quoted ("me" ++ longS ++ longS ++ "age") ++ ":" ++ quoted "b" ++ "}"))
  = Some (APIError
            (Some (ErrorResponse.mk
                     (Some (httpResponse 404 []
                              ("{" ++ quoted "message" ++ ":" ++ quoted "a" ++ ","
                               ++ quoted ("me" ++ longS ++ longS ++ "age")
                               ++ ":" ++ quoted "b" ++ "}")))
                     "b" "" "" []))).
Proof. reflexivity. Qed.

(** ** The encoder and the parser: strings *)

Ltac each_byte c :=
  destruct c as [[] [] [] [] [] [] [] []].

(** One ASCII byte, written plainly or as an escape, is read back. *)
Lemma unquote_ascii (c : ascii) (tail : string) :
  (code c <? 128)%N = true ->
  Json.unquote ((if Json.safe c then String c "" else Json.escapeByte c) ++ tail)
  = Json.push (String c "") (Json.unquote tail).
Proof.
  intros H. each_byte c; try (vm_compute in H; discriminate H); reflexivity.
Qed.

Lemma high_byte_unquote (c : ascii) (r : string) :
  (code c <? 128)%N = false ->
  Json.unquote (String c r)
  = match Utf8.width (String c r), r with
    | 2%nat, String c1 r2 =>
        Json.push (String c (String c1 "")) (Json.unquote r2)
    | 3%nat, String c1 (String c2 r3) =>
        Json.push (String c (String c1 (String c2 ""))) (Json.unquote r3)
    | 4%nat, String c1 (String c2 (String c3 r4)) =>
        Json.push (String c (String c1 (String c2 (String c3 ""))))
          (Json.unquote r4)
    | _, _ => Json.push Utf8.RuneError (Json.unquote r)
    end.
Proof.
  intros H. each_byte c; try (vm_compute in H; discriminate H); reflexivity.
Qed.

Lemma encodeBytes_cons (c : ascii) (r : string) :
  Json.encodeBytes (String c r)
  = if (code c <? 128)%N then
      (if Json.safe c then String c "" else Json.escapeByte c)
      ++ Json.encodeBytes r
    else
      match Utf8.width (String c r), r with
      | 2%nat, String c1 r2 => String c (String c1 (Json.encodeBytes r2))
      | 3%nat, String c1 (String c2 r3) =>
          if Json.isE2 c && (code c1 =? 128)%N
             && ((code c2 =? 168)%N || (code c2 =? 169)%N)
          then String BSL (String "u" (String "2" (String "0" (String "2"
                 (String (Json.hexLower (code c2 - 160)) (Json.encodeBytes r3))))))
          else String c (String c1 (String c2 (Json.encodeBytes r3)))
      | 4%nat, String c1 (String c2 (String c3 r4)) =>
          String c (String c1 (String c2 (String c3 (Json.encodeBytes r4))))
      | _, _ => String BSL "ufffd" ++ Json.encodeBytes r
      end.
Proof. reflexivity. Qed.

Lemma ValidString_cons (c : ascii) (r : string) :
  Utf8.ValidString (String c r)
  = match Utf8.width (String c r), r with
    | 1%nat, _ => Utf8.ValidString r
    | 2%nat, String _ r2 => Utf8.ValidString r2
    | 3%nat, String _ (String _ r3) => Utf8.ValidString r3
    | 4%nat, String _ (String _ (String _ r4)) => Utf8.ValidString r4
    | _, _ => false
    end.
Proof. reflexivity. Qed.

Lemma width_ascii (c : ascii) (r : string) :
  (code c <? 128)%N = true -> Utf8.width (String c r) = 1%nat.
Proof. intros H. unfold Utf8.width. now rewrite H. Qed.

(** The width of a sequence depends on the bytes of the sequence only. *)
Lemma width_2_tail (c c1 : ascii) (x y : string) :
  Utf8.width (String c (String c1 x)) = 2%nat ->
  Utf8.width (String c (String c1 y)) = 2%nat.
Proof.
  unfold Utf8.width.
  destruct (_ <? _)%N; [discriminate |].
  destruct (between 194 223 c); [trivial |].
  destruct (between 224 239 c).
  { destruct x as [| ? ?]; [discriminate |]. destruct (_ && _); discriminate. }
  destruct (between 240 244 c); [| discriminate].
  destruct x as [| ? [| ? ?]]; try discriminate.
  destruct (_ && _); discriminate.
Qed.

Lemma width_3_tail (c c1 c2 : ascii) (x y : string) :
  Utf8.width (String c (String c1 (String c2 x))) = 3%nat ->
  Utf8.width (String c (String c1 (String c2 y))) = 3%nat.
Proof.
  unfold Utf8.width.
  destruct (_ <? _)%N; [discriminate |].
  destruct (between 194 223 c); [destruct (Utf8.cont c1); discriminate |].
  destruct (between 224 239 c); [trivial |].
  destruct (between 240 244 c); [| discriminate].
  destruct x as [| ? ?]; try discriminate.
  destruct (_ && _); discriminate.
Qed.

Lemma width_4_tail (c c1 c2 c3 : ascii) (x y : string) :
  Utf8.width (String c (String c1 (String c2 (String c3 x)))) = 4%nat ->
  Utf8.width (String c (String c1 (String c2 (String c3 y)))) = 4%nat.
Proof.
  unfold Utf8.width.
  destruct (_ <? _)%N; [discriminate |].
  destruct (between 194 223 c); [destruct (Utf8.cont c1); discriminate |].
  destruct (between 224 239 c); [destruct (_ && _); discriminate |].
  destruct (between 240 244 c); [trivial | discriminate].
Qed.

Lemma code_eq (c : ascii) (n : N) :
  (code c =? n)%N = true -> c = ascii_of_N n.
Proof.
  intros H. apply N.eqb_eq in H. rewrite <- H. unfold code.
  symmetry. apply ascii_N_embedding.
Qed.

(** U+2028 and U+2029, which the encoder always escapes, are read
    back as their three bytes. *)
Lemma unquote_line_separators (c c1 c2 : ascii) (tail : string) :
  Json.isE2 c && (code c1 =? 128)%N
  && ((code c2 =? 168)%N || (code c2 =? 169)%N) = true ->
  Json.unquote
    (String BSL (String "u" (String "2" (String "0" (String "2"
       (String (Json.hexLower (code c2 - 160)) tail))))))
  = Json.push (String c (String c1 (String c2 ""))) (Json.unquote tail).
Proof.
  intros H. apply andb_true_iff in H as [H H2].
  apply andb_true_iff in H as [H0 H1].
  apply code_eq in H0, H1. subst c c1.
  apply orb_true_iff in H2 as [H2 | H2]; apply code_eq in H2; subst c2;
    reflexivity.
Qed.

Lemma push_Some (p t rest : string) :
  Json.push p (Some (t, rest)) = Some (p ++ t, rest).
Proof. reflexivity. Qed.

(** A string of valid UTF-8 is read back from its encoding. *)
Lemma unquote_encodeBytes (n : nat) :
  forall s, (String.length s <= n)%nat -> Utf8.ValidString s = true ->
  forall rest,
    Json.unquote (Json.encodeBytes s ++ String DQ rest) = Some (s, rest).
Proof.
  induction n as [| n IH]; intros s Hlen Hvalid rest.
  - destruct s; [reflexivity | simpl in Hlen; lia].
  - destruct s as [| c r]; [reflexivity |].
    rewrite ValidString_cons in Hvalid. rewrite encodeBytes_cons.
    simpl in Hlen.
    destruct (code c <? 128)%N eqn:Hc.
    + rewrite (width_ascii c r Hc) in Hvalid.
      rewrite append_assoc, (unquote_ascii c _ Hc).
      rewrite (IH r) by (assumption || lia). reflexivity.
    + destruct (Utf8.width (String c r)) as [| [| [| [| [| w]]]]] eqn:Hw;
        try discriminate.
      * pose proof (width_ascii c r) as Hone. unfold Utf8.width in Hw.
        rewrite Hc in Hw.
        destruct (between 194 223 c);
          [destruct r as [| c1 ?]; [| destruct (Utf8.cont c1)]; discriminate |].
        destruct (between 224 239 c);
          [destruct r as [| ? [| ? ?]]; try discriminate;
           destruct (_ && _); discriminate |].
        destruct (between 240 244 c); [| discriminate].
        destruct r as [| ? [| ? [| ? ?]]]; try discriminate.
        destruct (_ && _); discriminate.
      * destruct r as [| c1 r2]; [discriminate |].
        cbn [String.append]. rewrite (high_byte_unquote c _ Hc).
        rewrite (width_2_tail c c1 r2 _ Hw).
        rewrite (IH r2) by (assumption || simpl in Hlen; lia). reflexivity.
      * destruct r as [| c1 [| c2 r3]]; try discriminate.
        destruct (Json.isE2 c && _ && _) eqn:Hsep.
        -- cbn [String.append]. rewrite (unquote_line_separators c c1 c2 _ Hsep).
           rewrite (IH r3) by (assumption || simpl in Hlen; lia). reflexivity.
        -- cbn [String.append]. rewrite (high_byte_unquote c _ Hc).
           rewrite (width_3_tail c c1 c2 r3 _ Hw).
           rewrite (IH r3) by (assumption || simpl in Hlen; lia). reflexivity.
      * destruct r as [| c1 [| c2 [| c3 r4]]]; try discriminate.
        cbn [String.append]. rewrite (high_byte_unquote c _ Hc).
        rewrite (width_4_tail c c1 c2 c3 r4 _ Hw).
        rewrite (IH r4) by (assumption || simpl in Hlen; lia). reflexivity.
Qed.

Lemma decode_encodeString (s rest : string) :
  Utf8.ValidString s = true ->
  Json.unquote (Json.encodeBytes s ++ String DQ rest) = Some (s, rest).
Proof. intros H. now apply (unquote_encodeBytes (String.length s)). Qed.

(** ** The encoder and the parser: numbers *)

Lemma scanNumber_split (s : string) :
  forall st l r f, Json.scanNumber st s = (l, r, f) -> s = l ++ r.
Proof.
  induction s as [| c s IH]; intros st l r f; simpl.
  - intros [= <- <- _]. reflexivity.
  - destruct (Json.nstep st c) as [st' |].
    + destruct (Json.scanNumber st' s) as [[l' r'] f'] eqn:E.
      intros [= <- <- _]. simpl. f_equal. eapply IH. eassumption.
    + intros [= <- <- _]. reflexivity.
Qed.

Lemma scanNumber_append (lit : string) :
  forall st fin rest,
    Json.scanNumber st lit = (lit, "", fin) -> stops rest ->
    Json.scanNumber st (lit ++ rest) = (lit, rest, fin).
Proof.
  induction lit as [| c lit IH]; intros st fin rest; simpl.
  - intros [= <-] Hstop. destruct rest as [| c r]; [reflexivity |].
    simpl. now rewrite Hstop.
  - destruct (Json.nstep st c) as [st' |]; [| discriminate].
    destruct (Json.scanNumber st' lit) as [[l r] f] eqn:E.
    intros [= -> -> ->] Hstop. now rewrite (IH _ _ _ E Hstop).
Qed.

Lemma number_head (c : ascii) (st : Json.nstate) :
  Json.nstep Json.NStart c = Some st ->
  Ascii.eqb c "{" = false /\ Ascii.eqb c "[" = false /\ Ascii.eqb c DQ = false
  /\ Ascii.eqb c "t" = false /\ Ascii.eqb c "f" = false
  /\ Ascii.eqb c "n" = false /\ Json.isSpace c = false.
Proof.
  intros H. each_byte c; try (vm_compute in H; discriminate H);
    repeat split; reflexivity.
Qed.

Lemma parseValue_S (fuel : nat) (d : N) (c : ascii) (r : string) :
  Json.parseValue (S fuel) d (String c r)
  = if Ascii.eqb c "{" then
      if (Json.maxNestingDepth <=? d)%N then None
      else
        match Json.skipSpace r with
        | "" => None
        | String c1 r1 as s1 =>
            if Ascii.eqb c1 "}" then Some (Json.Object [], r1)
            else
              match Json.parseMembers fuel (d + 1)%N s1 with
              | Some (m, r2) => Some (Json.Object m, r2)
              | None => None
              end
        end
    else if Ascii.eqb c "[" then
      if (Json.maxNestingDepth <=? d)%N then None
      else
        match Json.skipSpace r with
        | "" => None
        | String c1 r1 as s1 =>
            if Ascii.eqb c1 "]" then Some (Json.Array [], r1)
            else
              match Json.parseElements fuel (d + 1)%N s1 with
              | Some (l, r2) => Some (Json.Array l, r2)
              | None => None
              end
        end
    else if Ascii.eqb c DQ then
      match Json.unquote r with
      | Some (t, r1) => Some (Json.Str t, r1)
      | None => None
      end
    else if Ascii.eqb c "t" then Json.literal "true" (Json.Bool true) (String c r)
    else if Ascii.eqb c "f" then Json.literal "false" (Json.Bool false) (String c r)
    else if Ascii.eqb c "n" then Json.literal "null" Json.Null (String c r)
    else
      let '(lit, rest, fin) := Json.scanNumber Json.NStart (String c r) in
      if Json.naccept fin then Some (Json.Number lit, rest) else None.
Proof. reflexivity. Qed.

Lemma parseElements_S (fuel : nat) (d : N) (s : string) :
  Json.parseElements (S fuel) d s
  = match Json.parseValue fuel d s with
    | None => None
    | Some (v, r) =>
        match Json.skipSpace r with
        | "" => None
        | String c r1 =>
            if Ascii.eqb c "," then
              match Json.parseElements fuel d (Json.skipSpace r1) with
              | Some (l, r2) => Some (v :: l, r2)
              | None => None
              end
            else if Ascii.eqb c "]" then Some ([v], r1)
            else None
        end
    end.
Proof. reflexivity. Qed.

Lemma parseMembers_S (fuel : nat) (d : N) (r : string) :
  Json.parseMembers (S fuel) d (String DQ r)
  = match Json.unquote r with
    | None => None
    | Some (k, r1) =>
        match Json.skipSpace r1 with
        | "" => None
        | String c r2 =>
            if negb (Ascii.eqb c ":") then None
            else
              match Json.parseValue fuel d (Json.skipSpace r2) with
              | None => None
              | Some (v, r3) =>
                  match Json.skipSpace r3 with
                  | "" => None
                  | String c3 r4 =>
                      if Ascii.eqb c3 "," then
                        match Json.parseMembers fuel d (Json.skipSpace r4) with
                        | Some (m, r5) => Some ((k, v) :: m, r5)
                        | None => None
                        end
                      else if Ascii.eqb c3 "}" then Some ([(k, v)], r4)
                      else None
                  end
              end
        end
    end.
Proof. reflexivity. Qed.

(** A number is read back when a delimiter follows it. *)
Lemma parse_number (lit rest : string) (fuel : nat) (d : N) :
  Json.isValidNumber lit = true -> stops rest ->
  Json.parseValue (S fuel) d (lit ++ rest) = Some (Json.Number lit, rest).
Proof.
  unfold Json.isValidNumber. intros Hvalid Hstop.
  destruct (Json.scanNumber Json.NStart lit) as [[l r] fin] eqn:E.
  apply andb_true_iff in Hvalid as [Hr Hacc]. apply String.eqb_eq in Hr. subst r.
  pose proof (scanNumber_split _ _ _ _ _ E) as Hl. rewrite append_nil_r in Hl.
  subst l. destruct lit as [| c lit].
  { simpl in E. injection E as <-. discriminate. }
  pose proof (scanNumber_append _ _ _ rest E Hstop) as Hscan.
  assert (Hhead : exists st, Json.nstep Json.NStart c = Some st).
  { cbn [Json.scanNumber] in E.
    destruct (Json.nstep Json.NStart c) as [st |]; [eauto | discriminate]. }
  destruct Hhead as [st Hst].
  destruct (number_head c st Hst) as (H1 & H2 & H3 & H4 & H5 & H6 & _).
  cbn [String.append] in *. rewrite parseValue_S, H1, H2, H3, H4, H5, H6.
  rewrite Hscan, Hacc. reflexivity.
Qed.

Lemma valid_number_head (lit : string) :
  Json.isValidNumber lit = true ->
  exists c r, lit = String c r /\ Json.isSpace c = false.
Proof.
  unfold Json.isValidNumber. destruct lit as [| c r]; [discriminate |].
  intros H. exists c, r. split; [reflexivity |].
  cbn [Json.scanNumber] in H.
  destruct (Json.nstep Json.NStart c) as [st |] eqn:E.
  - now destruct (number_head c st E) as (_ & _ & _ & _ & _ & _ & Hs).
  - discriminate.
Qed.

(** ** The encoder and the parser: values *)

Lemma encodeValue_Array (l : list Json.value) :
  Json.encodeValue (Json.Array l)
  = match encodeElems l with
    | Some t => Some (String "[" (t ++ "]"))
    | None => None
    end.
Proof. reflexivity. Qed.

Lemma encodeValue_Object (m : list (string * Json.value)) :
  Json.encodeValue (Json.Object m)
  = match encodeMembers m with
    | Some t => Some (String "{" (t ++ "}"))
    | None => None
    end.
Proof. reflexivity. Qed.

Lemma encodeElems_cons (v : Json.value) (l : list Json.value) :
  encodeElems (v :: l)
  = match l with
    | [] => Json.encodeValue v
    | _ :: _ =>
        match Json.encodeValue v, encodeElems l with
        | Some a, Some b => Some (a ++ String "," b)
        | _, _ => None
        end
    end.
Proof. destruct l; reflexivity. Qed.

Lemma encodeMembers_cons (k : string) (v : Json.value)
  (m : list (string * Json.value)) :
  encodeMembers ((k, v) :: m)
  = match m with
    | [] =>
        match Json.encodeValue v with
        | Some a => Some (Json.encodeString k ++ String ":" a)
        | None => None
        end
    | _ :: _ =>
        match Json.encodeValue v, encodeMembers m with
        | Some a, Some b =>
            Some (Json.encodeString k ++ String ":" (a ++ String "," b))
        | _, _ => None
        end
    end.
Proof. destruct m; reflexivity. Qed.

Lemma number_opens (lit : string) : Json.isValidNumber lit = true -> opens lit.
Proof.
  unfold Json.isValidNumber. destruct lit as [| c r]; [discriminate |].
  intros H. exists c, r. split; [reflexivity |].
  cbn [Json.scanNumber] in H.
  destruct (Json.nstep Json.NStart c) as [st |] eqn:E; [| discriminate].
  clear H. each_byte c; try (vm_compute in E; discriminate E);
    repeat split; reflexivity.
Qed.

Lemma encodeValue_opens (v : Json.value) (t : string) :
  Json.encodeValue v = Some t -> opens t.
Proof.
  destruct v as [| [] | lit | s | l | m].
  - intros [= <-]. exists "n"%char, "ull". repeat split.
  - intros [= <-]. exists "t"%char, "rue". repeat split.
  - intros [= <-]. exists "f"%char, "alse". repeat split.
  - simpl. destruct (Json.isValidNumber lit) eqn:E; [| discriminate].
    intros [= <-]. now apply number_opens.
  - intros [= <-]. eexists DQ, _. repeat split.
  - rewrite encodeValue_Array. destruct (encodeElems l); [| discriminate].
    intros [= <-]. eexists "["%char, _. repeat split.
  - rewrite encodeValue_Object. destruct (encodeMembers m); [| discriminate].
    intros [= <-]. eexists "{"%char, _. repeat split.
Qed.

Lemma skipSpace_opens (t rest : string) :
  opens t -> Json.skipSpace (t ++ rest) = t ++ rest.
Proof.
  intros (c & r & -> & Hs & _). simpl. now rewrite Hs.
Qed.

Lemma encodeElems_opens (l : list Json.value) (e : string) :
  l <> [] -> encodeElems l = Some e -> opens e.
Proof.
  destruct l as [| v l]; [contradiction |]. intros _.
  rewrite encodeElems_cons. destruct l as [| v' l].
  - apply encodeValue_opens.
  - destruct (Json.encodeValue v) as [a |] eqn:Ea; [| discriminate].
    destruct (encodeElems (v' :: l)); [| discriminate]. intros [= <-].
    destruct (encodeValue_opens v a Ea) as (c & r & -> & H).
    exists c, (r ++ String "," s). split; [reflexivity | exact H].
Qed.

Lemma encodeMembers_opens (m : list (string * Json.value)) (e : string) :
  m <> [] -> encodeMembers m = Some e ->
  exists r, e = String DQ r.
Proof.
  destruct m as [| [k v] m]; [contradiction |]. intros _.
  rewrite encodeMembers_cons. destruct m as [| kv m].
  - destruct (Json.encodeValue v); [| discriminate]. intros [= <-].
    eexists. reflexivity.
  - destruct (Json.encodeValue v); [| discriminate].
    destruct (encodeMembers (kv :: m)); [| discriminate]. intros [= <-].
    eexists. reflexivity.
Qed.

Lemma stops_delimiter (c : ascii) (rest : string) :
  c = ","%char \/ c = "]"%char \/ c = "}"%char \/ c = LF ->
  stops (String c rest).
Proof.
  intros [-> | [-> | [-> | ->]]] st; destruct st; reflexivity.
Qed.

Lemma skipSpace_byte (c : ascii) (x : string) :
  Json.isSpace c = false -> Json.skipSpace (String c x) = String c x.
Proof. intros H. simpl. now rewrite H. Qed.

Lemma parse_elems (l : list Json.value) :
  Forall readsBack l -> l <> [] ->
  forall e, encodeElems l = Some e -> forallb Json.textValid l = true ->
  forall d, (d + depthElems l <= Json.maxNestingDepth)%N ->
  forall fuel, (weightElems l <= fuel)%nat ->
  forall rest,
    Json.parseElements fuel d (e ++ String "]" rest) = Some (l, rest).
Proof.
  induction 1 as [| v l Hv Hl IH]; [contradiction |].
  intros _ e He Hvalid d Hd fuel Hfuel rest.
  rewrite encodeElems_cons in He.
  cbn [forallb] in Hvalid. apply andb_true_iff in Hvalid as [Hv1 Hv2].
  unfold depthElems in Hd. cbn [fold_right] in Hd. fold (depthElems l) in Hd.
  unfold weightElems in Hfuel. cbn [fold_right] in Hfuel.
  fold (weightElems l) in Hfuel.
  destruct fuel as [| f]; [lia |]. rewrite parseElements_S.
  destruct l as [| v' l'].
  - rewrite (Hv e He Hv1 d) by (lia || apply stops_delimiter; auto).
    rewrite skipSpace_byte by reflexivity. reflexivity.
  - destruct (Json.encodeValue v) as [a |] eqn:Ea; [| discriminate].
    destruct (encodeElems (v' :: l')) as [b |] eqn:Eb; [| discriminate].
    injection He as <-. rewrite append_assoc. cbn [String.append].
    rewrite (Hv a Ea Hv1 d) by (lia || apply stops_delimiter; auto).
    rewrite skipSpace_byte by reflexivity.
    change (Ascii.eqb "," ",") with true. cbv iota.
    rewrite skipSpace_opens by (eapply encodeElems_opens; [| eassumption]; discriminate).
    rewrite (IH ltac:(discriminate) b eq_refl Hv2 d) by lia. reflexivity.
Qed.

Lemma parse_members (m : list (string * Json.value)) :
  Forall (fun kv => readsBack (snd kv)) m -> m <> [] ->
  forall e, encodeMembers m = Some e ->
  forallb (fun kv => Utf8.ValidString (fst kv) && Json.textValid (snd kv)) m = true ->
  forall d, (d + depthMembers m <= Json.maxNestingDepth)%N ->
  forall fuel, (weightMembers m <= fuel)%nat ->
  forall rest,
    Json.parseMembers fuel d (e ++ String "}" rest) = Some (m, rest).
Proof.
  induction 1 as [| [k v] m Hv Hm IH]; [contradiction |].
  intros _ e He Hvalid d Hd fuel Hfuel rest.
  rewrite encodeMembers_cons in He. cbn [snd] in Hv.
  cbn [forallb fst snd] in Hvalid. apply andb_true_iff in Hvalid as [Hkv Hv2].
  apply andb_true_iff in Hkv as [Hk Hv1].
  unfold depthMembers in Hd. cbn [fold_right snd] in Hd. fold (depthMembers m) in Hd.
  unfold weightMembers in Hfuel. cbn [fold_right snd] in Hfuel.
  fold (weightMembers m) in Hfuel.
  destruct fuel as [| f]; [lia |].
  destruct m as [| kv' m'].
  - destruct (Json.encodeValue v) as [a |] eqn:Ea; [| discriminate].
    injection He as <-. unfold Json.encodeString.
    cbn [String.append]. rewrite parseMembers_S.
    rewrite !append_assoc. cbn [String.append].
    rewrite (decode_encodeString k _ Hk).
    rewrite skipSpace_byte by reflexivity.
    change (negb (Ascii.eqb ":" ":")) with false. cbv iota.
    rewrite skipSpace_opens by (eapply encodeValue_opens; eassumption).
    rewrite (Hv a Ea Hv1 d) by (lia || apply stops_delimiter; auto).
    rewrite skipSpace_byte by reflexivity. reflexivity.
  - destruct (Json.encodeValue v) as [a |] eqn:Ea; [| discriminate].
    destruct (encodeMembers (kv' :: m')) as [b |] eqn:Eb; [| discriminate].
    injection He as <-. unfold Json.encodeString.
    cbn [String.append]. rewrite parseMembers_S.
    rewrite !append_assoc. cbn [String.append].
    rewrite (decode_encodeString k _ Hk).
    rewrite skipSpace_byte by reflexivity.
    change (negb (Ascii.eqb ":" ":")) with false. cbv iota.
    rewrite append_assoc. cbn [String.append].
    rewrite skipSpace_opens by (eapply encodeValue_opens; eassumption).
    rewrite (Hv a Ea Hv1 d) by (lia || apply stops_delimiter; auto).
    rewrite skipSpace_byte by reflexivity.
    change (Ascii.eqb "," ",") with true. cbv iota.
    destruct (encodeMembers_opens (kv' :: m') b ltac:(discriminate) Eb) as [r ->].
    cbn [String.append]. rewrite skipSpace_byte by reflexivity.
    change (String DQ (r ++ String "}" rest)) with (String DQ r ++ String "}" rest).
    rewrite (IH ltac:(discriminate) _ eq_refl Hv2 d) by lia. reflexivity.
Qed.

Lemma prefix_append (w r : string) : String.prefix w (w ++ r) = true.
Proof.
  induction w as [| c w IH]; simpl; [now destruct r |].
  destruct (ascii_dec c c); [exact IH | contradiction].
Qed.

Lemma substring_all (r : string) : String.substring 0 (String.length r) r = r.
Proof. induction r as [| c r IH]; simpl; [reflexivity | now rewrite IH]. Qed.

Lemma length_append (a b : string) :
  String.length (a ++ b) = (String.length a + String.length b)%nat.
Proof. induction a as [| c a IH]; simpl; [reflexivity | now rewrite IH]. Qed.

Lemma substring_append (w r : string) :
  String.substring (String.length w)
    (String.length (w ++ r) - String.length w) (w ++ r) = r.
Proof.
  rewrite length_append.
  replace (String.length w + String.length r - String.length w)%nat
    with (String.length r) by lia.
  induction w as [| c w IH]; simpl; [apply substring_all | exact IH].
Qed.

Lemma literal_append (word rest : string) (v : Json.value) :
  Json.literal word v (word ++ rest) = Some (v, rest).
Proof.
  unfold Json.literal. now rewrite prefix_append, substring_append.
Qed.

Lemma depthElems_bound (l : list Json.value) (d : N) :
  (d + Json.depth (Json.Array l) <= Json.maxNestingDepth)%N ->
  (Json.maxNestingDepth <=? d)%N = false
  /\ (d + 1 + depthElems l <= Json.maxNestingDepth)%N.
Proof.
  change (Json.depth (Json.Array l)) with (1 + depthElems l)%N.
  intros H. split; [apply N.leb_gt |]; lia.
Qed.

Lemma depthMembers_bound (m : list (string * Json.value)) (d : N) :
  (d + Json.depth (Json.Object m) <= Json.maxNestingDepth)%N ->
  (Json.maxNestingDepth <=? d)%N = false
  /\ (d + 1 + depthMembers m <= Json.maxNestingDepth)%N.
Proof.
  change (Json.depth (Json.Object m)) with (1 + depthMembers m)%N.
  intros H. split; [apply N.leb_gt |]; lia.
Qed.

(** Every document whose strings are valid UTF-8 is read back from
    its encoding, within the nesting limit. *)
Lemma reads_back : forall v, readsBack v.
Proof.
  apply value_induction; unfold readsBack.
  - intros t [= <-] _ d _ [| f] Hf rest _; [simpl in Hf; lia |].
    apply (literal_append "null" rest Json.Null).
  - intros [] t [= <-] _ d _ [| f] Hf rest _; try (simpl in Hf; lia).
    + apply (literal_append "true" rest (Json.Bool true)).
    + apply (literal_append "false" rest (Json.Bool false)).
  - intros lit t He _ d _ [| f] Hf rest Hstop; [simpl in Hf; lia |].
    simpl in He. destruct (Json.isValidNumber lit) eqn:E; [| discriminate].
    injection He as <-. now apply parse_number.
  - intros s t [= <-] Hvalid d _ [| f] Hf rest _; [simpl in Hf; lia |].
    unfold Json.encodeString. cbn [String.append].
    rewrite append_assoc. cbn [String.append].
    rewrite parseValue_S.
    change (Ascii.eqb DQ "{") with false. change (Ascii.eqb DQ "[") with false.
    change (Ascii.eqb DQ DQ) with true. cbv iota.
    now rewrite (decode_encodeString s rest Hvalid).
  - intros l Hl t He Hvalid d Hd [| f] Hf rest _; [simpl in Hf; lia |].
    rewrite encodeValue_Array in He.
    destruct (encodeElems l) as [e |] eqn:Ee; [| discriminate].
    injection He as <-. destruct (depthElems_bound l d Hd) as [Hlim Hd'].
    cbn [String.append]. rewrite parseValue_S.
    change (Ascii.eqb "[" "{") with false. change (Ascii.eqb "[" "[") with true.
    cbv iota. rewrite Hlim. rewrite append_assoc. cbn [String.append].
    destruct l as [| v l].
    + injection Ee as <-. reflexivity.
    + destruct (encodeElems_opens (v :: l) e ltac:(discriminate) Ee)
        as (c & r & -> & Hs & Hb & _).
      cbn [String.append]. rewrite skipSpace_byte by assumption. rewrite Hb.
      change (String c (r ++ String "]" rest)) with (String c r ++ String "]" rest).
      rewrite (parse_elems (v :: l) Hl ltac:(discriminate) _ Ee Hvalid (d + 1)%N Hd').
      * reflexivity.
      * simpl in Hf. unfold weightElems. simpl. lia.
  - intros m Hm t He Hvalid d Hd [| f] Hf rest _; [simpl in Hf; lia |].
    rewrite encodeValue_Object in He.
    destruct (encodeMembers m) as [e |] eqn:Ee; [| discriminate].
    injection He as <-. destruct (depthMembers_bound m d Hd) as [Hlim Hd'].
    cbn [String.append]. rewrite parseValue_S.
    change (Ascii.eqb "{" "{") with true.
    cbv iota. rewrite Hlim. rewrite append_assoc. cbn [String.append].
    destruct m as [| kv m].
    + injection Ee as <-. reflexivity.
    + destruct (encodeMembers_opens (kv :: m) e ltac:(discriminate) Ee) as [r ->].
      cbn [String.append]. rewrite skipSpace_byte by reflexivity.
      change (Ascii.eqb DQ "}") with false. cbv iota.
      change (String DQ (r ++ String "}" rest)) with (String DQ r ++ String "}" rest).
      rewrite (parse_members (kv :: m) Hm ltac:(discriminate) _ Ee Hvalid (d + 1)%N Hd').
      * reflexivity.
      * simpl in Hf. unfold weightMembers. simpl. lia.
Qed.

Ltac lengths :=
  unfold Json.encodeString;
  change (weightElems []) with O; change (weightMembers []) with O;
  repeat first [ rewrite length_append
               | progress cbn [String.length String.append] ].

Lemma elems_fit (l : list Json.value) :
  Forall fits l ->
  forall e, encodeElems l = Some e -> (weightElems l <= String.length e + 1)%nat.
Proof.
  induction 1 as [| v l Hv _ IH]; intros e He; [simpl; lia |].
  rewrite encodeElems_cons in He. unfold weightElems. cbn [fold_right].
  fold (weightElems l). destruct l as [| v' l'].
  - specialize (Hv e He). simpl. lia.
  - destruct (Json.encodeValue v) as [a |] eqn:Ea; [| discriminate].
    destruct (encodeElems (v' :: l')) as [b |] eqn:Eb; [| discriminate].
    injection He as <-. specialize (Hv a Ea). specialize (IH b eq_refl).
    lengths. lia.
Qed.

Lemma members_fit (m : list (string * Json.value)) :
  Forall (fun kv => fits (snd kv)) m ->
  forall e, encodeMembers m = Some e ->
            (weightMembers m <= String.length e + 1)%nat.
Proof.
  induction 1 as [| [k v] m Hv _ IH]; intros e He; [simpl; lia |].
  rewrite encodeMembers_cons in He. unfold weightMembers. cbn [fold_right snd].
  fold (weightMembers m). cbn [snd] in Hv. destruct m as [| kv' m'].
  - destruct (Json.encodeValue v) as [a |] eqn:Ea; [| discriminate].
    injection He as <-. specialize (Hv a Ea).
    lengths. lia.
  - destruct (Json.encodeValue v) as [a |] eqn:Ea; [| discriminate].
    destruct (encodeMembers (kv' :: m')) as [b |] eqn:Eb; [| discriminate].
    injection He as <-. specialize (Hv a Ea). specialize (IH b eq_refl).
    lengths. lia.
Qed.

Lemma encoding_fits : forall v, fits v.
Proof.
  apply value_induction; unfold fits.
  - intros t [= <-]. simpl. lia.
  - intros [] t [= <-]; simpl; lia.
  - intros lit t He. simpl in He.
    destruct (Json.isValidNumber lit) eqn:E; [| discriminate].
    injection He as <-. destruct (valid_number_head lit E) as (c & r & -> & _).
    simpl. lia.
  - intros s t [= <-]. simpl. lia.
  - intros l Hl t He. rewrite encodeValue_Array in He.
    destruct (encodeElems l) as [e |] eqn:Ee; [| discriminate].
    injection He as <-. pose proof (elems_fit l Hl e Ee) as H.
    change (weight (Json.Array l)) with (S (weightElems l)).
    simpl. rewrite length_append. simpl. lia.
  - intros m Hm t He. rewrite encodeValue_Object in He.
    destruct (encodeMembers m) as [e |] eqn:Ee; [| discriminate].
    injection He as <-. pose proof (members_fit m Hm e Ee) as H.
    change (weight (Json.Object m)) with (S (weightMembers m)).
    simpl. rewrite length_append. simpl. lia.
Qed.

(** What [Encoder.Encode] writes for a document of valid UTF-8 text,
    nested no deeper than the scanner allows, [Unmarshal] reads back
    as the document. *)
Lemma parseDocument_Encode (v : Json.value) (t : string) :
  Json.Encode v = Ok t ->
  Json.textValid v = true ->
  (Json.depth v <= Json.maxNestingDepth)%N ->
  Json.parseDocument t = Ok v.
Proof.
  unfold Json.Encode. destruct (Json.encodeValue v) as [e |] eqn:Ee; [| discriminate].
  intros [= <-] Hvalid Hdepth. unfold Json.parseDocument.
  rewrite skipSpace_opens by (eapply encodeValue_opens; eassumption).
  rewrite (reads_back v e Ee Hvalid 0%N).
  - reflexivity.
  - lia.
  - pose proof (encoding_fits v e Ee). unfold Json.fuelFor.
    rewrite length_append. lia.
  - apply stops_delimiter. auto.
Qed.

(** ** HTML escaping is off *)

Lemma encodeBytes_html (c : ascii) (r : string) :
  htmlByte c -> Json.encodeBytes (String c r) = String c (Json.encodeBytes r).
Proof. intros [-> | [-> | ->]]; reflexivity. Qed.

Lemma encodeBytes_plain (s : string) :
  plain s = true -> Json.encodeBytes s = s.
Proof.
  induction s as [| c r IH]; [reflexivity |]. simpl plain.
  intros H. apply andb_true_iff in H as [H Hr].
  apply andb_true_iff in H as [Hc Hs].
  rewrite encodeBytes_cons, Hc, Hs, (IH Hr). reflexivity.
Qed.

(** C7 (amended).  The request built for a non-nil body has the
    header Content-Type: application/json and carries the encoding of
    the body.  If the strings of the body are valid UTF-8 and its
    nesting stays within the limit of the JSON scanner (10000), the
    carried text decodes back to the body.  HTML escaping is off: the
    bytes <, > and & of a string are written as they are, and a string
    of printable ASCII without quote and backslash is written verbatim
    between its quotes. *)
Theorem C7_json_body_round_trip :
  forall (c : Client) (method P : string) (body : Json.value) (req : Http.Request),
    NewRequest c method P (Some body) = Ok req ->
    Http.Header_Get (Http.ReqHeader req) "Content-Type" = "application/json"
    /\ (exists t,
          Json.Encode body = Ok t /\ Http.ReqBody req = Some t
          /\ (Json.textValid body = true ->
              (Json.depth body <= Json.maxNestingDepth)%N ->
              Json.parseDocument t = Ok body))
    /\ (forall ch r, htmlByte ch ->
          Json.encodeBytes (String ch r) = String ch (Json.encodeBytes r))
    /\ (forall s, plain s = true -> Json.encodeString s = quoted s).
Proof.
  intros c method P body req H. apply NewRequest_Ok in H.
  destruct H as (ref & buf & req0 & _ & (t & Ht & ->) & HN & ->).
  destruct (NewRequestWithContext_Ok _ _ _ _ HN) as (u0 & _ & _ & _ & HB & HH).
  destruct (withHeaders_spec c (Some body) req0 HH) as (_ & _ & Hb & _ & Hct & _).
  split; [exact Hct |]. split; [| split].
  - exists t. split; [exact Ht |]. split; [now rewrite Hb |].
    intros Hvalid Hdepth. now apply parseDocument_Encode.
  - exact encodeBytes_html.
  - intros s Hs. unfold Json.encodeString, quoted.
    now rewrite (encodeBytes_plain s Hs).
Qed.

Lemma C7_witness :
  exists req t,
    NewRequest (NewClient offline [WithAPIKey "tok"]) "POST" "applications"
      (Some createBody) = Ok req
    /\ Http.Header_Get (Http.ReqHeader req) "Content-Type" = "application/json"
    /\ Http.ReqBody req = Some t
    /\ Json.parseDocument t = Ok createBody.
Proof.
  eexists. 
  assert (Hreq : NewRequest (NewClient offline [WithAPIKey "tok"]) "POST"
                   "applications" (Some createBody) = Ok ?[req])
    by (vm_compute; reflexivity).
  destruct (C7_json_body_round_trip _ _ _ _ _ Hreq) as (Hct & (t & _ & Hb & Hrt) & _).
  exists t. split; [exact Hreq |]. split; [exact Hct |]. split; [exact Hb |].
  apply Hrt; [reflexivity | vm_compute; discriminate].
Defined.

(** the text of [createBody], with its HTML bytes as they were given *)
Example createBody_text :
  Json.Encode createBody
  = Ok ("{" ++ quoted "name" ++ ":" ++ quoted "shop <v2> & co" ++ ","
        ++ quoted "repository_url" ++ ":"
        ++ quoted "https://github.com/a/b?x=1&y=2" ++ ","
        ++ quoted "replicas" ++ ":2," ++ quoted "auto_deploy" ++ ":true,"
        ++ quoted "environment_variables" ++ ":{" ++ quoted "KEY" ++ ":"
        ++ quoted "a<b" ++ "}," ++ quoted "tags" ++ ":[null,-1.5e3]}"
        ++ String LF "").
Proof. reflexivity. Qed.

(** C7 as stated fails for a body with a string that is not valid
    UTF-8: the encoder writes the replacement character for the byte
    0xFF, and the text decodes to another string. *)
Lemma C7_counterexample :
  exists req t,
    NewRequest (NewClient offline [WithAPIKey "tok"]) "POST" "applications"
      (Some (Json.Str (String (ascii_of_N 255) ""))) = Ok req
    /\ Http.ReqBody req = Some t
    /\ t = quoted (String BSL "ufffd") ++ String LF ""
    /\ Json.parseDocument t = Ok (Json.Str Utf8.RuneError)
    /\ Json.Str Utf8.RuneError <> Json.Str (String (ascii_of_N 255) "").
Proof.
  eexists _, _. split; [vm_compute; reflexivity |].
  split; [reflexivity |]. split; [reflexivity |].
  split; [vm_compute; reflexivity | discriminate].
Qed.

(** ** The fuel of the parser

    The parser never stops for lack of fuel: what a call leaves unread
    is no longer than what it was given, every call that spends a unit
    of fuel comes after a byte was read or before one is, and so any
    two amounts of fuel above twice the length of the input give the
    same result. *)

Lemma skipSpace_length (s : string) :
  (String.length (Json.skipSpace s) <= String.length s)%nat.
Proof.
  induction s as [| c s IH]; simpl; [lia |].
  destruct (Json.isSpace c); simpl; lia.
Qed.

Lemma push_inv (p : string) (k : option (string * string)) (t r : string) :
  Json.push p k = Some (t, r) -> exists t', k = Some (t', r).
Proof.
  destruct k as [[t' r'] |]; simpl; [| discriminate].
  intros [= _ <-]. eauto.
Qed.

Lemma unquote_length (n : nat) :
  forall s t r, (String.length s <= n)%nat ->
    Json.unquote s = Some (t, r) -> (String.length r < String.length s)%nat.
Proof.
  induction n as [| n IH]; intros s t r Hlen H.
  - destruct s; [discriminate | simpl in Hlen; lia].
  - destruct s as [| c s]; [discriminate |].
    simpl in Hlen. cbn [Json.unquote] in H.
    repeat match type of H with
           | Some _ = Some _ => injection H as <- <-; simpl; lia
           | Json.push _ _ = Some _ =>
               apply push_inv in H; destruct H as [t' H];
               apply IH in H; simpl in *; lia
           | None = Some _ => discriminate H
           | context [if ?b then _ else _] => destruct b
           | context [match ?x with _ => _ end] => destruct x
           end.
Qed.

Lemma substring_length (s : string) :
  forall n m, (String.length (String.substring n m s) <= String.length s)%nat.
Proof.
  induction s as [| c s IH]; intros [| n] [| m]; simpl; try lia.
  - specialize (IH 0%nat m). lia.
  - specialize (IH n 0%nat). lia.
  - specialize (IH n (S m)). lia.
Qed.

Lemma literal_length (word s r : string) (v v' : Json.value) :
  Json.literal word v s = Some (v', r) ->
  (String.length r <= String.length s)%nat.
Proof.
  unfold Json.literal. destruct (String.prefix word s); [| discriminate].
  intros [= _ <-]. apply substring_length.
Qed.

Lemma scanNumber_length (st : Json.nstate) (s l r : string) (f : Json.nstate) :
  Json.scanNumber st s = (l, r, f) ->
  (String.length r <= String.length s)%nat.
Proof.
  intros H. apply scanNumber_split in H. subst s. rewrite length_append. lia.
Qed.

Lemma parseMembers_S_any (fuel : nat) (d : N) (s : string) :
  Json.parseMembers (S fuel) d s
  = match s with
    | "" => None
    | String q r =>
        if negb (Ascii.eqb q DQ) then None
        else
          match Json.unquote r with
          | None => None
          | Some (k, r1) =>
              match Json.skipSpace r1 with
              | "" => None
              | String c r2 =>
                  if negb (Ascii.eqb c ":") then None
                  else
                    match Json.parseValue fuel d (Json.skipSpace r2) with
                    | None => None
                    | Some (v, r3) =>
                        match Json.skipSpace r3 with
                        | "" => None
                        | String c3 r4 =>
                            if Ascii.eqb c3 "," then
                              match Json.parseMembers fuel d (Json.skipSpace r4) with
                              | Some (m, r5) => Some ((k, v) :: m, r5)
                              | None => None
                              end
                            else if Ascii.eqb c3 "}" then Some ([(k, v)], r4)
                            else None
                        end
                    end
              end
          end
    end.
Proof. reflexivity. Qed.

Ltac shorter_skip :=
  repeat match goal with
         | H : Json.skipSpace ?x = String _ _ |- _ =>
             let L := fresh "L" in
             pose proof (skipSpace_length x) as L; rewrite H in L;
             cbn [String.length] in L; clear H
         | H : context [String.length (Json.skipSpace ?x)] |- _ =>
             let L := fresh "L" in
             let k := fresh "k" in
             pose proof (skipSpace_length x) as L;
             set (k := Json.skipSpace x) in *; clearbody k
         | |- context [String.length (Json.skipSpace ?x)] =>
             let L := fresh "L" in
             let k := fresh "k" in
             pose proof (skipSpace_length x) as L;
             set (k := Json.skipSpace x) in *; clearbody k
         end.

(** What the parser leaves is no longer than its input. *)
Lemma parse_length (fuel : nat) :
  (forall d s v r, Json.parseValue fuel d s = Some (v, r) ->
                   (String.length r <= String.length s)%nat)
  /\ (forall d s l r, Json.parseElements fuel d s = Some (l, r) ->
                      (String.length r <= String.length s)%nat)
  /\ (forall d s m r, Json.parseMembers fuel d s = Some (m, r) ->
                      (String.length r <= String.length s)%nat).
Proof.
  induction fuel as [| f (IHv & IHe & IHm)];
    [repeat split; intros; discriminate |].
  split; [| split].
  - intros d [| c s] v r; [discriminate |]. rewrite parseValue_S.
    destruct (Ascii.eqb c "{").
    { destruct (_ <=? _)%N; [discriminate |].
      destruct (Json.skipSpace s) as [| c1 r1] eqn:Es; [discriminate |].
      destruct (Ascii.eqb c1 "}").
      - intros [= _ <-]. shorter_skip. simpl. lia.
      - destruct (Json.parseMembers _ _ _) as [[m r2] |] eqn:Em; [| discriminate].
        intros [= _ <-]. apply IHm in Em. shorter_skip. simpl in *. lia. }
    destruct (Ascii.eqb c "[").
    { destruct (_ <=? _)%N; [discriminate |].
      destruct (Json.skipSpace s) as [| c1 r1] eqn:Es; [discriminate |].
      destruct (Ascii.eqb c1 "]").
      - intros [= _ <-]. shorter_skip. simpl. lia.
      - destruct (Json.parseElements _ _ _) as [[l r2] |] eqn:El; [| discriminate].
        intros [= _ <-]. apply IHe in El. shorter_skip. simpl in *. lia. }
    destruct (Ascii.eqb c DQ).
    { destruct (Json.unquote s) as [[t r1] |] eqn:Eu; [| discriminate].
      intros [= _ <-]. apply (unquote_length _ _ _ _ (le_n _)) in Eu. simpl. lia. }
    destruct (Ascii.eqb c "t"); [apply literal_length |].
    destruct (Ascii.eqb c "f"); [apply literal_length |].
    destruct (Ascii.eqb c "n"); [apply literal_length |].
    destruct (Json.scanNumber _ _) as [[lit rest] fin] eqn:En.
    destruct (Json.naccept fin); [| discriminate].
    intros [= _ <-]. eapply scanNumber_length. eassumption.
  - intros d s l r. rewrite parseElements_S.
    destruct (Json.parseValue f d s) as [[v r0] |] eqn:Ev; [| discriminate].
    apply IHv in Ev.
    destruct (Json.skipSpace r0) as [| c r1] eqn:Es; [discriminate |].
    destruct (Ascii.eqb c ",").
    + destruct (Json.parseElements _ _ _) as [[l' r2] |] eqn:El; [| discriminate].
      intros [= _ <-]. apply IHe in El. shorter_skip. lia.
    + destruct (Ascii.eqb c "]"); [| discriminate].
      intros [= _ <-]. shorter_skip. lia.
  - intros d s m r. rewrite parseMembers_S_any.
    destruct s as [| q s]; [discriminate |].
    destruct (negb _); [discriminate |].
    destruct (Json.unquote s) as [[k r1] |] eqn:Eu; [| discriminate].
    apply (unquote_length _ _ _ _ (le_n _)) in Eu.
    destruct (Json.skipSpace r1) as [| c r2] eqn:Es1; [discriminate |].
    destruct (negb _); [discriminate |].
    destruct (Json.parseValue _ _ _) as [[v r3] |] eqn:Ev; [| discriminate].
    apply IHv in Ev.
    destruct (Json.skipSpace r3) as [| c3 r4] eqn:Es3; [discriminate |].
    destruct (Ascii.eqb c3 ",").
    + destruct (Json.parseMembers _ _ _) as [[m' r5] |] eqn:Em; [| discriminate].
      intros [= _ <-]. apply IHm in Em. shorter_skip. simpl. lia.
    + destruct (Ascii.eqb c3 "}"); [| discriminate].
      intros [= _ <-]. shorter_skip. simpl. lia.
Qed.

Lemma parse_fuel (n : nat) :
  (forall m d s,
      (2 * String.length s + 1 <= n)%nat -> (2 * String.length s + 1 <= m)%nat ->
      Json.parseValue n d s = Json.parseValue m d s)
  /\ (forall m d s,
        (2 * String.length s + 2 <= n)%nat -> (2 * String.length s + 2 <= m)%nat ->
        Json.parseElements n d s = Json.parseElements m d s)
  /\ (forall m d s,
        (2 * String.length s + 2 <= n)%nat -> (2 * String.length s + 2 <= m)%nat ->
        Json.parseMembers n d s = Json.parseMembers m d s).
Proof.
  induction n as [| f (IHv & IHe & IHm)]; [repeat split; intros; lia |].
  split; [| split].
  - intros [| m] d s Hn Hm; [lia |]. destruct s as [| c s]; [reflexivity |].
    rewrite !parseValue_S. cbn [String.length] in Hn, Hm.
    pose proof (skipSpace_length s) as Hs.
    destruct (Ascii.eqb c "{").
    { destruct (_ <=? _)%N; [reflexivity |].
      destruct (Json.skipSpace s) as [| c1 r1]; [reflexivity |].
      destruct (Ascii.eqb c1 "}"); [reflexivity |].
      rewrite (IHm m (d + 1)%N (String c1 r1)) by lia. reflexivity. }
    destruct (Ascii.eqb c "[").
    { destruct (_ <=? _)%N; [reflexivity |].
      destruct (Json.skipSpace s) as [| c1 r1]; [reflexivity |].
      destruct (Ascii.eqb c1 "]"); [reflexivity |].
      rewrite (IHe m (d + 1)%N (String c1 r1)) by lia. reflexivity. }
    reflexivity.
  - intros [| m] d s Hn Hm; [lia |]. rewrite !parseElements_S.
    rewrite (IHv m d s) by lia.
    destruct (Json.parseValue m d s) as [[v r0] |] eqn:Ev; [| reflexivity].
    apply (proj1 (parse_length m)) in Ev.
    destruct (Json.skipSpace r0) as [| c r1] eqn:Es; [reflexivity |].
    destruct (Ascii.eqb c ","); [| reflexivity].
    pose proof (skipSpace_length r1). shorter_skip.
    rewrite (IHe m d _) by lia. reflexivity.
  - intros [| m] d s Hn Hm; [lia |]. rewrite !parseMembers_S_any.
    destruct s as [| q s]; [reflexivity |]. cbn [String.length] in Hn, Hm.
    destruct (negb _); [reflexivity |].
    destruct (Json.unquote s) as [[k r1] |] eqn:Eu; [| reflexivity].
    apply (unquote_length _ _ _ _ (le_n _)) in Eu.
    destruct (Json.skipSpace r1) as [| c r2] eqn:Es1; [reflexivity |].
    destruct (negb _); [reflexivity |].
    pose proof (skipSpace_length r2) as Hr2. shorter_skip.
    match goal with
    | |- context [Json.parseValue m d ?x] => rename x into r2'
    end.
    rewrite (IHv m d r2') by lia.
    destruct (Json.parseValue m d r2') as [[v r3] |] eqn:Ev; [| reflexivity].
    apply (proj1 (parse_length m)) in Ev.
    destruct (Json.skipSpace r3) as [| c3 r4] eqn:Es3; [reflexivity |].
    destruct (Ascii.eqb c3 ","); [| reflexivity].
    pose proof (skipSpace_length r4). shorter_skip.
    rewrite (IHm m d _) by lia. reflexivity.
Qed.

(** More fuel than [fuelFor] changes nothing. *)
Theorem fuel_suffices (s : string) (d : N) (fuel : nat) :
  (Json.fuelFor s <= fuel)%nat ->
  Json.parseValue fuel d s = Json.parseValue (Json.fuelFor s) d s.
Proof.
  unfold Json.fuelFor. intros H. apply (proj1 (parse_fuel fuel)); lia.
Qed.

(** ** strconv *)
Lemma digits_app (x y : string) : forall a,
  Strconv.digits a (x ++ y)
  = match Strconv.digits a x with
    | Some b => Strconv.digits b y
    | None => None
    end.
Proof.
  induction x as [| c x IH]; intros a; cbn [String.append Strconv.digits].
  - reflexivity.
  - destruct (isDigit c); [apply IH | reflexivity].
Qed.

Lemma formatBits_acc (f : nat) : forall n acc,
  Strconv.formatBits f n acc = Strconv.formatBits f n "" ++ acc.
Proof.
  induction f as [| f IH]; intros n acc; cbn [Strconv.formatBits].
  - reflexivity.
  - destruct (n <? 10); [reflexivity |].
    rewrite IH, (IH _ (String _ "")), append_assoc. reflexivity.
Qed.

Lemma digit_char (m : Z) :
  0 <= m < 10 ->
  isDigit (ascii_of_N (48 + Z.to_N m)) = true
  /\ Z.of_N (code (ascii_of_N (48 + Z.to_N m))) - 48 = m.
Proof.
  intros Hm.
  assert (m = 0 \/ m = 1 \/ m = 2 \/ m = 3 \/ m = 4 \/ m = 5 \/ m = 6
          \/ m = 7 \/ m = 8 \/ m = 9) as H by lia.
  repeat (destruct H as [-> | H]; [split; reflexivity |]).
  subst m. split; reflexivity.
Qed.

Lemma digits_formatBits (f : nat) : forall n,
  0 <= n < 2 ^ Z.of_nat f ->
  Strconv.digits 0 (Strconv.formatBits f n "") = Some n.
Proof.
  induction f as [| f IH]; intros n Hn.
  - cbn in Hn. assert (n = 0) as -> by lia. reflexivity.
  - cbn [Strconv.formatBits].
    destruct (digit_char (n mod 10)) as [Hd Hv];
      [apply Z.mod_pos_bound; lia |].
    destruct (Z.ltb_spec n 10) as [Hlt | Hge].
    + cbn [Strconv.digits]. rewrite Hd, Hv.
      rewrite Z.mod_small by lia. reflexivity.
    + rewrite formatBits_acc, digits_app, IH.
      * cbn [Strconv.digits]. rewrite Hd, Hv. f_equal.
        pose proof (Z.div_mod n 10). lia.
      * split; [apply Z.div_pos; lia |].
        apply Z.div_lt_upper_bound; [lia |].
        rewrite Nat2Z.inj_succ, Z.pow_succ_r in Hn by lia. lia.
Qed.

Lemma digitsBound_covers (n : Z) :
  0 <= n -> n < 2 ^ Z.of_nat (Strconv.digitsBound n).
Proof.
  intros Hn. unfold Strconv.digitsBound.
  rewrite Nat2Z.inj_succ, Z2Nat.id by apply Z.log2_nonneg.
  destruct (Z.eq_dec n 0) as [-> | Hz]; [reflexivity |].
  apply Z.log2_spec. lia.
Qed.

Lemma digits_head (s : string) (a n : Z) :
  Strconv.digits a s = Some n -> s <> "" ->
  exists c r, s = String c r /\ isDigit c = true.
Proof.
  destruct s as [| c r]; [congruence |]. intros H _.
  exists c, r. split; [reflexivity |].
  cbn [Strconv.digits] in H. destruct (isDigit c); [reflexivity | discriminate].
Qed.

Lemma formatBits_nonempty (f : nat) (n : Z) :
  Strconv.formatBits (S f) n "" <> "".
Proof.
  cbn [Strconv.formatBits]. destruct (n <? 10); [discriminate |].
  rewrite formatBits_acc. destruct (Strconv.formatBits f (n / 10) ""); discriminate.
Qed.

Lemma digit_not_sign (c : ascii) :
  isDigit c = true -> Ascii.eqb c "-" = false /\ Ascii.eqb c "+" = false.
Proof.
  destruct c as [[] [] [] [] [] [] [] []]; cbn; intros H;
    first [discriminate H | split; reflexivity].
Qed.

(** What [Itoa] writes, [Atoi] reads. *)
Lemma Atoi_Itoa (n : Z) :
  - 2 ^ 63 <= n <= 2 ^ 63 - 1 -> Strconv.Atoi (Strconv.Itoa n) = Ok n.
Proof.
  intros Hn. unfold Strconv.Itoa.
  destruct (Z.ltb_spec n 0) as [Hneg | Hpos].
  - assert (0 <= - n) as Hpos by lia.
    pose proof (digits_formatBits _ (- n)
                  (conj Hpos (digitsBound_covers (- n) Hpos))) as Hd.
    unfold Strconv.Atoi. cbn [Ascii.eqb Bool.eqb].
    change (Ascii.eqb "-" "-") with true. cbv iota.
    pose proof (formatBits_nonempty (Z.to_nat (Z.log2 (- n))) (- n)) as Hne.
    change (S (Z.to_nat (Z.log2 (- n)))) with (Strconv.digitsBound (- n)) in Hne.
    destruct (Strconv.formatBits (Strconv.digitsBound (- n)) (- n) "") as [| c r] eqn:E;
      [congruence |].
    rewrite Hd. rewrite Z.opp_involutive.
    destruct (Z.leb_spec (- 2 ^ 63) n); [| lia].
    destruct (Z.leb_spec n (2 ^ 63 - 1)); [reflexivity | lia].
  - pose proof (digits_formatBits _ n
                  (conj Hpos (digitsBound_covers n Hpos))) as Hd.
    pose proof (formatBits_nonempty (Z.to_nat (Z.log2 n)) n) as Hne.
    change (S (Z.to_nat (Z.log2 n))) with (Strconv.digitsBound n) in Hne.
    destruct (digits_head _ _ _ Hd Hne) as (c & r & E & Hc).
    rewrite E in *. destruct (digit_not_sign c Hc) as [H1 H2].
    unfold Strconv.Atoi. rewrite H1, H2, Hd.
    destruct (Z.leb_spec (- 2 ^ 63) n); [| lia].
    destruct (Z.leb_spec n (2 ^ 63 - 1)); [reflexivity | lia].
Qed.

(** ** The errors [Do] returns *)

Lemma success_dec (resp : Http.Response) : {success resp} + {~ success resp}.
Proof.
  unfold success.
  destruct (Z_le_dec 200 (Http.StatusCode resp));
    destruct (Z_le_dec (Http.StatusCode resp) 299); (left; lia) || (right; lia).
Qed.

(** X1.  Whatever [Do] returns is one of three things.  The transport
    failed: no envelope, the transport's error, which all nine
    predicates reject, and the destination as it was.  A response
    outside 200-299 came: its envelope, an [*ErrorResponse] that
    carries that response, and the destination as it was.  A response
    inside 200-299 came: its envelope and the error of handing over the
    body, which is nil or whatever the destination returned, an
    end-of-file from the decoder apart.  So [Do] itself makes no
    [*ValidationError] and no [*RateLimitError], and every
    [*ErrorResponse] it makes has its response. *)
Theorem Do_error_kinds :
  forall T (store : Json.value -> T -> T * error) (c : Client)
         (req : Http.Request) (v v' : Dest T) (resp : option Response.t)
         (err : error),
    Do store c req v = Returns (resp, err, v') ->
    (exists le,
       Http.Do (client c) req = Err le
       /\ resp = None /\ err = Some (Foreign le) /\ v' = v
       /\ map (fun p => p err) classifiers = repeat (Returns false) 9)
    \/ (exists env e,
          Http.Do (client c) req = Ok (Response.Response env)
          /\ ~ success (Response.Response env)
          /\ resp = Some env /\ err = Some (APIError (Some e))
          /\ ErrorResponse.Response e = Some (Response.Response env)
          /\ v' = v)
    \/ (exists env,
          Http.Do (client c) req = Ok (Response.Response env)
          /\ success (Response.Response env)
          /\ resp = Some env
          /\ err = deliveryError store v (Response.Response env)).
Proof.
  intros T store c req v v' resp err H. unfold Do in H.
  destruct (Http.Do (client c) req) as [resp0 | le] eqn:Et.
  - destruct (populatePageValues (Response.mk resp0 0 0 0 0 Rate.zero))
      as [env | msg] eqn:Ep; cbn [obind] in H; [| discriminate].
    destruct (populatePageValues_frame _ _ Ep) as [Hr _]. cbn in Hr.
    destruct (success_dec resp0) as [Hs | Hs].
    + rewrite (CheckResponse_success _ Hs) in H.
      right. right. exists env. rewrite Hr.
      split; [reflexivity |]. split; [assumption |].
      unfold deliveryError.
      destruct (Http.StatusCode resp0 =? Http.StatusNoContent) eqn:E204;
        [rewrite andb_false_r in H |].
      * injection H as <- <- <-. split; reflexivity.
      * destruct v as [| w | x]; cbn [isNil negb andb] in H.
        -- injection H as <- <- <-. split; reflexivity.
        -- destruct (Io.Copy w (Http.Body resp0)) as [w' e'].
           injection H as <- <- <-. split; reflexivity.
        -- destruct (Decode store (Http.Body resp0) x) as [x' e'].
           injection H as <- <- <-. cbn [snd]. split; [reflexivity |].
           destruct e' as [[| | | []] |]; reflexivity.
    + destruct (CheckResponse_failure _ Hs) as (e & Hc & He).
      rewrite Hc in H. injection H as <- <- <-.
      right. left. exists env, e. rewrite Hr. repeat split; assumption.
  - injection H as <- <- <-. left. exists le. repeat split; reflexivity.
Qed.

Lemma Do_error_kinds_witness :
  exists env e,
    Do storeAny (serving (httpResponse 404 [] "gone")) anyRequest
      (DestValue Json.Null)
    = Returns (Some env, Some (APIError (Some e)), DestValue Json.Null)
    /\ ErrorResponse.Response e = Some (Response.Response env)
    /\ ~ success (Response.Response env).
Proof.
  destruct (Do_error_kinds Json.value storeAny
              (serving (httpResponse 404 [] "gone")) anyRequest
              (DestValue Json.Null) (DestValue Json.Null)
              (Some (envelope (httpResponse 404 [] "gone")))
              (Some (APIError
                       (Some (ErrorResponse.mk
                                (Some (httpResponse 404 [] "gone"))
                                "gone" "" "" []))))
              eq_refl)
    as [(le & _ & Hn & _)
       | [(env & e & _ & Hs & Hr & He & HR & _) | (env & Hdo & Hs & _)]].
  - discriminate Hn.
  - exists env, e. injection Hr as <-. injection He as <-.
    split; [reflexivity |]. split; [exact HR | exact Hs].
  - exfalso.
    pose proof (Hdo : Ok (httpResponse 404 [] "gone")
                      = Ok (Response.Response env)) as E.
    injection E as E. rewrite <- E in Hs.
    unfold success in Hs. simpl in Hs. lia.
Defined.

(** an [io.Writer] of the caller may fail with any error, one of this
    package's types included: [Do] passes it on with status 200 *)
Example writer_error_is_passed_on :
  Do storeAny (serving (httpResponse 200 [] "data")) anyRequest
    (DestWriter (Io.Failing (RateLimit None)))
  = Returns (Some (envelope (httpResponse 200 [] "data")),
             Some (RateLimit None),
             DestWriter (Io.Failing (RateLimit None))).
Proof. reflexivity. Qed.

(** ** What [Do] hands over on success *)










(** ** The message of an API error *)




(** ** The field errors of an API error *)









(** ** The options of [NewClient] *)

Lemma options_fold (l : list setting) :
  forall c0,
    let c := fold_left (fun c opt => opt c) (map optionOf l) c0 in
    apiKey c = lastOf pickAPIKey l (apiKey c0)
    /\ userAgent c = lastOf pickUserAgent l (userAgent c0)
    /\ baseURL c = lastOf pickBaseURL l (baseURL c0)
    /\ client c = lastOf pickHTTPClient l (client c0).
Proof.
  induction l as [| s l IH]; intros c0; [cbn; auto |].
  cbn [map fold_left]. unfold lastOf in *. cbn [fold_left].
  destruct (IH (optionOf s c0)) as (H1 & H2 & H3 & H4).
  cbn zeta. rewrite H1, H2, H3, H4.
  destruct s as [key | h | text | ua]; cbn; auto.
  unfold WithBaseURL. destruct (Url.Parse text); cbn; auto.
Qed.

(** X7.  Each field of a client is decided by the options of its own kind,
    and among those by the last one: the API key is the one of the
    last [WithAPIKey] (empty without one), the user agent the one of
    the last [WithUserAgent] ([sevalla-go/0.1.0] without one), the
    base URL the one of the last [WithBaseURL] whose text parses (the
    default without one), the HTTP client the one of the last
    [WithHTTPClient] (the default one, with its timeout of thirty
    seconds, without one). *)
Theorem NewClient_last_option_wins :
  forall (transport : Http.Request -> result Http.Response) (l : list setting),
    let c := NewClient transport (map optionOf l) in
    apiKey c = lastOf pickAPIKey l ""
    /\ userAgent c = lastOf pickUserAgent l "sevalla-go/0.1.0"
    /\ baseURL c = lastOf pickBaseURL l parsedBaseURL
    /\ client c
       = lastOf pickHTTPClient l
           {| Http.Timeout := 30; Http.Do := transport |}.
Proof.
  intros transport l. unfold NewClient. apply options_fold.
Qed.

(** ** Query strings: [Encode] and [Query] *)

Lemma escape_byte_round (c : ascii) :
  Url.ishex (Url.hexDigit (code c / 16)) = true
  /\ Url.ishex (Url.hexDigit (code c mod 16)) = true
  /\ ascii_of_N (16 * Url.unhex (Url.hexDigit (code c / 16))
                 + Url.unhex (Url.hexDigit (code c mod 16))) = c
  /\ queryByte (Url.hexDigit (code c / 16)) = true
  /\ queryByte (Url.hexDigit (code c mod 16)) = true.
Proof. each_byte c; repeat split; reflexivity. Qed.

Lemma kept_byte (c : ascii) :
  Url.shouldEscape c Url.encodeQueryComponent = false ->
  Ascii.eqb c "%" = false /\ Ascii.eqb c "+" = false /\ queryByte c = true.
Proof. each_byte c; cbn; intros H; first [discriminate H | repeat split]. Qed.

Lemma QueryEscape_bytes (s : string) :
  allBytes queryByte (Url.QueryEscape s) = true.
Proof.
  unfold Url.QueryEscape.
  induction s as [| c s IH]; [reflexivity |]. cbn [Url.escape].
  destruct (Url.shouldEscape c Url.encodeQueryComponent) eqn:E.
  - destruct (Ascii.eqb c " "); cbn [allBytes].
    + rewrite IH. reflexivity.
    + destruct (escape_byte_round c) as (_ & _ & _ & H1 & H2).
      rewrite H1, H2, IH. reflexivity.
  - cbn [allBytes]. destruct (kept_byte c E) as (_ & _ & ->). exact IH.
Qed.

Lemma QueryUnescape_QueryEscape (s : string) :
  Url.QueryUnescape (Url.QueryEscape s) = Ok s.
Proof.
  unfold Url.QueryUnescape, Url.QueryEscape.
  induction s as [| c s IH]; [reflexivity |]. cbn [Url.escape].
  destruct (Url.shouldEscape c Url.encodeQueryComponent) eqn:E.
  - destruct (Ascii.eqb_spec c " ") as [-> | Hsp].
    + cbn [Url.unescape]. change (Ascii.eqb "+" "%") with false.
      cbn [Url.hostMode andb]. change (Ascii.eqb "+" "+") with true.
      rewrite IH. reflexivity.
    + destruct (escape_byte_round c) as (H1 & H2 & H3 & _).
      cbn [Url.unescape]. change (Ascii.eqb "%" "%") with true. cbv iota.
      rewrite H1, H2, H3. cbn [andb]. rewrite IH. reflexivity.
  - destruct (kept_byte c E) as (H1 & H2 & _).
    cbn [Url.unescape]. rewrite H1. cbn [Url.hostMode andb].
    rewrite H2, IH. reflexivity.
Qed.

Lemma allBytes_Contains (p : ascii -> bool) (c : ascii) (s : string) :
  allBytes p s = true -> p c = false -> Strings.Contains s c = false.
Proof.
  intros Hs Hc. induction s as [| d s IH]; [reflexivity |].
  cbn [allBytes] in Hs. apply andb_true_iff in Hs as [Hd Hs].
  cbn [Strings.Contains]. rewrite (IH Hs), orb_false_r.
  destruct (Ascii.eqb_spec d c) as [-> | _]; [congruence | reflexivity].
Qed.

Lemma allBytes_append (p : ascii -> bool) (a b : string) :
  allBytes p (a ++ b) = allBytes p a && allBytes p b.
Proof.
  induction a as [| c a IH]; [reflexivity |].
  cbn [String.append allBytes]. rewrite IH, andb_assoc. reflexivity.
Qed.

Lemma Contains_append (a b : string) (c : ascii) :
  Strings.Contains (a ++ b) c = Strings.Contains a c || Strings.Contains b c.
Proof.
  induction a as [| d a IH]; [reflexivity |].
  cbn [String.append Strings.Contains]. rewrite IH, orb_assoc. reflexivity.
Qed.

Lemma Split_append_sep (a b : string) (sep : ascii) :
  Strings.Split (a ++ String sep b) sep
  = (Strings.Split a sep ++ Strings.Split b sep)%list.
Proof.
  induction a as [| c a IH]; cbn [String.append Strings.Split].
  - rewrite Ascii.eqb_refl. reflexivity.
  - destruct (Ascii.eqb c sep); rewrite IH; [reflexivity |].
    destruct (Strings.Split a sep) eqn:E; [| reflexivity].
    exfalso. exact (Split_nonempty _ _ E).
Qed.

Lemma Cut_append_sep (a b : string) (sep : ascii) :
  Strings.Contains a sep = false ->
  Strings.Cut (a ++ String sep b) sep = (a, b, true).
Proof.
  induction a as [| c a IH]; cbn [String.append Strings.Cut Strings.Contains].
  - rewrite Ascii.eqb_refl. reflexivity.
  - intros H. apply orb_false_iff in H as [Hc Ha].
    rewrite Hc, (IH Ha). reflexivity.
Qed.

Lemma Cut_without_sep (a : string) (sep : ascii) :
  Strings.Contains a sep = false -> Strings.Cut a sep = (a, "", false).
Proof.
  induction a as [| c a IH]; cbn [Strings.Cut Strings.Contains]; [reflexivity |].
  intros H. apply orb_false_iff in H as [Hc Ha].
  rewrite Hc, (IH Ha). reflexivity.
Qed.

Lemma queryPair_queryPiece (kv : string * string) :
  Url.queryPair (queryPiece kv) = Some kv.
Proof.
  destruct kv as [k x]. unfold Url.queryPair, queryPiece. cbn [fst snd].
  pose proof (QueryEscape_bytes k) as Hk. pose proof (QueryEscape_bytes x) as Hx.
  rewrite Contains_append, (allBytes_Contains _ ";" _ Hk eq_refl).
  cbn [String.append Strings.Contains orb].
  change (Ascii.eqb "=" ";") with false.
  rewrite (allBytes_Contains _ ";" _ Hx eq_refl). cbn [orb].
  destruct (String.eqb_spec (Url.QueryEscape k ++ String "=" (Url.QueryEscape x)) "")
    as [E | _].
  { destruct (Url.QueryEscape k); discriminate E. }
  rewrite (Cut_append_sep _ _ "=" (allBytes_Contains _ "=" _ Hk eq_refl)).
  fold (Url.QueryUnescape (Url.QueryEscape k)).
  fold (Url.QueryUnescape (Url.QueryEscape x)).
  rewrite !QueryUnescape_QueryEscape. reflexivity.
Qed.

Lemma queryPiece_plain (kv : string * string) :
  queryPiece kv <> "" /\ Strings.Contains (queryPiece kv) "&" = false.
Proof.
  unfold queryPiece. split.
  - destruct (Url.QueryEscape (fst kv)); discriminate.
  - rewrite Contains_append, (allBytes_Contains _ "&" _ (QueryEscape_bytes _) eq_refl).
    cbn [String.append Strings.Contains orb].
    change (Ascii.eqb "=" "&") with false.
    rewrite (allBytes_Contains _ "&" _ (QueryEscape_bytes _) eq_refl). reflexivity.
Qed.

Lemma addPiece_nonempty (buf piece : string) :
  piece <> "" -> (0 <? String.length (addPiece buf piece))%nat = true.
Proof.
  intros H. unfold addPiece. rewrite length_append.
  destruct piece; [congruence |]. cbn [String.length].
  apply Nat.ltb_lt. lia.
Qed.

Lemma Split_pieces_from (ps : list string) :
  Forall (fun p => p <> "" /\ Strings.Contains p "&" = false) ps ->
  forall buf, (0 <? String.length buf)%nat = true ->
    Strings.Split (fold_left addPiece ps buf) "&"
    = (Strings.Split buf "&" ++ ps)%list.
Proof.
  induction 1 as [| p ps [Hne Hamp] _ IH]; intros buf Hbuf; cbn [fold_left].
  - rewrite app_nil_r. reflexivity.
  - rewrite IH by (apply addPiece_nonempty; exact Hne).
    unfold addPiece. rewrite Hbuf, append_assoc. cbn [String.append].
    rewrite Split_append_sep, (Split_without_sep _ _ Hamp), <- app_assoc.
    reflexivity.
Qed.

Lemma Split_joined_pieces (ps : list string) :
  Forall (fun p => p <> "" /\ Strings.Contains p "&" = false) ps ->
  omap Url.queryPair (Strings.Split (fold_left addPiece ps "") "&")
  = omap Url.queryPair ps.
Proof.
  intros H. destruct H as [| p ps [Hne Hamp] Hps]; [reflexivity |].
  cbn [fold_left]. unfold addPiece at 2. cbn [String.length Nat.ltb Nat.leb String.append].
  change (0 <? 0)%nat with false. cbv iota. cbn [String.append].
  rewrite (Split_pieces_from ps Hps p).
  - rewrite (Split_without_sep _ _ Hamp). reflexivity.
  - destruct p; [congruence | reflexivity].
Qed.

Lemma Encode_inner (k : string) (v : Url.Values) :
  forall buf,
    fold_left
      (fun buf kv =>
         if String.eqb (fst kv) k then
           (if (0 <? String.length buf)%nat then buf ++ "&" else buf)
           ++ Url.QueryEscape k ++ "=" ++ Url.QueryEscape (snd kv)
         else buf)
      v buf
    = fold_left addPiece
        (map queryPiece (List.filter (fun kv => String.eqb (fst kv) k) v)) buf.
Proof.
  induction v as [| [k' x] v IH]; intros buf; [reflexivity |].
  cbn [fold_left List.filter fst snd].
  destruct (String.eqb_spec k' k) as [-> | _].
  - cbn [map fold_left]. rewrite IH. reflexivity.
  - apply IH.
Qed.

Lemma Encode_outer (v : Url.Values) (ks : list string) :
  forall buf,
    fold_left
      (fun buf k =>
         fold_left
           (fun buf kv =>
              if String.eqb (fst kv) k then
                (if (0 <? String.length buf)%nat then buf ++ "&" else buf)
                ++ Url.QueryEscape k ++ "=" ++ Url.QueryEscape (snd kv)
              else buf)
           v buf)
      ks buf
    = fold_left addPiece
        (map queryPiece
           (flat_map
              (fun k => List.filter (fun kv => String.eqb (fst kv) k) v) ks))
        buf.
Proof.
  induction ks as [| k ks IH]; intros buf; [reflexivity |].
  cbn [fold_left flat_map]. rewrite map_app, fold_left_app.
  rewrite Encode_inner. apply IH.
Qed.

Lemma Encode_pieces (v : Url.Values) :
  Url.Values_Encode v = fold_left addPiece (map queryPiece (grouped v)) "".
Proof. apply Encode_outer. Qed.

Lemma omap_queryPiece (l : Url.Values) :
  omap Url.queryPair (map queryPiece l) = l.
Proof.
  induction l as [| kv l IH]; [reflexivity |].
  cbn [map]. cbn [omap list_omap]. rewrite queryPair_queryPiece.
  cbn. f_equal. exact IH.
Qed.

(** What [Query] reads from an encoded query are the pairs that were
    encoded, key by key. *)
Lemma Query_Encode (u : Url.URL) (v : Url.Values) :
  Url.Query (Url.setRawQuery u (Url.Values_Encode v)) = grouped v.
Proof.
  unfold Url.Query. cbn [Url.setRawQuery Url.RawQuery].
  rewrite Encode_pieces, Split_joined_pieces.
  - apply omap_queryPiece.
  - apply List.Forall_forall. intros p Hp.
    apply List.in_map_iff in Hp as (kv & <- & _). apply queryPiece_plain.
Qed.

Lemma insertKey_In (k x : string) (keys : list string) :
  In x (Url.insertKey k keys) <-> x = k \/ In x keys.
Proof.
  induction keys as [| h t IH]; cbn [Url.insertKey].
  - cbn. intuition congruence.
  - destruct (String.compare k h) eqn:E; cbn [In].
    + apply String.compare_eq_iff in E. subst h. intuition congruence.
    + intuition congruence.
    + rewrite IH. intuition congruence.
Qed.

Lemma sortedKeys_In (v : Url.Values) (k : string) :
  In k (map fst v) -> In k (Url.sortedKeys v).
Proof.
  induction v as [| kv v IH]; cbn [map Url.sortedKeys fold_right In]; [tauto |].
  intros [E | H]; apply insertKey_In; [left; congruence | right; auto].
Qed.

Lemma Values_Get_absent (v : Url.Values) (k : string) :
  ~ In k (map fst v) -> Url.Values_Get v k = "".
Proof.
  induction v as [| [k' x] v IH]; cbn [map fst In Url.Values_Get]; [reflexivity |].
  intros H. destruct (String.eqb_spec k' k) as [-> | _]; [tauto |].
  apply IH. tauto.
Qed.

Lemma Values_Get_app (a b : Url.Values) (k : string) :
  Url.Values_Get (a ++ b)%list k
  = if existsb (fun kv => String.eqb (fst kv) k) a
    then Url.Values_Get a k else Url.Values_Get b k.
Proof.
  induction a as [| [k' x] a IH]; [reflexivity |].
  cbn [app Url.Values_Get existsb fst].
  destruct (String.eqb k' k); [reflexivity | exact IH].
Qed.

Lemma Values_Get_group (v : Url.Values) (k k' : string) :
  Url.Values_Get (List.filter (fun kv => String.eqb (fst kv) k') v) k
  = (if String.eqb k' k then Url.Values_Get v k else "")
  /\ existsb (fun kv => String.eqb (fst kv) k)
       (List.filter (fun kv => String.eqb (fst kv) k') v)
     = String.eqb k' k && existsb (fun kv => String.eqb (fst kv) k) v.
Proof.
  induction v as [| [k0 x] v [IH1 IH2]].
  - cbn. destruct (String.eqb k' k); split; reflexivity.
  - cbn [List.filter fst Url.Values_Get existsb].
    destruct (String.eqb_spec k0 k') as [-> | Hne].
    + cbn [Url.Values_Get existsb fst]. rewrite IH1, IH2.
      destruct (String.eqb k' k); split; reflexivity.
    + rewrite IH1, IH2.
      destruct (String.eqb k' k) eqn:Ek; [| split; reflexivity].
      apply String.eqb_eq in Ek.
      destruct (String.eqb_spec k0 k) as [E0 | _]; [congruence |].
      split; reflexivity.
Qed.

Lemma Values_Get_groups (v : Url.Values) (k : string) (ks : list string) :
  Url.Values_Get
    (flat_map (fun k' => List.filter (fun kv => String.eqb (fst kv) k') v) ks) k
  = if existsb (String.eqb k) ks then Url.Values_Get v k else "".
Proof.
  induction ks as [| k' ks IH]; [reflexivity |].
  cbn [flat_map existsb]. rewrite Values_Get_app, IH.
  destruct (Values_Get_group v k k') as [-> ->].
  rewrite (String.eqb_sym k k').
  destruct (String.eqb k' k); cbn [andb orb]; [| reflexivity].
  destruct (existsb (fun kv => String.eqb (fst kv) k) v) eqn:E; [reflexivity |].
  assert (Url.Values_Get v k = "") as ->; [| destruct (existsb _ ks); reflexivity].
  apply Values_Get_absent. intros Hin.
  apply List.in_map_iff in Hin as ([k0 x] & Ek & Hin). cbn in Ek. subst k0.
  assert (existsb (fun kv => String.eqb (fst kv) k) v = true); [| congruence].
  apply existsb_exists. exists (k, x). split; [exact Hin |].
  apply String.eqb_refl.
Qed.

(** Looking a key up in what was read back finds the first value the
    key was given. *)
Lemma Values_Get_grouped (v : Url.Values) (k : string) :
  Url.Values_Get (grouped v) k = Url.Values_Get v k.
Proof.
  unfold grouped. rewrite Values_Get_groups.
  destruct (existsb (String.eqb k) (Url.sortedKeys v)) eqn:E; [reflexivity |].
  symmetry. apply Values_Get_absent. intros Hin.
  apply sortedKeys_In in Hin.
  assert (existsb (String.eqb k) (Url.sortedKeys v) = true); [| congruence].
  apply existsb_exists. exists k. split; [exact Hin | apply String.eqb_refl].
Qed.

(** ** The text of a URL and its query *)

Lemma parse_unfold (rawURL : string) :
  Url.parse rawURL
  = if Url.stringContainsCTLByte rawURL then
      Err (LibError "net/url" "invalid control character in URL")
    else if String.eqb rawURL "*" then
      Ok {| Url.Scheme := ""; Url.Opaque := ""; Url.User := None;
            Url.Host := ""; Url.Path := "*"; Url.RawPath := "";
            Url.OmitHost := false; Url.ForceQuery := false;
            Url.RawQuery := ""; Url.Fragment := ""; Url.RawFragment := "" |}
    else
      match Url.getScheme rawURL with
      | Err e => Err e
      | Ok (scheme0, rest0) =>
          let '(rest1, rawQuery, forceQuery) :=
            if Strings.HasSuffix rest0 "?" && (Strings.Count rest0 "?" =? 1)%nat
            then (Strings.dropLast rest0, "", true)
            else let '(b, a, _) := Strings.Cut rest0 "?" in (b, a, false) in
          parseAfterQuery (Strings.ToLower scheme0) rest1 rawQuery forceQuery
      end.
Proof.
  unfold Url.parse, parseAfterQuery.
  destruct (Url.stringContainsCTLByte rawURL); [reflexivity |].
  destruct (String.eqb rawURL "*"); [reflexivity |].
  destruct (Url.getScheme rawURL) as [[scheme0 rest0] | e]; [| reflexivity].
  destruct (Strings.HasSuffix rest0 "?" && (Strings.Count rest0 "?" =? 1)%nat);
    [reflexivity |].
  destruct (Strings.Cut rest0 "?") as [[b a] f]. reflexivity.
Qed.

Lemma setPath_query (u u' : Url.URL) (p q : string) :
  Url.setPath u p = Ok u' ->
  Url.setPath (Url.setRawQuery u q) p = Ok (Url.setRawQuery u' q).
Proof.
  unfold Url.setPath. destruct (Url.unescape Url.encodePath p); [| discriminate].
  intros H. injection H as <-. reflexivity.
Qed.

Lemma parseAfterQuery_query (scheme rest1 q q' : string) (u : Url.URL) :
  parseAfterQuery scheme rest1 q false = Ok u ->
  Url.RawQuery u = q /\ Url.ForceQuery u = false
  /\ parseAfterQuery scheme rest1 q' false = Ok (Url.setRawQuery u q').
Proof.
  unfold parseAfterQuery.
  destruct (negb (Strings.HasPrefix rest1 "/") && negb (String.eqb scheme "")).
  { intros H. injection H as <-. repeat split. }
  destruct (negb (Strings.HasPrefix rest1 "/")
            && Strings.Contains (fst (fst (Strings.Cut rest1 "/"))) ":");
    [discriminate |].
  assert (forall w p, Url.setPath w p = Ok u ->
            Url.RawQuery w = q -> Url.ForceQuery w = false ->
            Url.RawQuery u = q /\ Url.ForceQuery u = false) as Hkeep.
  { intros w p H Hq Hf. unfold Url.setPath in H.
    destruct (Url.unescape Url.encodePath p); [| discriminate].
    injection H as <-. cbn. auto. }
  destruct ((negb (String.eqb scheme "") || negb (Strings.HasPrefix rest1 "///"))
            && Strings.HasPrefix rest1 "//").
  { destruct (Strings.Cut _ "/") as [[authority after] found].
    destruct (Url.parseAuthority authority) as [[user host] | e]; [| discriminate].
    intros H. destruct (Hkeep _ _ H eq_refl eq_refl) as [H1 H2].
    repeat split; [exact H1 | exact H2 |].
    apply (setPath_query _ _ _ q') in H. exact H. }
  destruct (negb (String.eqb scheme "") && Strings.HasPrefix rest1 "/").
  - intros H. destruct (Hkeep _ _ H eq_refl eq_refl) as [H1 H2].
    repeat split; [exact H1 | exact H2 |].
    apply (setPath_query _ _ _ q') in H. exact H.
  - intros H. destruct (Hkeep _ _ H eq_refl eq_refl) as [H1 H2].
    repeat split; [exact H1 | exact H2 |].
    apply (setPath_query _ _ _ q') in H. exact H.
Qed.

Lemma scanScheme_query (s q : string) :
  forall first,
    Url.scanScheme first (s ++ String "?" q)
    = match Url.scanScheme first s with
      | Some (sch, rest) => Some (sch, rest ++ String "?" q)
      | None => None
      end.
Proof.
  induction s as [| c s IH]; intros first.
  - cbn [String.append Url.scanScheme].
    destruct (Url.scanScheme false q) as [[] |]; reflexivity.
  - cbn [String.append Url.scanScheme]. rewrite IH.
    destruct (Url.scanScheme false s) as [[sch rest] |];
      destruct (isAlpha c), (isDigit c || inSet "+-." c), (Ascii.eqb c ":"), first;
      reflexivity.
Qed.

Lemma getScheme_query (s q sch rest : string) :
  s <> "" ->
  Url.getScheme s = Ok (sch, rest) ->
  Url.getScheme (s ++ String "?" q) = Ok (sch, rest ++ String "?" q).
Proof.
  destruct s as [| c s]; [congruence |]. intros _.
  unfold Url.getScheme.
  change (String c s ++ String "?" q) with (String c (s ++ String "?" q)).
  assert (forall x : string,
             match String c x with
             | String ":" _ => Err (LibError "net/url" "missing protocol scheme")
             | _ =>
                 match Url.scanScheme true (String c x) with
                 | Some (sch, rest) => Ok (sch, rest)
                 | None => Ok ("", String c x)
                 end
             end
             = if Ascii.eqb c ":"
               then Err (LibError "net/url" "missing protocol scheme")
               else match Url.scanScheme true (String c x) with
                    | Some (sch, rest) => Ok (sch, rest)
                    | None => Ok ("", String c x)
                    end) as Hm.
  { intros x. each_byte c; reflexivity. }
  rewrite !Hm. destruct (Ascii.eqb c ":"); [discriminate |].
  change (String c (s ++ String "?" q)) with (String c s ++ String "?" q).
  rewrite scanScheme_query.
  destruct (Url.scanScheme true (String c s)) as [[sch' rest'] |];
    intros H; injection H as <- <-; reflexivity.
Qed.

Lemma CTL_append (a b : string) :
  Url.stringContainsCTLByte (a ++ b)
  = Url.stringContainsCTLByte a || Url.stringContainsCTLByte b.
Proof.
  induction a as [| c a IH]; [reflexivity |].
  cbn [String.append Url.stringContainsCTLByte]. rewrite IH.
  rewrite !orb_assoc. reflexivity.
Qed.

Lemma HasSuffix_without (s : string) (c : ascii) :
  Strings.Contains s c = false -> Strings.HasSuffix s c = false.
Proof.
  unfold Strings.HasSuffix. intros H.
  destruct (String.length s) as [| n] eqn:El; [reflexivity |].
  destruct (String.get n s) as [d |] eqn:Eg; [| reflexivity].
  destruct (Ascii.eqb_spec d c) as [-> | _]; [| reflexivity].
  exfalso. clear El. revert n Eg.
  induction s as [| e s IH]; intros n Eg; [discriminate |].
  cbn [Strings.Contains] in H. apply orb_false_iff in H as [He Hs].
  destruct n as [| n]; cbn [String.get] in Eg.
  - injection Eg as ->. rewrite Ascii.eqb_refl in He. discriminate.
  - exact (IH Hs n Eg).
Qed.

Lemma get_append_right (a b : string) (n : nat) :
  String.get (String.length a + n) (a ++ b) = String.get n b.
Proof. induction a as [| c a IH]; [reflexivity | exact IH]. Qed.

Lemma HasSuffix_append (a b : string) (c : ascii) :
  b <> "" -> Strings.HasSuffix (a ++ b) c = Strings.HasSuffix b c.
Proof.
  intros Hb. unfold Strings.HasSuffix. rewrite length_append.
  destruct b as [| d b]; [congruence |]. cbn [String.length].
  rewrite Nat.add_succ_r. rewrite get_append_right. reflexivity.
Qed.

(** Reading a text with a query added: the URL of the text without
    it, with the query. *)
Lemma Parse_with_query (base q : string) (u0 : Url.URL) :
  Url.Parse base = Ok u0 ->
  plainText base -> base <> "" -> base <> "*" ->
  q <> "" -> Strings.Contains q "?" = false -> Strings.Contains q "#" = false ->
  Url.stringContainsCTLByte q = false ->
  Url.RawQuery u0 = "" /\ Url.ForceQuery u0 = false
  /\ Url.Parse (base ++ String "?" q) = Ok (Url.setRawQuery u0 q).
Proof.
  intros Hp [Hq Hh] Hne Hstar Hqne Hqq Hqh Hctl.
  unfold Url.Parse in *.
  rewrite (Cut_without_sep _ _ Hh) in Hp.
  assert (Strings.Contains (base ++ String "?" q) "#" = false) as Hh'.
  { rewrite Contains_append. cbn [Strings.Contains].
    rewrite Hh, Hqh. reflexivity. }
  rewrite (Cut_without_sep _ _ Hh').
  change (String.eqb "" "") with true in *. cbv iota in *.
  destruct (Url.parse base) as [u |] eqn:Eb; [| discriminate].
  injection Hp as ->. rewrite parse_unfold in Eb. rewrite parse_unfold.
  rewrite CTL_append. cbn [Url.stringContainsCTLByte].
  destruct (Url.stringContainsCTLByte base); [discriminate |].
  rewrite Hctl. cbn [orb].
  change ((code "?" <? 32)%N || (code "?" =? 127)%N) with false. cbn [orb].
  destruct (String.eqb_spec base "*") as [| _]; [contradiction |].
  destruct (String.eqb_spec (base ++ String "?" q) "*") as [E | _].
  { exfalso. destruct base as [| c [| d r]]; try congruence; discriminate E. }
  destruct (Url.getScheme base) as [[scheme0 rest0] | e] eqn:Eg; [| discriminate].
  rewrite (getScheme_query _ q _ _ Hne Eg).
  assert (Strings.Contains rest0 "?" = false) as Hrest.
  { unfold Url.getScheme in Eg.
    assert (match Url.scanScheme true base with
            | Some (sch, rest) => Ok (sch, rest)
            | None => Ok ("", base)
            end = Ok (scheme0, rest0)) as Eg'.
    { destruct base as [| c r]; [congruence |].
      revert Eg. each_byte c; intros Eg; first [discriminate Eg | exact Eg]. }
    assert (forall s first sch rest,
               Url.scanScheme first s = Some (sch, rest) ->
               Strings.Contains s "?" = false ->
               Strings.Contains rest "?" = false) as Hscan.
    { clear. induction s as [| c s IH]; intros first sch rest H Hc;
        [discriminate |].
      cbn [Strings.Contains] in Hc. apply orb_false_iff in Hc as [_ Hc].
      cbn [Url.scanScheme] in H.
      destruct (Url.scanScheme false s) as [[sch' rest'] |] eqn:E.
      - specialize (IH _ _ _ E Hc).
        destruct (isAlpha c), (isDigit c || inSet "+-." c), (Ascii.eqb c ":"),
          first; try discriminate; injection H as <- <-; assumption.
      - destruct (isAlpha c), (isDigit c || inSet "+-." c), (Ascii.eqb c ":"),
          first; try discriminate; injection H as <- <-; assumption. }
    destruct (Url.scanScheme true base) as [[sch rest] |] eqn:Es;
      injection Eg' as <- <-; [eapply Hscan; eassumption | exact Hq]. }
  rewrite (HasSuffix_without _ _ Hrest) in Eb. cbn [andb] in Eb.
  rewrite (Cut_without_sep _ _ Hrest) in Eb.
  rewrite HasSuffix_append by discriminate.
  assert (Strings.HasSuffix (String "?" q) "?" = false) as ->.
  { change (String "?" q) with ("?" ++ q).
    rewrite HasSuffix_append by assumption. apply HasSuffix_without, Hqq. }
  cbn [andb]. rewrite (Cut_append_sep _ _ _ Hrest).
  destruct (parseAfterQuery_query _ _ _ q _ Eb) as (H1 & H2 & H3).
  rewrite H3. repeat split; assumption.
Qed.

Lemma hexDigit_plain (c : ascii) :
  Ascii.eqb (Url.hexDigit (code c / 16)) "?" = false
  /\ Ascii.eqb (Url.hexDigit (code c / 16)) "#" = false
  /\ Ascii.eqb (Url.hexDigit (code c mod 16)) "?" = false
  /\ Ascii.eqb (Url.hexDigit (code c mod 16)) "#" = false.
Proof. each_byte c; repeat split; reflexivity. Qed.

Lemma unescaped_plain (c : ascii) (mode : Url.encoding) :
  mode <> Url.encodeFragment ->
  Url.shouldEscape c mode = false ->
  Ascii.eqb c "?" = false /\ Ascii.eqb c "#" = false.
Proof.
  intros Hm. each_byte c; destruct mode; try congruence; cbn; intros H;
    first [discriminate H | split; reflexivity].
Qed.

Lemma escape_plain (mode : Url.encoding) (s : string) :
  mode <> Url.encodeFragment -> plainText (Url.escape s mode).
Proof.
  intros Hm. unfold plainText.
  induction s as [| c s [IH1 IH2]]; [split; reflexivity |].
  cbn [Url.escape].
  destruct (hexDigit_plain c) as (H1 & H2 & H3 & H4).
  assert (Strings.Contains
            (String "%" (String (Url.hexDigit (code c / 16))
               (String (Url.hexDigit (code c mod 16)) (Url.escape s mode)))) "?"
          = false
          /\ Strings.Contains
               (String "%" (String (Url.hexDigit (code c / 16))
                  (String (Url.hexDigit (code c mod 16)) (Url.escape s mode)))) "#"
             = false) as Hhex.
  { cbn [Strings.Contains]. rewrite H1, H2, H3, H4, IH1, IH2. split; reflexivity. }
  destruct (Url.shouldEscape c mode) eqn:E.
  - destruct mode; try exact Hhex.
    destruct (Ascii.eqb c " "); [| exact Hhex].
    cbn [Strings.Contains]. rewrite IH1, IH2. split; reflexivity.
  - destruct (unescaped_plain c mode Hm E) as [Hc1 Hc2].
    cbn [Strings.Contains]. rewrite Hc1, Hc2, IH1, IH2. split; reflexivity.
Qed.

Lemma validEncoded_plain (s : string) :
  Url.validEncoded s Url.encodePath = true -> plainText s.
Proof.
  unfold plainText. induction s as [| c s IH]; [split; reflexivity |].
  cbn [Url.validEncoded Strings.Contains]. intros H.
  apply andb_true_iff in H as [Hc Hs]. destruct (IH Hs) as [-> ->].
  revert Hc. each_byte c; cbn; intros Hc;
    first [discriminate Hc | split; reflexivity].
Qed.

Lemma EscapedPath_plain (u : Url.URL) : plainText (Url.EscapedPath u).
Proof.
  unfold Url.EscapedPath.
  destruct (Url.validEncoded (Url.RawPath u) Url.encodePath) eqn:Ev.
  - rewrite andb_true_r.
    destruct (negb (String.eqb (Url.RawPath u) "")).
    + destruct (Url.unescape Url.encodePath (Url.RawPath u)) as [p |].
      * destruct (String.eqb p (Url.Path u));
          [apply validEncoded_plain, Ev |].
        destruct (String.eqb (Url.Path u) "*"); [split; reflexivity |].
        apply escape_plain. discriminate.
      * destruct (String.eqb (Url.Path u) "*"); [split; reflexivity |].
        apply escape_plain. discriminate.
    + destruct (String.eqb (Url.Path u) "*"); [split; reflexivity |].
      apply escape_plain. discriminate.
  - rewrite andb_false_r.
    destruct (String.eqb (Url.Path u) "*"); [split; reflexivity |].
    apply escape_plain. discriminate.
Qed.

Lemma plainText_append (a b : string) :
  plainText a -> plainText b -> plainText (a ++ b).
Proof.
  unfold plainText. intros [H1 H2] [H3 H4].
  rewrite !Contains_append, H1, H2, H3, H4. split; reflexivity.
Qed.

Lemma schemeBytes_plain (s : string) :
  allBytes schemeByte s = true -> plainText s.
Proof.
  intros H. split; apply (allBytes_Contains schemeByte); auto.
Qed.

Ltac plain_pieces :=
  repeat first
    [ apply plainText_append
    | apply EscapedPath_plain
    | apply escape_plain; discriminate
    | split; reflexivity
    | match goal with
      | |- plainText (if ?b then _ else _) => destruct b
      | |- plainText (match ?o with Some _ => _ | None => _ end) => destruct o
      | |- plainText (match ?s with "" => _ | String _ _ => _ end) => destruct s
      end ].

(** The text of a URL that is not opaque and has neither query nor
    fragment holds no query mark and no fragment mark. *)
Lemma URL_String_plain (u : Url.URL) :
  Url.Opaque u = "" ->
  allBytes schemeByte (Url.Scheme u) = true ->
  Url.RawQuery u = "" -> Url.ForceQuery u = false -> Url.Fragment u = "" ->
  plainText (Url.URL_String u).
Proof.
  intros Ho Hs Hq Hf Hfr. unfold Url.URL_String, Url.Userinfo_String.
  rewrite Ho, Hq, Hf, Hfr. cbn [String.eqb negb orb].
  pose proof (schemeBytes_plain _ Hs) as Hsch.
  assert (plainText (if String.eqb (Url.Scheme u) "" then ""
                     else Url.Scheme u ++ ":")) as Hscheme.
  { destruct (String.eqb (Url.Scheme u) ""); [split; reflexivity |].
    apply plainText_append; [exact Hsch | split; reflexivity]. }
  cbv zeta. apply plainText_append; [| plain_pieces].
  apply plainText_append; [exact Hscheme | plain_pieces].
Qed.

Lemma URL_String_query (u : Url.URL) (q : string) :
  Url.Fragment u = "" -> Url.ForceQuery u = false -> q <> "" ->
  Url.URL_String (Url.setRawQuery u q)
  = Url.URL_String (Url.setRawQuery u "") ++ String "?" q.
Proof.
  intros Hfr Hf Hq. unfold Url.URL_String, Url.EscapedPath, Url.EscapedFragment.
  cbn [Url.setRawQuery Url.Scheme Url.Opaque Url.User Url.Host Url.Path
       Url.RawPath Url.OmitHost Url.ForceQuery Url.RawQuery Url.Fragment
       Url.RawFragment].
  rewrite Hfr, Hf.
  destruct (String.eqb_spec q "") as [| _]; [contradiction |].
  cbn [String.eqb negb orb String.append]. cbv zeta.
  destruct (negb (String.eqb (Url.Opaque u) ""));
    rewrite ?append_nil_r, ?append_assoc; reflexivity.
Qed.

Lemma URL_String_long (u : Url.URL) :
  Url.Scheme u <> "" -> Url.URL_String u <> "" /\ Url.URL_String u <> "*".
Proof.
  intros Hs.
  assert (exists c d r, Url.URL_String u = String c (String d r)) as (c & d & r & E).
  { unfold Url.URL_String.
    destruct (Url.Scheme u) as [| c s] eqn:Es; [congruence |].
    cbn [String.eqb]. cbv zeta.
    destruct (negb (String.eqb (Url.Opaque u) ""));
      rewrite ?append_assoc; cbn [String.append];
      (destruct s as [| d s]; cbn [String.append]; eauto). }
  rewrite E. split; discriminate.
Qed.

Lemma queryByte_printable (c : ascii) :
  encodedByte c = true ->
  Ascii.eqb c "?" = false /\ Ascii.eqb c "#" = false
  /\ (code c <? 32)%N || (code c =? 127)%N = false.
Proof.
  each_byte c; cbn; intros H; first [discriminate H | repeat split].
Qed.

Lemma encoded_text (s : string) :
  allBytes encodedByte s = true ->
  Strings.Contains s "?" = false /\ Strings.Contains s "#" = false
  /\ Url.stringContainsCTLByte s = false.
Proof.
  induction s as [| c s IH]; [repeat split |].
  cbn [allBytes Strings.Contains Url.stringContainsCTLByte]. intros H.
  apply andb_true_iff in H as [Hc Hs].
  destruct (IH Hs) as (-> & -> & ->).
  destruct (queryByte_printable c Hc) as (-> & -> & H3).
  rewrite !orb_false_r. repeat split. exact H3.
Qed.

Lemma allBytes_weaken (p p' : ascii -> bool) (s : string) :
  (forall c, p c = true -> p' c = true) ->
  allBytes p s = true -> allBytes p' s = true.
Proof.
  intros Hpp. induction s as [| c s IH]; [reflexivity |].
  cbn [allBytes]. intros H. apply andb_true_iff in H as [Hc Hs].
  rewrite (Hpp c Hc), (IH Hs). reflexivity.
Qed.

Lemma Encode_bytes (v : Url.Values) :
  allBytes encodedByte (Url.Values_Encode v) = true.
Proof.
  rewrite Encode_pieces.
  assert (forall ps buf,
             Forall (fun p => allBytes encodedByte p = true) ps ->
             allBytes encodedByte buf = true ->
             allBytes encodedByte (fold_left addPiece ps buf) = true) as Hfold.
  { induction ps as [| p ps IH]; intros buf Hps Hbuf; [exact Hbuf |].
    apply List.Forall_cons_iff in Hps as [Hp Hps].
    cbn [fold_left]. apply IH; [exact Hps |].
    unfold addPiece. destruct (0 <? String.length buf)%nat;
      rewrite ?allBytes_append, Hbuf, Hp; reflexivity. }
  apply Hfold; [| reflexivity].
  apply List.Forall_forall. intros p Hp.
  apply List.in_map_iff in Hp as (kv & <- & _).
  unfold queryPiece. rewrite !allBytes_append.
  assert (forall s, allBytes encodedByte (Url.QueryEscape s) = true) as He.
  { intros s. apply (allBytes_weaken queryByte); [| apply QueryEscape_bytes].
    intros ch Hch. unfold encodedByte. rewrite Hch. reflexivity. }
  rewrite !He. reflexivity.
Qed.

(** What a listing's options leave under each name. *)
Lemma listValues_Get (o : ListOptions.t) (v : Url.Values) :
  query_Values (Some o) = Ok v ->
  Url.Values_Get v "page"
  = (if ListOptions.Page o =? 0 then "" else Strconv.Itoa (ListOptions.Page o))
  /\ Url.Values_Get v "per_page"
     = (if ListOptions.PerPage o =? 0 then ""
        else Strconv.Itoa (ListOptions.PerPage o))
  /\ Url.Values_Get v "sort" = ListOptions.Sort o
  /\ Url.Values_Get v "order" = ListOptions.Order o
  /\ Url.Values_Get v "company_id" = ListOptions.CompanyID o
  /\ (forall k, ~ In k listKeys -> Url.Values_Get v k = "").
Proof.
  intros H. cbn [query_Values] in H. injection H as <-.
  unfold addInt, addString, Url.Values_Add.
  destruct (ListOptions.Page o =? 0);
    destruct (ListOptions.PerPage o =? 0);
    destruct (String.eqb_spec (ListOptions.Sort o) "") as [-> | _];
    destruct (String.eqb_spec (ListOptions.Order o) "") as [-> | _];
    destruct (String.eqb_spec (ListOptions.CompanyID o) "") as [-> | _];
    cbn [app];
    (repeat split; try reflexivity);
    intros k Hk; unfold listKeys in Hk; cbn [In] in Hk;
    cbn [Url.Values_Get];
    repeat match goal with
      | |- context [String.eqb ?a k] =>
          destruct (String.eqb_spec a k); [exfalso; tauto |]
      end; reflexivity.
Qed.

(** ** [NewRequestWithQuery] *)

Lemma setHeader_setURL (req : Http.Request) (u : Url.URL) (k x : string) :
  Http.Request_SetHeader (setURL req u) k x
  = setURL (Http.Request_SetHeader req k x) u.
Proof. reflexivity. Qed.

Lemma setRawQuery_same (u : Url.URL) :
  Url.setRawQuery u (Url.RawQuery u) = u.
Proof. destruct u. reflexivity. Qed.

Lemma setURL_same (req : Http.Request) : setURL req (Http.URL req) = req.
Proof. destruct req. reflexivity. Qed.

(** The request for a text with a query is the request for the text
    without it, but for the query of its URL. *)
Lemma NewRequestWithContext_query (method base q : string) (r0 : Http.Request) :
  Http.NewRequestWithContext method base None = Ok r0 ->
  plainText base -> base <> "" -> base <> "*" ->
  allBytes encodedByte q = true ->
  Url.RawQuery (Http.URL r0) = ""
  /\ Http.NewRequestWithContext method
       (if String.eqb q "" then base else base ++ String "?" q) None
     = Ok (setURL r0 (Url.setRawQuery (Http.URL r0) q)).
Proof.
  intros H0 Hplain Hne Hstar Hq.
  unfold Http.NewRequestWithContext in *.
  destruct (negb (Http.validMethod (if String.eqb method "" then "GET" else method)));
    [discriminate |].
  destruct (Url.Parse base) as [u0 |] eqn:Ep; [| discriminate].
  injection H0 as <-. cbn [Http.URL Url.setHost Url.RawQuery].
  destruct (Parse_with_query base "x" u0 Ep Hplain Hne Hstar)
    as (Hraw & _ & _); try reflexivity; [discriminate |].
  split; [exact Hraw |].
  destruct (String.eqb_spec q "") as [-> | Hqne].
  - rewrite Ep. unfold setURL. cbn [Http.URL Http.Method Http.ReqHeader
                                    Http.ReqBody Http.ReqHost].
    destruct u0. cbn in Hraw. subst. reflexivity.
  - destruct (encoded_text q Hq) as (Hq1 & Hq2 & Hq3).
    destruct (Parse_with_query base q u0 Ep Hplain Hne Hstar Hqne Hq1 Hq2 Hq3)
      as (_ & _ & ->).
    reflexivity.
Qed.

(** X8.  A listing's options become the query of the request and are read
    back from it.  With a nil [*ListOptions] the request has no query,
    whatever query the path was given with; with options, the request
    is that one but for the query of its URL, and [Query] finds under
    each name the field that was set: its decimal text for a number
    that is not zero (which [Atoi] reads back), the string itself for
    a string, whatever its bytes, and nothing for a zero field or any
    other name. *)
Theorem NewRequestWithQuery_encodes_options :
  forall (c : Client) (method P : string) (u : Url.URL) (req0 : Http.Request)
         (o : ListOptions.t),
    Url.URL_Parse (baseURL c) P = Ok u ->
    Url.Opaque u = "" ->
    Url.Scheme u <> "" -> allBytes schemeByte (Url.Scheme u) = true ->
    Url.Fragment u = "" -> Url.ForceQuery u = false ->
    NewRequestWithQuery c method P (OptsList None) = Ok req0 ->
    Url.RawQuery (Http.URL req0) = ""
    /\ exists req,
         NewRequestWithQuery c method P (OptsList (Some o)) = Ok req
         /\ req = setURL req0
                    (Url.setRawQuery (Http.URL req0) (Url.RawQuery (Http.URL req)))
         /\ (let found := Url.Values_Get (Url.Query (Http.URL req)) in
             found "page"
             = (if ListOptions.Page o =? 0 then ""
                else Strconv.Itoa (ListOptions.Page o))
             /\ found "per_page"
                = (if ListOptions.PerPage o =? 0 then ""
                   else Strconv.Itoa (ListOptions.PerPage o))
             /\ found "sort" = ListOptions.Sort o
             /\ found "order" = ListOptions.Order o
             /\ found "company_id" = ListOptions.CompanyID o
             /\ (forall k, ~ In k listKeys -> found k = "")
             /\ (ListOptions.Page o <> 0 -> isInt (ListOptions.Page o) ->
                 Strconv.Atoi (found "page") = Ok (ListOptions.Page o))
             /\ (ListOptions.PerPage o <> 0 -> isInt (ListOptions.PerPage o) ->
                 Strconv.Atoi (found "per_page") = Ok (ListOptions.PerPage o))).
Proof.
  intros c method P u req0 o Hu Ho Hs Hsb Hfr Hf H0.
  unfold NewRequestWithQuery in *. rewrite Hu in *.
  destruct (query_Values (Some o)) as [v |] eqn:Ev; [| discriminate Ev].
  cbn [query_Values] in H0.
  change (Url.Values_Encode []) with "" in H0.
  set (base := Url.URL_String (Url.setRawQuery u "")) in *.
  assert (plainText base) as Hplain
      by (apply URL_String_plain; assumption || reflexivity).
  destruct (URL_String_long (Url.setRawQuery u "") Hs) as [Hne Hstar].
  fold base in Hne, Hstar.
  destruct (Http.NewRequestWithContext method base None) as [r0 |] eqn:E0;
    [| discriminate].
  destruct (NewRequestWithContext_query method base (Url.Values_Encode v) r0
              E0 Hplain Hne Hstar (Encode_bytes v)) as [Hraw Hreq].
  assert (Url.URL_String (Url.setRawQuery u (Url.Values_Encode v))
          = if String.eqb (Url.Values_Encode v) "" then base
            else base ++ String "?" (Url.Values_Encode v)) as Htext.
  { destruct (String.eqb_spec (Url.Values_Encode v) "") as [-> | Hqne];
      [reflexivity |].
    apply URL_String_query; assumption. }
  rewrite Htext, Hreq.
  injection H0 as <-.
  split.
  { destruct (negb (String.eqb (apiKey c) "")); exact Hraw. }
  eexists. split; [reflexivity |].
  assert (forall r : Http.Request,
             Http.URL
               (Http.Request_SetHeader
                  (if negb (String.eqb (apiKey c) "")
                   then Http.Request_SetHeader r "Authorization"
                          ("Bearer " ++ apiKey c)
                   else r) "User-Agent" (userAgent c))
             = Http.URL r) as Hurl.
  { intros r. destruct (negb (String.eqb (apiKey c) "")); reflexivity. }
  rewrite !Hurl. cbn [setURL Http.URL Url.setRawQuery Url.RawQuery].
  split.
  { destruct (negb (String.eqb (apiKey c) "")); reflexivity. }
  fold (Url.setRawQuery (Http.URL r0) (Url.Values_Encode v)).
  rewrite Query_Encode. cbv zeta. rewrite !Values_Get_grouped.
  destruct (listValues_Get o v Ev) as (H1 & H2 & H3 & H4 & H5 & H6).
  rewrite H1, H2, H3, H4, H5.
  repeat split; try reflexivity.
  - intros k Hk. rewrite Values_Get_grouped. exact (H6 k Hk).
  - intros Hnz Hint. destruct (Z.eqb_spec (ListOptions.Page o) 0);
      [contradiction | apply Atoi_Itoa, Hint].
  - intros Hnz Hint. destruct (Z.eqb_spec (ListOptions.PerPage o) 0);
      [contradiction | apply Atoi_Itoa, Hint].
Qed.

Lemma NewRequestWithQuery_encodes_options_witness :
  exists req,
    NewRequestWithQuery testClient "GET" "test?x=1" (OptsList (Some someOptions))
    = Ok req
    /\ Url.Values_Get (Url.Query (Http.URL req)) "page" = "2"
    /\ Url.Values_Get (Url.Query (Http.URL req)) "order" = "a b&c=d"
    /\ Url.Values_Get (Url.Query (Http.URL req)) "x" = "".
Proof.
  destruct (NewRequestWithQuery_encodes_options testClient "GET" "test?x=1"
              testTarget testListing someOptions)
    as (_ & req & Hreq & _ & H1 & _ & _ & H4 & _ & H6 & _).
  - vm_compute. reflexivity.
  - reflexivity.
  - discriminate.
  - reflexivity.
  - reflexivity.
  - reflexivity.
  - vm_compute. reflexivity.
  - exists req. split; [exact Hreq |]. split; [exact H1 |].
    split; [exact H4 |]. apply H6.
    unfold listKeys. cbn [In]. intuition discriminate.
Defined.

(** ** Well-formed Link headers *)

Lemma TrimRight_kept (f : ascii -> bool) (x : string) (c : ascii) :
  f c = false ->
  Strings.TrimRightFunc f (x ++ String c "") = x ++ String c "".
Proof.
  intros Hc. induction x as [| d x IH]; cbn [String.append Strings.TrimRightFunc].
  - rewrite Hc. reflexivity.
  - rewrite IH. destruct (x ++ String c "") eqn:E; [| reflexivity].
    destruct x; discriminate E.
Qed.

Lemma TrimRight_clean (f : ascii -> bool) (x : string) :
  allBytes (fun c => negb (f c)) x = true -> Strings.TrimRightFunc f x = x.
Proof.
  induction x as [| d x IH]; [reflexivity |].
  cbn [allBytes Strings.TrimRightFunc]. intros H.
  apply andb_true_iff in H as [Hd Hx]. rewrite (IH Hx).
  destruct x; [| reflexivity].
  destruct (f d); [discriminate | reflexivity].
Qed.

Lemma TrimRight_dropped (f : ascii -> bool) (x : string) (c : ascii) :
  f c = true -> allBytes (fun c => negb (f c)) x = true ->
  Strings.TrimRightFunc f (x ++ String c "") = x.
Proof.
  intros Hc. induction x as [| d x IH]; cbn [String.append Strings.TrimRightFunc].
  - rewrite Hc. reflexivity.
  - cbn [allBytes]. intros H. apply andb_true_iff in H as [Hd Hx].
    rewrite (IH Hx). destruct x; [| reflexivity].
    destruct (f d); [discriminate | reflexivity].
Qed.

Lemma TrimLeft_clean (f : ascii -> bool) (x y : string) :
  allBytes (fun c => negb (f c)) x = true -> x <> "" ->
  Strings.TrimLeftFunc f (x ++ y) = x ++ y.
Proof.
  destruct x as [| d x]; [congruence |]. cbn [allBytes String.append
                                              Strings.TrimLeftFunc].
  intros H _. apply andb_true_iff in H as [Hd _].
  destruct (f d); [discriminate | reflexivity].
Qed.

(** A text between two bytes of the cutset, with none inside. *)
Lemma Trim_wrapped (cutset : string) (a b : ascii) (x : string) :
  inSet cutset a = true -> inSet cutset b = true ->
  allBytes (fun c => negb (inSet cutset c)) x = true ->
  Strings.Trim (String a (x ++ String b "")) cutset = x.
Proof.
  intros Ha Hb Hx. unfold Strings.Trim. cbn [Strings.TrimLeftFunc]. rewrite Ha.
  destruct x as [| d x].
  - cbn [String.append Strings.TrimLeftFunc]. rewrite Hb. reflexivity.
  - rewrite (TrimLeft_clean _ _ _ Hx) by discriminate.
    apply TrimRight_dropped; assumption.
Qed.

Lemma allBytes_forall (p : ascii -> bool) (s : string) (c : ascii) :
  allBytes p s = true -> Strings.Contains s c = true -> p c = true.
Proof.
  induction s as [| d s IH]; [discriminate |].
  cbn [allBytes Strings.Contains]. intros H Hc.
  apply andb_true_iff in H as [Hd Hs].
  destruct (Ascii.eqb_spec d c) as [<- | _]; [exact Hd | exact (IH Hs Hc)].
Qed.

Lemma allBytes_without (p : ascii -> bool) (s : string) (c : ascii) :
  allBytes p s = true -> p c = false -> Strings.Contains s c = false.
Proof. apply allBytes_Contains. Qed.

(** An ASCII byte ends no white space of two or three bytes and
    starts none. *)
Lemma isSpace2_ascii (a c : ascii) :
  (code c <? 128)%N = true ->
  Strings.isSpace2 a c = false /\ Strings.isSpace2 c a = false.
Proof.
  intros H. apply N.ltb_lt in H. unfold Strings.isSpace2.
  assert ((code c =? 133)%N = false) as -> by (apply N.eqb_neq; lia).
  assert ((code c =? 160)%N = false) as -> by (apply N.eqb_neq; lia).
  assert ((code c =? 194)%N = false) as -> by (apply N.eqb_neq; lia).
  split; [apply andb_false_r | reflexivity].
Qed.

Lemma isSpace3_ascii (a d c : ascii) :
  (code c <? 128)%N = true ->
  Strings.isSpace3 a d c = false /\ Strings.isSpace3 c a d = false.
Proof.
  intros H. apply N.ltb_lt in H. unfold Strings.isSpace3.
  assert (between 128 138 c = false) as ->
      by (unfold between; apply andb_false_iff; left; apply N.leb_gt; lia).
  assert ((code c =? 128)%N = false) as -> by (apply N.eqb_neq; lia).
  assert ((code c =? 159)%N = false) as -> by (apply N.eqb_neq; lia).
  assert ((code c =? 168)%N = false) as -> by (apply N.eqb_neq; lia).
  assert ((code c =? 169)%N = false) as -> by (apply N.eqb_neq; lia).
  assert ((code c =? 175)%N = false) as -> by (apply N.eqb_neq; lia).
  assert ((code c =? 225)%N = false) as -> by (apply N.eqb_neq; lia).
  assert ((code c =? 226)%N = false) as -> by (apply N.eqb_neq; lia).
  assert ((code c =? 227)%N = false) as -> by (apply N.eqb_neq; lia).
  split; [now rewrite !andb_false_r | reflexivity].
Qed.

(** Nothing is trimmed before an ASCII byte that is no white space. *)
Lemma TrimLeftSpace_ascii (c : ascii) (r : string) :
  (code c <? 128)%N = true -> Strings.isSpace c = false ->
  Strings.TrimLeftSpace (String c r) = String c r.
Proof.
  intros Hc Hs. cbn [Strings.TrimLeftSpace]. rewrite Hs.
  destruct r as [| d [| e r2]]; try reflexivity.
  - rewrite (proj2 (isSpace2_ascii d c Hc)). reflexivity.
  - rewrite (proj2 (isSpace2_ascii d c Hc)),
      (proj2 (isSpace3_ascii d e c Hc)). reflexivity.
Qed.

(** A text that ends in such a byte is not white space only. *)
Lemma TrimLeftSpace_nonempty (c : ascii) :
  (code c <? 128)%N = true -> Strings.isSpace c = false ->
  forall (n : nat) (x : string),
    (String.length x <= n)%nat ->
    Strings.TrimLeftSpace (x ++ String c "") <> "".
Proof.
  intros Hc Hs.
  induction n as [| n IH]; intros x Hlen.
  - destruct x; [| cbn in Hlen; lia]. cbn [String.append].
    rewrite (TrimLeftSpace_ascii c "" Hc Hs). discriminate.
  - destruct x as [| a x1].
    { cbn [String.append]. rewrite (TrimLeftSpace_ascii c "" Hc Hs).
      discriminate. }
    cbn [String.length] in Hlen. cbn [String.append Strings.TrimLeftSpace].
    destruct (Strings.isSpace a); [apply IH; lia |].
    destruct x1 as [| d x2]; cbn [String.append String.length] in *.
    { rewrite (proj1 (isSpace2_ascii a c Hc)). discriminate. }
    destruct (Strings.isSpace2 a d); [apply IH; lia |].
    destruct x2 as [| e x3]; cbn [String.append String.length] in *.
    { rewrite (proj1 (isSpace3_ascii a d c Hc)). discriminate. }
    destruct (Strings.isSpace3 a d e); [apply IH; lia | discriminate].
Qed.

Lemma TrimRightSpace_kept (x : string) (c : ascii) :
  (code c <? 128)%N = true -> Strings.isSpace c = false ->
  Strings.TrimRightSpace (x ++ String c "") = x ++ String c "".
Proof.
  intros Hc Hs. induction x as [| d x IH].
  - cbn [String.append Strings.TrimRightSpace].
    rewrite (TrimLeftSpace_ascii c "" Hc Hs). reflexivity.
  - cbn [String.append Strings.TrimRightSpace]. rewrite IH.
    pose proof (TrimLeftSpace_nonempty c Hc Hs _ (String d x) (le_n _)) as Hne.
    cbn [String.append] in Hne.
    destruct (String.eqb_spec
                (Strings.TrimLeftSpace (String d (x ++ String c ""))) "");
      [contradiction | reflexivity].
Qed.

Lemma rel_text (name : string) :
  rel name = String "r" (String "e" (String "l" (String "="
               (String DQ (name ++ String DQ ""))))).
Proof. reflexivity. Qed.

Lemma pageEntry_wellformed (r : Response.t) (t name : string) (n : Z)
  (lead : string) :
  lead = "" \/ lead = " " ->
  wellFormed (t, name, n) ->
  pageEntry r (lead ++ linkEntry t name) = Returns (setPage r name n).
Proof.
  intros Hlead (Ht & Hn & u & Hu & Hpage).
  unfold linkTarget, relName in *.
  assert (Strings.TrimSpace (lead ++ linkEntry t name) = linkEntry t name) as Htrim.
  { unfold Strings.TrimSpace.
    assert (Strings.TrimLeftSpace (lead ++ linkEntry t name)
            = linkEntry t name) as ->.
    { unfold linkEntry.
      destruct Hlead as [-> | ->];
        cbn [String.append Strings.TrimLeftSpace];
        change (Strings.isSpace " ") with true; cbv iota;
        apply TrimLeftSpace_ascii; reflexivity. }
    unfold linkEntry. rewrite rel_text.
    change ("<" ++ t ++ ">; "
            ++ String "r" (String "e" (String "l" (String "="
                 (String DQ (name ++ String DQ ""))))))
      with ("<" ++ t ++ ">; rel=" ++ String DQ (name ++ String DQ "")).
    replace ("<" ++ t ++ ">; rel=" ++ String DQ (name ++ String DQ ""))
      with (("<" ++ t ++ ">; rel=" ++ String DQ name) ++ String DQ "").
    - apply TrimRightSpace_kept; reflexivity.
    - rewrite !append_assoc. cbn [String.append]. reflexivity. }
  assert (Strings.Split (linkEntry t name) ";"
          = [String "<" (t ++ ">"); String " " (rel name)]) as Hsplit.
  { unfold linkEntry. cbn [String.append Strings.Split].
    change (Ascii.eqb "<" ";") with false. cbv iota.
    change (t ++ String ">" (String ";" (String " " (rel name))))
      with (t ++ String ">" (String ";" (String " " (rel name)))).
    replace (t ++ String ">" (String ";" (String " " (rel name))))
      with ((t ++ ">") ++ String ";" (String " " (rel name)))
      by (rewrite append_assoc; reflexivity).
    rewrite Split_append_sep.
    rewrite (Split_without_sep (t ++ ">") ";").
    - rewrite (Split_without_sep (String " " (rel name)) ";"); [reflexivity |].
      rewrite rel_text. cbn [Strings.Contains Ascii.eqb Bool.eqb orb].
      change (Ascii.eqb " " ";") with false.
      change (Ascii.eqb "r" ";") with false.
      change (Ascii.eqb "e" ";") with false.
      change (Ascii.eqb "l" ";") with false.
      change (Ascii.eqb "=" ";") with false.
      change (Ascii.eqb DQ ";") with false. cbn [orb].
      rewrite Contains_append, (allBytes_Contains _ ";" _ Hn eq_refl).
      reflexivity.
    - rewrite Contains_append, (allBytes_Contains _ ";" _ Ht eq_refl).
      reflexivity. }
  assert (Strings.Trim (String DQ (name ++ String DQ "")) (String DQ "") = name)
    as Hq.
  { apply (Trim_wrapped (String DQ "") DQ DQ name eq_refl eq_refl).
    apply (allBytes_weaken (fun c => negb (inSet (",;=" ++ String DQ "") c)));
      [| exact Hn].
    intros c. each_byte c; cbn; congruence. }
  rewrite <- Hq at 2.
  apply (pageEntry_sets r _ (String "<" (t ++ ">")) (String " " (rel name))
           " rel" (String DQ (name ++ String DQ "")) [] u n).
  - rewrite Htrim. exact Hsplit.
  - rewrite (Trim_wrapped "<>" "<" ">" t eq_refl eq_refl).
    + exact Hu.
    + apply (allBytes_weaken (fun c => negb (inSet ",;<>" c))); [| exact Ht].
      intros c. each_byte c; cbn; congruence.
  - intros E. rewrite E in Hpage. discriminate Hpage.
  - exact Hpage.
  - rewrite rel_text.
    change (String " " (String "r" (String "e" (String "l" (String "="
              (String DQ (name ++ String DQ "")))))))
      with (" rel" ++ String "=" (String DQ (name ++ String DQ ""))).
    rewrite Split_append_sep.
    rewrite (Split_without_sep (String DQ (name ++ String DQ "")) "=");
      [reflexivity |].
    cbn [Strings.Contains]. change (Ascii.eqb DQ "=") with false. cbn [orb].
    rewrite Contains_append, (allBytes_Contains _ "=" _ Hn eq_refl). reflexivity.
Qed.

Lemma linkEntry_no_comma (t name : string) :
  linkTarget t = true -> relName name = true ->
  Strings.Contains (linkEntry t name) "," = false.
Proof.
  intros Ht Hn. unfold linkEntry, linkTarget, relName in *. rewrite rel_text.
  rewrite !Contains_append. cbn [Strings.Contains].
  rewrite Contains_append.
  rewrite (allBytes_Contains _ "," _ Ht eq_refl),
    (allBytes_Contains _ "," _ Hn eq_refl).
  reflexivity.
Qed.

Lemma Split_linkHeader (entries : list (string * string * Z)) :
  Forall wellFormed entries ->
  forall t name n lead,
    wellFormed (t, name, n) -> Strings.Contains lead "," = false ->
    Strings.Split (lead ++ linkHeader ((t, name, n) :: entries)) ","
    = (lead ++ linkEntry t name)
      :: map (fun e => let '(t, name, _) := e in " " ++ linkEntry t name) entries.
Proof.
  induction 1 as [| [[t' name'] n'] entries He _ IH];
    intros t name n lead (Ht & Hn & _) Hlead.
  - cbn [linkHeader map]. apply Split_without_sep.
    rewrite Contains_append, Hlead, (linkEntry_no_comma _ _ Ht Hn). reflexivity.
  - change (linkHeader ((t, name, n) :: (t', name', n') :: entries))
      with (linkEntry t name ++ ", " ++ linkHeader ((t', name', n') :: entries)).
    replace (lead ++ linkEntry t name ++ ", "
             ++ linkHeader ((t', name', n') :: entries))
      with ((lead ++ linkEntry t name)
            ++ String "," (" " ++ linkHeader ((t', name', n') :: entries)))
      by (rewrite !append_assoc; reflexivity).
    rewrite Split_append_sep, (IH t' name' n' " " He eq_refl).
    rewrite (Split_without_sep (lead ++ linkEntry t name));
      [reflexivity |].
    rewrite Contains_append, Hlead, (linkEntry_no_comma _ _ Ht Hn). reflexivity.
Qed.

Lemma pageEntries_wellformed (entries : list (string * string * Z)) :
  Forall wellFormed entries ->
  forall r,
    pageEntries r
      (map (fun e => let '(t, name, _) := e in " " ++ linkEntry t name) entries)
    = Returns (applyEntries r entries).
Proof.
  induction 1 as [| [[t name] n] entries He _ IH]; intros r; [reflexivity |].
  cbn [map pageEntries].
  rewrite (pageEntry_wellformed r t name n " " (or_intror eq_refl) He).
  cbn [obind]. apply IH.
Qed.

(** X9.  A Link header of well-formed entries is read entry by entry, from
    left to right: each entry sets the page field its relation names
    (an entry with another name sets none), so that of two entries
    for one relation the later one decides, and entries for different
    relations do not touch each other. *)
Theorem populatePageValues_reads_entries :
  forall (resp : Http.Response) (entries : list (string * string * Z)),
    Forall wellFormed entries ->
    Http.Header_Get (Http.Header_ resp) "Link" = linkHeader entries ->
    populatePageValues (envelope resp)
    = Returns (applyEntries (envelope resp) entries).
Proof.
  intros resp entries Hall Hlink. unfold populatePageValues.
  cbn [envelope Response.Response]. rewrite Hlink.
  destruct Hall as [| [[t name] n] entries He Hall]; [reflexivity |].
  assert (linkHeader ((t, name, n) :: entries) <> "") as Hne.
  { cbn [linkHeader]. destruct entries; discriminate. }
  destruct (String.eqb_spec (linkHeader ((t, name, n) :: entries)) "");
    [contradiction |].
  cbn [negb].
  pose proof (Split_linkHeader entries Hall t name n "" He eq_refl) as Hs.
  cbn [String.append] in Hs. rewrite Hs. cbn [pageEntries].
  rewrite (pageEntry_wellformed _ t name n "" (or_introl eq_refl) He).
  cbn [obind]. rewrite (pageEntries_wellformed entries Hall).
  reflexivity.
Qed.

Lemma populatePageValues_reads_entries_witness :
  populatePageValues
    (envelope (httpResponse 200 [("Link", linkHeader testLinks)] "[]"))
  = Returns
      (Response.mk (httpResponse 200 [("Link", linkHeader testLinks)] "[]")
         3 1 1 10 Rate.zero).
Proof.
  apply (populatePageValues_reads_entries
           (httpResponse 200 [("Link", linkHeader testLinks)] "[]") testLinks).
  - repeat constructor; eexists; (split; [vm_compute; reflexivity | reflexivity]).
  - reflexivity.
Defined.

Lemma encodedByte_linkTarget (c : ascii) :
  encodedByte c = true -> negb (inSet ",;<>" c) = true.
Proof.
  each_byte c; vm_compute; intros H; first [discriminate H | reflexivity].
Qed.

(** X10.  The pages of a listing come back: when a response names, in an
    entry of its Link header, a URL that carries a listing's options
    as the client itself encodes them, the page field of that entry's
    relation is the page of those options. *)
Theorem echoed_options_give_the_page :
  forall (resp : Http.Response) (base name : string) (u0 : Url.URL)
         (o : ListOptions.t) (v : Url.Values),
    Url.Parse base = Ok u0 ->
    plainText base -> base <> "" -> base <> "*" ->
    linkTarget base = true -> relName name = true ->
    query_Values (Some o) = Ok v ->
    ListOptions.Page o <> 0 -> isInt (ListOptions.Page o) ->
    Http.Header_Get (Http.Header_ resp) "Link"
    = linkEntry (base ++ String "?" (Url.Values_Encode v)) name ->
    populatePageValues (envelope resp)
    = Returns (setPage (envelope resp) name (ListOptions.Page o)).
Proof.
  intros resp base name u0 o v Hu Hplain Hne Hstar Hbase Hname Hv Hnz Hint Hlink.
  set (q := Url.Values_Encode v) in *.
  assert (Url.Values_Get (Url.Query (Url.setRawQuery u0 q)) "page"
          = Strconv.Itoa (ListOptions.Page o)) as Hpage.
  { unfold q. rewrite Query_Encode, Values_Get_grouped.
    destruct (listValues_Get o v Hv) as (-> & _).
    destruct (Z.eqb_spec (ListOptions.Page o) 0); [contradiction | reflexivity]. }
  pose proof (Atoi_Itoa _ Hint) as Hatoi.
  assert (q <> "") as Hq.
  { intros E. rewrite E in Hpage. cbn in Hpage. rewrite <- Hpage in Hatoi.
    discriminate Hatoi. }
  destruct (encoded_text q (Encode_bytes v)) as (Hq1 & Hq2 & Hq3).
  destruct (Parse_with_query base q u0 Hu Hplain Hne Hstar Hq Hq1 Hq2 Hq3)
    as (_ & _ & Hparse).
  assert (wellFormed (base ++ String "?" q, name, ListOptions.Page o)) as Hwf.
  { split; [| split; [exact Hname |]].
    - unfold linkTarget in *. rewrite allBytes_append. cbn [allBytes].
      rewrite Hbase.
      rewrite (allBytes_weaken encodedByte _ q encodedByte_linkTarget
                 (Encode_bytes v)).
      reflexivity.
    - exists (Url.setRawQuery u0 q). split; [exact Hparse |].
      rewrite Hpage. exact Hatoi. }
  unfold populatePageValues. cbn [envelope Response.Response]. rewrite Hlink.
  destruct (String.eqb_spec (linkEntry (base ++ String "?" q) name) "")
    as [E | _]; [discriminate E |].
  cbn [negb].
  destruct Hwf as (Ht & Hn & Hp).
  rewrite (Split_without_sep _ _ (linkEntry_no_comma _ _ Ht Hn)).
  cbn [pageEntries].
  rewrite (pageEntry_wellformed _ _ name (ListOptions.Page o) ""
             (or_introl eq_refl) (conj Ht (conj Hn Hp))).
  reflexivity.
Qed.

Lemma echoed_options_give_the_page_witness :
  populatePageValues
    (envelope
       (httpResponse 200
          [("Link",
            linkEntry
              "https://api.sevalla.com/applications?company_id=company-123&order=a+b%26c%3Dd&page=2&per_page=50&sort=name"
              "next")]
          "[]"))
  = Returns
      (setPage
         (envelope
            (httpResponse 200
               [("Link",
                 linkEntry
                   "https://api.sevalla.com/applications?company_id=company-123&order=a+b%26c%3Dd&page=2&per_page=50&sort=name"
                   "next")]
               "[]"))
         "next" 2).
Proof.
  refine (echoed_options_give_the_page _ "https://api.sevalla.com/applications"
            "next" _ someOptions _ _ _ _ _ _ _ _ _ _ _).
  - vm_compute. reflexivity.
  - split; reflexivity.
  - discriminate.
  - discriminate.
  - reflexivity.
  - reflexivity.
  - reflexivity.
  - discriminate.
  - unfold isInt. cbn. lia.
  - reflexivity.
Defined.

(** ** The services *)

Lemma library_Decode {T} (store : Json.value -> T -> T * option liberror)
  (body : string) (x : T) :
  snd (Decode (library store) body x) = None
  \/ exists e, snd (Decode (library store) body x) = Some (Foreign e).
Proof.
  unfold Decode, library. destruct (Json.readValue body) as [doc | e];
    cbn [snd]; [| eauto].
  destruct (snd (store doc x)) as [e |]; cbn [foreign]; eauto.
Qed.

Lemma Do_disciplined {T} (store : Json.value -> T -> T * option liberror)
  (c : Client) (req : Http.Request) (x : T) (v' : Dest T)
  (resp : option Response.t) (err : error) :
  Do (library store) c req (DestValue x) = Returns (resp, err, v') ->
  (resp = None -> exists e, err = Some (Foreign e))
  /\ (forall p, err = Some (APIError p) ->
        exists e env,
          p = Some e /\ resp = Some env
          /\ ErrorResponse.Response e = Some (Response.Response env)).
Proof.
  intros H. unfold Do in H.
  destruct (Http.Do (client c) req) as [resp0 | le].
  - destruct (populatePageValues (Response.mk resp0 0 0 0 0 Rate.zero))
      as [env | msg] eqn:Ep; cbn [obind] in H; [| discriminate].
    destruct (populatePageValues_frame _ _ Ep) as [Hr _]. cbn in Hr.
    destruct (success_dec resp0) as [Hs | Hs].
    + rewrite (CheckResponse_success _ Hs) in H.
      cbn [isNil negb andb] in H.
      destruct (negb (Http.StatusCode resp0 =? Http.StatusNoContent)).
      * pose proof (library_Decode store (Http.Body resp0) x) as Hd.
        destruct (Decode (library store) (Http.Body resp0) x) as [x' e'].
        cbn [snd] in Hd. injection H as <- <- <-.
        split; [discriminate |]. intros p E.
        destruct Hd as [-> | [[| pkg m] ->]]; discriminate E.
      * injection H as <- <- <-. split; discriminate.
    + destruct (CheckResponse_failure _ Hs) as (e & Hc & He).
      rewrite Hc in H. injection H as <- <- <-.
      split; [discriminate |]. intros p E. injection E as <-.
      exists e, env. rewrite Hr. auto.
  - injection H as <- <- <-. split; [eauto | discriminate].
Qed.

Lemma Get_like_disciplined {T X}
  (store : Json.value -> T -> T * option liberror)
  (c : Client) (built : result Http.Request) (x : T) (none : X)
  (out : Dest T -> X) :
  disciplined none
    (match built with
     | Err e => Returns (none, None, Some (Foreign e))
     | Ok req =>
         let! r :=
           Do (library store) c req
             (DestValue x) in
         match snd (fst r) with
         | Some err => Returns (none, fst (fst r), Some err)
         | None => Returns (out (snd r), fst (fst r), None)
         end
     end).
Proof.
  intros y resp err H. destruct built as [req | e].
  - destruct (Do (library store) c req (DestValue x))
      as [[[resp0 err0] v'] | msg] eqn:Ed;
      cbn [obind fst snd] in H; [| discriminate].
    destruct (Do_disciplined store c req x v' resp0 err0 Ed) as [Hnone Hapi].
    destruct err0 as [err0 |]; injection H as <- <- <-.
    + split; [reflexivity |]. split; [exact Hnone | exact Hapi].
    + split; [congruence |]. split; [exact Hnone | discriminate].
  - injection H as <- <- <-.
    split; [reflexivity |]. split; [eauto | discriminate].
Qed.

(** X11.  The methods that return a resource never return it together with
    an error: with an error the resource is nil (the empty text, for
    logs).  The response is nil only with an error of a package below
    (the request could not be built, or the transport failed), and an
    API error always comes with the response it was built from. *)
Theorem services_return_resource_or_error :
  forall (A : Type) (zero : A) (store : Json.value -> A -> A * option liberror)
         (c : Client) (id id' : string) (opts : option ListOptions.t)
         (lines : Z),
    disciplined None (ApplicationsService.List zero store c opts)
    /\ disciplined None (ApplicationsService.Get zero store c id)
    /\ disciplined "" (ApplicationsService.GetLogs c id lines)
    /\ disciplined None (ApplicationsService.GetEnvironmentVariables c id)
    /\ disciplined None (StaticSitesService.List zero store c opts)
    /\ disciplined None (StaticSitesService.Get zero store c id)
    /\ disciplined None (StaticSitesService.Deploy zero store c id)
    /\ disciplined "" (DeploymentsService.GetLogs c id)
    /\ disciplined None (PipelinesService.Get zero store c id)
    /\ disciplined "" (PipelinesService.GetRunLogs c id id').
Proof.
  intros A zero store c id id' opts lines.
  unfold ApplicationsService.List, ApplicationsService.Get,
    ApplicationsService.GetLogs, ApplicationsService.GetEnvironmentVariables,
    StaticSitesService.List, StaticSitesService.Get, StaticSitesService.Deploy,
    DeploymentsService.GetLogs, PipelinesService.Get, PipelinesService.GetRunLogs.
  cbv zeta.
  repeat apply conj;
    first
      [ apply (Get_like_disciplined _ c _ _ None (fun v => held v None))
      | apply (Get_like_disciplined _ c _ _ "" (fun v => held v ""))
      | apply (Get_like_disciplined _ c _ _ None (fun v => Some (held v zero))) ].
Qed.







(** ** Environment variables *)












(** ** Reading a text with a longer path *)

Lemma pathByte_kept (c : ascii) :
  pathByte c = true ->
  Url.shouldEscape c Url.encodePath = false
  /\ Ascii.eqb c "%" = false /\ Ascii.eqb c ":" = false
  /\ Ascii.eqb c "?" = false /\ Ascii.eqb c "#" = false
  /\ (code c <? 32)%N || (code c =? 127)%N = false.
Proof.
  each_byte c; vm_compute; intros H; first [discriminate H | repeat split].
Qed.

Lemma pathBytes_text (t : string) :
  allBytes pathByte t = true ->
  Strings.Contains t ":" = false /\ Strings.Contains t "?" = false
  /\ Strings.Contains t "#" = false /\ Url.stringContainsCTLByte t = false
  /\ Url.escape t Url.encodePath = t
  /\ Url.unescape Url.encodePath t = Ok t.
Proof.
  induction t as [| c t IH]; [repeat split |].
  cbn [allBytes]. intros H. apply andb_true_iff in H as [Hc Ht].
  destruct (IH Ht) as (H1 & H2 & H3 & H4 & H5 & H6).
  destruct (pathByte_kept c Hc) as (K1 & K2 & K3 & K4 & K5 & K6).
  cbn [Strings.Contains Url.stringContainsCTLByte Url.escape Url.unescape].
  rewrite H1, H2, H3, H4, H5, H6, K1, K2, K3, K4, K5.
  cbn [Url.hostMode andb orb]. rewrite !orb_false_r. repeat split. exact K6.
Qed.

Lemma escape_append (mode : Url.encoding) (a b : string) :
  Url.escape (a ++ b) mode = Url.escape a mode ++ Url.escape b mode.
Proof.
  induction a as [| c a IH]; [reflexivity |].
  cbn [String.append Url.escape]. rewrite IH.
  destruct (Url.shouldEscape c mode); [| reflexivity].
  destruct mode; try reflexivity. destruct (Ascii.eqb c " "); reflexivity.
Qed.

Lemma unescape_append (mode : Url.encoding) (t : string) (n : nat) :
  Url.unescape mode t = Ok t ->
  forall p x, (String.length p <= n)%nat ->
    Url.unescape mode p = Ok x ->
    Url.unescape mode (p ++ t) = Ok (x ++ t).
Proof.
  intros Ht. induction n as [| n IH]; intros p x Hn Hp.
  - destruct p; [| cbn in Hn; lia]. cbn in Hp. injection Hp as <-. exact Ht.
  - destruct p as [| c p]; [cbn in Hp; injection Hp as <-; exact Ht |].
    cbn [String.length] in Hn.
    cbn [String.append Url.unescape] in Hp |- *.
    destruct (Ascii.eqb c "%").
    + destruct p as [| h1 [| h2 p']]; try discriminate Hp.
      cbn [String.append].
      destruct (Url.ishex h1 && Url.ishex h2); [| discriminate Hp].
      match type of Hp with
      | (if ?b then _ else _) = _ => destruct b; [discriminate Hp |]
      end.
      destruct (Url.unescape mode p') as [x' |] eqn:E; [| discriminate Hp].
      injection Hp as <-.
      rewrite (IH p' x') by (cbn [String.length] in Hn; lia || exact E).
      reflexivity.
    + match type of Hp with
      | (if ?b then _ else _) = _ => destruct b; [discriminate Hp |]
      end.
      destruct (Url.unescape mode p) as [x' |] eqn:E; [| discriminate Hp].
      injection Hp as <-.
      rewrite (IH p x') by (lia || exact E). reflexivity.
Qed.

Lemma unescape_length (mode : Url.encoding) (n : nat) :
  forall p x, (String.length p <= n)%nat ->
    Url.unescape mode p = Ok x -> (String.length x <= String.length p)%nat.
Proof.
  induction n as [| n IH]; intros p x Hn Hp.
  - destruct p; [| cbn in Hn; lia]. cbn in Hp. injection Hp as <-. reflexivity.
  - destruct p as [| c p]; [cbn in Hp; injection Hp as <-; reflexivity |].
    cbn [String.length] in Hn. cbn [Url.unescape] in Hp.
    destruct (Ascii.eqb c "%").
    + destruct p as [| h1 [| h2 p']]; try discriminate Hp.
      destruct (Url.ishex h1 && Url.ishex h2); [| discriminate Hp].
      match type of Hp with
      | (if ?b then _ else _) = _ => destruct b; [discriminate Hp |]
      end.
      destruct (Url.unescape mode p') as [x' |] eqn:E; [| discriminate Hp].
      injection Hp as <-. cbn [String.length] in *.
      specialize (IH p' x' ltac:(lia) E). lia.
    + match type of Hp with
      | (if ?b then _ else _) = _ => destruct b; [discriminate Hp |]
      end.
      destruct (Url.unescape mode p) as [x' |] eqn:E; [| discriminate Hp].
      injection Hp as <-. cbn [String.length].
      specialize (IH p x' ltac:(lia) E). lia.
Qed.

Lemma setPath_extend (w u : Url.URL) (p t : string) :
  Url.setPath w p = Ok u -> Url.Path u <> "" -> Url.RawPath u = "" ->
  allBytes pathByte t = true ->
  Url.setPath w (p ++ t) = Ok (withPath u (Url.Path u ++ t))
  /\ (String.length (Url.Path u) <= String.length p)%nat.
Proof.
  intros H Hpath Hraw Ht. unfold Url.setPath in *.
  destruct (pathBytes_text t Ht) as (_ & _ & _ & _ & Hesc & Hun).
  destruct (Url.unescape Url.encodePath p) as [x |] eqn:E; [| discriminate].
  injection H as <-. cbn [Url.Path Url.RawPath] in *.
  rewrite (unescape_append Url.encodePath t (String.length p) Hun p x
             (le_n _) E).
  rewrite escape_append, Hesc.
  split; [| exact (unescape_length _ _ p x (le_n _) E)].
  destruct (String.eqb_spec p (Url.escape x Url.encodePath)) as [Ep | Hne].
  - rewrite <- Ep, String.eqb_refl. reflexivity.
  - subst p. cbn in E. injection E as <-. congruence.
Qed.

Lemma scanScheme_without_colon (t : string) :
  Strings.Contains t ":" = false -> forall first, Url.scanScheme first t = None.
Proof.
  induction t as [| c t IH]; intros H first; [reflexivity |].
  cbn [Strings.Contains] in H. apply orb_false_iff in H as [Hc Ht].
  cbn [Url.scanScheme]. rewrite (IH Ht), Hc.
  destruct (isAlpha c), (isDigit c || inSet "+-." c), first; reflexivity.
Qed.

Lemma scanScheme_extend (s t : string) :
  Strings.Contains t ":" = false ->
  forall first,
    Url.scanScheme first (s ++ t)
    = match Url.scanScheme first s with
      | Some (sch, rest) => Some (sch, rest ++ t)
      | None => None
      end.
Proof.
  intros Ht. induction s as [| c s IH]; intros first.
  - cbn [String.append Url.scanScheme]. apply scanScheme_without_colon, Ht.
  - cbn [String.append Url.scanScheme]. rewrite IH.
    destruct (Url.scanScheme false s) as [[sch rest] |];
      destruct (isAlpha c), (isDigit c || inSet "+-." c), (Ascii.eqb c ":"), first;
      reflexivity.
Qed.

Lemma getScheme_cases (c : ascii) (x : string) :
  Url.getScheme (String c x)
  = if Ascii.eqb c ":"
    then Err (LibError "net/url" "missing protocol scheme")
    else match Url.scanScheme true (String c x) with
         | Some (sch, rest) => Ok (sch, rest)
         | None => Ok ("", String c x)
         end.
Proof. unfold Url.getScheme. each_byte c; reflexivity. Qed.

Lemma getScheme_extend (s t sch rest : string) :
  s <> "" -> Strings.Contains t ":" = false ->
  Url.getScheme s = Ok (sch, rest) ->
  Url.getScheme (s ++ t) = Ok (sch, rest ++ t).
Proof.
  destruct s as [| c s]; [congruence |]. intros _ Ht.
  change (String c s ++ t) with (String c (s ++ t)).
  rewrite !getScheme_cases. destruct (Ascii.eqb c ":"); [discriminate |].
  change (String c (s ++ t)) with (String c s ++ t).
  rewrite (scanScheme_extend _ _ Ht).
  destruct (Url.scanScheme true (String c s)) as [[sch' rest'] |];
    intros H; injection H as <- <-; reflexivity.
Qed.

Lemma Cut_first_extend (a t : string) (sep c : ascii) :
  Strings.Contains t c = false ->
  Strings.Contains (fst (fst (Strings.Cut (a ++ t) sep))) c
  = Strings.Contains (fst (fst (Strings.Cut a sep))) c.
Proof.
  intros Ht. induction a as [| d a IH].
  - cbn [String.append Strings.Cut fst Strings.Contains].
    clear - Ht. induction t as [| e t IH]; [reflexivity |].
    cbn [Strings.Contains] in Ht. apply orb_false_iff in Ht as [He Ht].
    cbn [Strings.Cut]. destruct (Ascii.eqb e sep); [reflexivity |].
    specialize (IH Ht). destruct (Strings.Cut t sep) as [[b a] f].
    cbn [fst Strings.Contains] in *. rewrite He, IH. reflexivity.
  - cbn [String.append Strings.Cut]. destruct (Ascii.eqb d sep); [reflexivity |].
    destruct (Strings.Cut (a ++ t) sep) as [[b1 a1] f1].
    destruct (Strings.Cut a sep) as [[b2 a2] f2].
    cbn [fst Strings.Contains] in *. rewrite IH. reflexivity.
Qed.

Lemma Cut_found_extend (a t b c : string) (sep : ascii) :
  Strings.Cut a sep = (b, c, true) ->
  Strings.Cut (a ++ t) sep = (b, c ++ t, true).
Proof.
  revert b c. induction a as [| d a IH]; intros b c H; [discriminate |].
  cbn [String.append Strings.Cut] in *.
  destruct (Ascii.eqb d sep); [injection H as <- <-; reflexivity |].
  destruct (Strings.Cut a sep) as [[b' c'] f'].
  injection H as <- <- ->. rewrite (IH b' c' eq_refl). reflexivity.
Qed.

Lemma substring_from_2 (x : string) (a b : ascii) :
  String.substring 2 (String.length (String a (String b x)) - 2)
    (String a (String b x)) = x.
Proof.
  cbn [String.length Nat.sub String.substring]. rewrite Nat.sub_0_r.
  apply substring_all.
Qed.

Lemma prefix_empty (s : string) : String.prefix "" s = true.
Proof. destruct s; reflexivity. Qed.

Lemma HasPrefix_extend (p s t : string) :
  (String.length p <= String.length s)%nat ->
  Strings.HasPrefix (s ++ t) p = Strings.HasPrefix s p.
Proof.
  unfold Strings.HasPrefix. revert s.
  induction p as [| a p IH]; intros s H.
  - rewrite !prefix_empty. reflexivity.
  - destruct s as [| b s]; [cbn in H; lia |].
    cbn [String.append String.prefix]. destruct (ascii_dec a b); [| reflexivity].
    apply IH. cbn in H. lia.
Qed.

Lemma HasPrefix_length (p s : string) :
  Strings.HasPrefix s p = true -> (String.length p <= String.length s)%nat.
Proof.
  unfold Strings.HasPrefix. revert s.
  induction p as [| a p IH]; intros s H; [cbn; lia |].
  destruct s as [| b s]; [discriminate H |].
  cbn [String.prefix] in H. destruct (ascii_dec a b); [| discriminate H].
  specialize (IH s H). cbn. lia.
Qed.

Lemma setPath_empty (w u : Url.URL) :
  Url.setPath w "" = Ok u -> Url.Path u = "".
Proof. unfold Url.setPath. cbn. intros H. injection H as <-. reflexivity. Qed.

Lemma setPath_Host (w u : Url.URL) (p : string) :
  Url.setPath w p = Ok u -> Url.Host u = Url.Host w.
Proof.
  unfold Url.setPath. destruct (Url.unescape Url.encodePath p); [| discriminate].
  intros H. injection H as <-. reflexivity.
Qed.

Lemma parseAfterQuery_extend (scheme rest t : string) (u : Url.URL) :
  parseAfterQuery scheme rest "" false = Ok u ->
  Url.Path u <> "" -> Url.RawPath u = "" ->
  Url.Host u <> "" \/ (3 <= String.length (Url.Path u))%nat ->
  allBytes pathByte t = true ->
  parseAfterQuery scheme (rest ++ t) "" false
  = Ok (withPath u (Url.Path u ++ t)).
Proof.
  intros H Hpath Hraw Hlong Ht.
  destruct (pathBytes_text t Ht) as (Hcolon & _).
  unfold parseAfterQuery in *. cbv zeta in *.
  assert (rest <> "") as Hrest.
  { intros ->. cbn in H.
    destruct (negb (String.eqb scheme "")); cbn in H; injection H as <-;
      apply Hpath; reflexivity. }
  assert (1 <= String.length rest)%nat as Hl1
      by (destruct rest; [congruence | cbn; lia]).
  rewrite (HasPrefix_extend "/" rest t Hl1).
  destruct (negb (Strings.HasPrefix rest "/") && negb (String.eqb scheme "")).
  { injection H as <-. exfalso. apply Hpath. reflexivity. }
  rewrite (Cut_first_extend _ _ "/" ":" Hcolon).
  destruct (negb (Strings.HasPrefix rest "/")
            && Strings.Contains (fst (fst (Strings.Cut rest "/"))) ":");
    [discriminate |].
  destruct (Strings.HasPrefix rest "//") eqn:E2.
  - (* the text has an authority part *)
    pose proof (HasPrefix_length _ _ E2) as Hl2. cbn in Hl2.
    rewrite (HasPrefix_extend "//" rest t Hl2), E2.
    destruct rest as [| c1 [| c2 x]]; try (cbn in Hl2; lia).
    assert (x <> "") as Hx.
    { intros ->.
      assert (Strings.HasPrefix (String c1 (String c2 "")) "///" = false) as E3.
      { destruct (Strings.HasPrefix (String c1 (String c2 "")) "///") eqn:E;
          [| reflexivity].
        apply HasPrefix_length in E. cbn in E. lia. }
      rewrite E3, orb_true_r in H. cbn in H. injection H as <-.
      apply Hpath. reflexivity. }
    assert (3 <= String.length (String c1 (String c2 x)))%nat as Hl3
        by (destruct x; [congruence | cbn; lia]).
    rewrite (HasPrefix_extend "///" _ t Hl3).
    destruct ((negb (String.eqb scheme "")
               || negb (Strings.HasPrefix (String c1 (String c2 x)) "///"))
              && true).
    + change (String c1 (String c2 x) ++ t) with (String c1 (String c2 (x ++ t))).
      rewrite substring_from_2 in *.
      destruct (Strings.Cut x "/") as [[authority after] found] eqn:Ec.
      destruct found.
      * rewrite (Cut_found_extend _ t _ _ _ Ec).
        destruct (Url.parseAuthority authority) as [[user host] |];
          [| discriminate].
        apply (proj1 (setPath_extend _ _ _ t H Hpath Hraw Ht)).
      * exfalso.
        destruct (Url.parseAuthority authority) as [[user host] |];
          [| discriminate].
        apply Hpath. exact (setPath_empty _ _ H).
    + destruct (negb (String.eqb scheme "")
                && Strings.HasPrefix (String c1 (String c2 x)) "/");
        apply (proj1 (setPath_extend _ _ _ t H Hpath Hraw Ht)).
  - (* no authority part *)
    rewrite andb_false_r in H.
    assert (Url.setPath
              {| Url.Scheme := scheme; Url.Opaque := ""; Url.User := None;
                 Url.Host := ""; Url.Path := ""; Url.RawPath := "";
                 Url.OmitHost := negb (String.eqb scheme "")
                                 && Strings.HasPrefix rest "/";
                 Url.ForceQuery := false; Url.RawQuery := "";
                 Url.Fragment := ""; Url.RawFragment := "" |} rest = Ok u) as H'
        by (destruct (negb (String.eqb scheme "") && Strings.HasPrefix rest "/");
            exact H).
    assert (3 <= String.length rest)%nat as Hl3.
    { destruct Hlong as [Hh | Hl].
      - exfalso. apply Hh. exact (setPath_Host _ _ _ H').
      - pose proof (setPath_extend _ _ _ t H' Hpath Hraw Ht) as [_ Hle]. lia. }
    rewrite (HasPrefix_extend "//" rest t) by (cbn; lia).
    rewrite E2, andb_false_r.
    destruct (negb (String.eqb scheme "") && Strings.HasPrefix rest "/");
      apply (proj1 (setPath_extend _ _ _ t H Hpath Hraw Ht)).
Qed.

Lemma getScheme_rest (s sch rest : string) (c : ascii) :
  Url.getScheme s = Ok (sch, rest) ->
  Strings.Contains s c = false -> Strings.Contains rest c = false.
Proof.
  intros Eg Hc.
  assert (forall x first sch rest,
             Url.scanScheme first x = Some (sch, rest) ->
             Strings.Contains x c = false ->
             Strings.Contains rest c = false) as Hscan.
  { clear. induction x as [| d x IH]; intros first sch rest H Hc;
      [discriminate |].
    cbn [Strings.Contains] in Hc. apply orb_false_iff in Hc as [_ Hc].
    cbn [Url.scanScheme] in H.
    destruct (Url.scanScheme false x) as [[sch' rest'] |] eqn:E.
    - specialize (IH _ _ _ E Hc).
      destruct (isAlpha d), (isDigit d || inSet "+-." d), (Ascii.eqb d ":"),
        first; try discriminate; injection H as <- <-; assumption.
    - destruct (isAlpha d), (isDigit d || inSet "+-." d), (Ascii.eqb d ":"),
        first; try discriminate; injection H as <- <-; assumption. }
  destruct s as [| d x]; [cbn in Eg; injection Eg as <- <-; reflexivity |].
  rewrite getScheme_cases in Eg.
  destruct (Ascii.eqb d ":"); [discriminate |].
  destruct (Url.scanScheme true (String d x)) as [[sch' rest'] |] eqn:Es;
    injection Eg as <- <-; [eapply Hscan; eassumption | exact Hc].
Qed.

Lemma parse_plain (s : string) :
  plainText s ->
  Url.parse s
  = if Url.stringContainsCTLByte s then
      Err (LibError "net/url" "invalid control character in URL")
    else if String.eqb s "*" then Ok (withPath Url.zero "*")
    else
      match Url.getScheme s with
      | Err e => Err e
      | Ok (scheme0, rest0) =>
          parseAfterQuery (Strings.ToLower scheme0) rest0 "" false
      end.
Proof.
  intros [Hq _]. rewrite parse_unfold.
  destruct (Url.stringContainsCTLByte s); [reflexivity |].
  destruct (String.eqb s "*"); [reflexivity |].
  destruct (Url.getScheme s) as [[scheme0 rest0] | e] eqn:Eg; [| reflexivity].
  pose proof (getScheme_rest _ _ _ "?" Eg Hq) as Hr.
  rewrite (HasSuffix_without _ _ Hr), (Cut_without_sep _ _ Hr). reflexivity.
Qed.

Lemma Parse_plain (s : string) : plainText s -> Url.Parse s = Url.parse s.
Proof.
  intros [_ Hh]. unfold Url.Parse. rewrite (Cut_without_sep _ _ Hh).
  destruct (Url.parse s); reflexivity.
Qed.

(** More path after a text that ends in its path is more path in the
    URL read from it. *)
Lemma Parse_extend_path (s t : string) (u : Url.URL) :
  Url.Parse s = Ok u -> plainText s ->
  Url.Path u <> "" -> Url.RawPath u = "" ->
  Url.Host u <> "" \/ (3 <= String.length (Url.Path u))%nat ->
  allBytes pathByte t = true ->
  Url.Parse (s ++ t) = Ok (withPath u (Url.Path u ++ t)).
Proof.
  intros Hp Hplain Hpath Hraw Hlong Ht.
  destruct (pathBytes_text t Ht) as (Hcolon & Hq & Hh & Hctl & _).
  assert (plainText (s ++ t)) as Hplain'
      by (apply plainText_append; [exact Hplain | split; assumption]).
  rewrite (Parse_plain _ Hplain) in Hp. rewrite (Parse_plain _ Hplain').
  rewrite (parse_plain _ Hplain) in Hp. rewrite (parse_plain _ Hplain').
  rewrite CTL_append, Hctl, orb_false_r.
  destruct (Url.stringContainsCTLByte s); [discriminate |].
  destruct (String.eqb_spec s "*") as [-> | Hstar].
  { injection Hp as <-. exfalso. destruct Hlong as [H | H]; cbn in H;
      [congruence | lia]. }
  assert (s <> "") as Hne.
  { intros ->. cbn in Hp. injection Hp as <-. apply Hpath. reflexivity. }
  destruct (String.eqb_spec (s ++ t) "*") as [E | _].
  { exfalso. destruct s as [| c [| d r]]; try congruence.
    - injection E as -> _. congruence.
    - discriminate E. }
  destruct (Url.getScheme s) as [[scheme0 rest0] | e] eqn:Eg; [| discriminate].
  rewrite (getScheme_extend _ _ _ _ Hne Hcolon Eg).
  apply parseAfterQuery_extend; assumption.
Qed.

Lemma HasPrefix_twice (p : string) :
  Strings.HasPrefix p "/" = false -> Strings.HasPrefix p "//" = false.
Proof.
  unfold Strings.HasPrefix. destruct p as [| c x]; [reflexivity |].
  cbn [String.prefix]. destruct (ascii_dec "/" c); [| reflexivity].
  rewrite prefix_empty. discriminate.
Qed.

Lemma HasPrefix_head (c : ascii) (x : string) :
  Strings.HasPrefix (String c x) "/" = Ascii.eqb c "/".
Proof.
  unfold Strings.HasPrefix. cbn [String.prefix]. rewrite prefix_empty.
  destruct (ascii_dec "/" c) as [<- | Hn]; [reflexivity |].
  symmetry. apply Ascii.eqb_neq. congruence.
Qed.

(** A relative path reads as a reference that is only this path. *)
Lemma Parse_relative (p : string) :
  allBytes pathByte p = true -> p <> "" ->
  Strings.HasPrefix p "/" = false ->
  Url.Parse p = Ok (reference p).
Proof.
  intros Hp Hne Hrel.
  destruct (pathBytes_text p Hp) as (Hcolon & Hq & Hh & Hctl & Hesc & Hun).
  assert (plainText p) as Hplain by (split; assumption).
  rewrite (Parse_plain _ Hplain), (parse_plain _ Hplain), Hctl.
  destruct (String.eqb_spec p "*") as [-> | _]; [discriminate Hp |].
  destruct p as [| c x]; [congruence |].
  rewrite getScheme_cases.
  cbn [Strings.Contains] in Hcolon. apply orb_false_iff in Hcolon as [Hc Hx].
  rewrite Hc.
  assert (Strings.Contains (String c x) ":" = false) as Hcolon
      by (cbn [Strings.Contains]; rewrite Hc, Hx; reflexivity).
  rewrite (scanScheme_without_colon _ Hcolon).
  change (Strings.ToLower "") with "".
  unfold parseAfterQuery. cbv zeta. rewrite Hrel.
  change (String.eqb "" "") with true. cbn [negb andb orb].
  pose proof (Cut_first_extend "" (String c x) "/" ":" Hcolon) as Hfirst.
  cbn [String.append] in Hfirst. rewrite Hfirst.
  cbn [Strings.Cut fst Strings.Contains].
  rewrite (HasPrefix_twice _ Hrel). rewrite andb_false_r.
  unfold Url.setPath. rewrite Hun, Hesc, String.eqb_refl. reflexivity.
Qed.

(** ** Requests under a base URL that ends in a slash *)

Lemma HasSuffix_slash (s : string) (c : ascii) :
  Strings.HasSuffix s c = true -> exists b, s = b ++ String c "".
Proof.
  unfold Strings.HasSuffix. induction s as [| d s IH]; [discriminate |].
  cbn [String.length]. destruct s as [| e s].
  - cbn. intros H. apply Ascii.eqb_eq in H as ->. exists "". reflexivity.
  - cbn [String.length String.get] in *. intros H.
    destruct (IH H) as [b Hb]. exists (String d b).
    cbn [String.append]. rewrite <- Hb. reflexivity.
Qed.

Lemma EscapedPath_pathBytes (u : Url.URL) :
  Url.RawPath u = "" -> allBytes pathByte (Url.Path u) = true ->
  Url.EscapedPath u = Url.Path u.
Proof.
  intros Hraw Hp. unfold Url.EscapedPath. rewrite Hraw. cbn [String.eqb negb andb].
  destruct (pathBytes_text _ Hp) as (_ & _ & _ & _ & Hesc & _).
  destruct (String.eqb_spec (Url.Path u) "*") as [E | _]; [| exact Hesc].
  rewrite E. reflexivity.
Qed.

Lemma clean_joined (b p : string) :
  clean (b ++ "/") -> clean p -> clean ((b ++ "/") ++ p).
Proof.
  unfold clean. rewrite append_assoc. cbn [String.append].
  rewrite !Split_append_sep. intros Hb Hp.
  apply List.Forall_app in Hb as [Hb _].
  apply List.Forall_app. split; assumption.
Qed.

Lemma root_path (B : Url.URL) : Url.Path B <> "" -> root B = Url.Path B.
Proof.
  intros H. unfold root.
  destruct (String.eqb_spec (Url.Path B) ""); [contradiction | reflexivity].
Qed.

Lemma directory_path (B : Url.URL) :
  directory B -> Url.Path B <> "" ->
  exists b, Url.Path B = String "/" b
            /\ exists d, Url.Path B = d ++ "/".
Proof.
  intros (_ & _ & _ & _ & _ & _ & _ & _ & Hpre & Hsuf & _) Hroot.
  rewrite (root_path B Hroot) in *.
  destruct (HasSuffix_slash _ _ Hsuf) as [d Hd].
  destruct (Url.Path B) as [| c b] eqn:E; [discriminate Hpre |].
  rewrite HasPrefix_head in Hpre. apply Ascii.eqb_eq in Hpre as ->.
  eauto.
Qed.

(** The reference is resolved to the path [resolvePath] gives. *)
Lemma ResolveReference_to (B : Url.URL) (p q r : string) :
  directory B -> allBytes pathByte p = true -> p <> "" ->
  Url.resolvePath (Url.Path B) p = r -> allBytes pathByte r = true ->
  Url.ResolveReference B (Url.setRawQuery (reference p) q)
  = Url.setRawQuery (withPath B r) q.
Proof.
  intros HB Hp Hne Hr Hall.
  destruct HB as (_ & _ & _ & Hop & _ & _ & Hpath & _ & _ & _ & Hraw & Homit
                  & Hforce & Hquery & Hfrag & Hrawfrag).
  assert (allBytes pathByte (Url.Path B) = true) as Hpath'.
  { unfold root in Hpath.
    destruct (String.eqb_spec (Url.Path B) "") as [-> |]; [reflexivity | exact Hpath]. }
  unfold Url.ResolveReference.
  cbn [reference withPath Url.setRawQuery Url.zero Url.Scheme Url.Opaque Url.User
       Url.Host Url.Path Url.RawPath Url.OmitHost Url.ForceQuery Url.RawQuery
       Url.Fragment Url.RawFragment String.eqb negb orb andb].
  destruct p as [| c x]; [congruence |].
  cbn [String.eqb andb]. cbv zeta.
  cbn [Url.Scheme Url.Opaque Url.User Url.Host Url.Path Url.RawPath
       Url.OmitHost Url.ForceQuery Url.RawQuery Url.Fragment Url.RawFragment].
  rewrite (EscapedPath_pathBytes B Hraw Hpath').
  rewrite (EscapedPath_pathBytes (Url.setRawQuery (reference (String c x)) q)
             eq_refl Hp).
  cbn [reference withPath Url.setRawQuery Url.Path]. rewrite Hr.
  destruct (pathBytes_text _ Hall) as (_ & _ & _ & _ & Hesc & Hun).
  unfold Url.setPath_ignore, Url.setPath. rewrite Hun, Hesc, String.eqb_refl.
  unfold Url.setRawQuery, withPath.
  cbn [Url.Scheme Url.Opaque Url.User Url.Host Url.Path Url.RawPath
       Url.OmitHost Url.ForceQuery Url.RawQuery Url.Fragment Url.RawFragment].
  rewrite Hop, Homit, Hforce, Hfrag, Hrawfrag. reflexivity.
Qed.

Lemma resolvePath_relative (B : Url.URL) (p : string) :
  directory B -> relative p ->
  Url.resolvePath (Url.Path B) p = root B ++ p.
Proof.
  intros HB (Hp & Hne & Hrel & Hclean).
  destruct p as [| c x]; [congruence |]. rewrite HasPrefix_head in Hrel.
  destruct (String.eqb_spec (Url.Path B) "") as [E | Hroot].
  - unfold root. rewrite E. cbn [String.eqb].
    assert (merged "" (String c x) = String c x) as Hm
        by (unfold merged; rewrite Hrel; reflexivity).
    rewrite (resolvePath_clean_unrooted "" (String c x) c x); rewrite ?Hm.
    + reflexivity.
    + reflexivity.
    + intros ->. discriminate Hrel.
    + exact Hclean.
  - destruct (directory_path B HB Hroot) as (b & Hb & d & Hd).
    destruct HB as (_ & _ & _ & _ & _ & _ & _ & Hcl & _).
    rewrite (root_path B Hroot) in *.
    assert (merged (Url.Path B) (String c x) = Url.Path B ++ String c x) as Hm.
    { unfold merged. rewrite Hrel, Hd, throughLast_slash_end. reflexivity. }
    rewrite <- Hm. apply (resolvePath_clean_rooted _ _ (b ++ String c x)).
    + rewrite Hm, Hb. reflexivity.
    + rewrite Hm, Hd.
      apply clean_joined; [rewrite <- Hd; exact Hcl | exact Hclean].
Qed.

Lemma ResolveReference_relative (B : Url.URL) (p q : string) :
  directory B -> relative p ->
  Url.ResolveReference B (Url.setRawQuery (reference p) q)
  = Url.setRawQuery (withPath B (root B ++ p)) q.
Proof.
  intros HB Hrel. pose proof Hrel as (Hp & Hne & _).
  apply ResolveReference_to; try assumption.
  - apply resolvePath_relative; assumption.
  - destruct HB as (_ & _ & _ & _ & _ & _ & Hpath & _).
    rewrite allBytes_append, Hpath, Hp. reflexivity.
Qed.

(** More path in a URL is more text. *)
Lemma URL_String_extend (B : Url.URL) (t : string) :
  directory B -> Url.Path B <> "" -> allBytes pathByte t = true ->
  Url.URL_String (withPath B (Url.Path B ++ t)) = Url.URL_String B ++ t.
Proof.
  intros HB Hroot Ht.
  destruct (directory_path B HB Hroot) as (b & Hb & _).
  destruct HB as (_ & _ & _ & Hop & _ & _ & Hpath & _ & _ & _ & Hraw & _
                  & Hforce & Hquery & Hfrag & _).
  rewrite (root_path B Hroot) in *.
  assert (allBytes pathByte (Url.Path B ++ t) = true) as Hall
      by (rewrite allBytes_append, Hpath, Ht; reflexivity).
  unfold Url.URL_String.
  rewrite (EscapedPath_pathBytes B Hraw Hpath).
  rewrite (EscapedPath_pathBytes (withPath B (Url.Path B ++ t)) eq_refl Hall).
  cbn [withPath Url.Scheme Url.Opaque Url.User Url.Host Url.Path Url.RawPath
       Url.OmitHost Url.ForceQuery Url.RawQuery Url.Fragment Url.RawFragment].
  rewrite Hop, Hforce, Hquery, Hfrag, Hb.
  cbn [String.eqb negb orb andb String.append Ascii.eqb Strings.Cut fst
       Strings.Contains].
  change (Ascii.eqb "/" "/") with true.
  cbn [negb andb Strings.Cut fst Strings.Contains]. cbv zeta.
  rewrite !andb_false_r, !append_nil_r, !append_assoc.
  cbn [String.append]. rewrite ?append_assoc. reflexivity.
Qed.

(** ** A base URL without a path *)

Lemma Cut_not_found (s b a : string) (sep : ascii) :
  Strings.Cut s sep = (b, a, false) ->
  b = s /\ a = "" /\ Strings.Contains s sep = false.
Proof.
  revert b a. induction s as [| c s IH]; intros b a H.
  - injection H as <- <-. repeat split.
  - cbn [Strings.Cut Strings.Contains] in *.
    destruct (Ascii.eqb c sep); [discriminate |].
    destruct (Strings.Cut s sep) as [[b' a'] f']. injection H as <- <- ->.
    destruct (IH _ _ eq_refl) as (-> & -> & ->). repeat split.
Qed.

Lemma Cut_sep_extend (x t : string) (sep : ascii) :
  Strings.Contains x sep = false ->
  Strings.Cut (x ++ String sep t) sep = (x, t, true).
Proof.
  induction x as [| c x IH]; cbn [String.append Strings.Cut Strings.Contains].
  - rewrite Ascii.eqb_refl. reflexivity.
  - intros H. apply orb_false_iff in H as [Hc Hx].
    rewrite Hc, (IH Hx). reflexivity.
Qed.

Lemma unescape_nonempty (mode : Url.encoding) (c : ascii) (r x : string) :
  Url.unescape mode (String c r) = Ok x -> x <> "".
Proof.
  cbn [Url.unescape]. destruct (Ascii.eqb c "%").
  - destruct r as [| h1 [| h2 r']]; try discriminate.
    destruct (Url.ishex h1 && Url.ishex h2); [| discriminate].
    match goal with |- (if ?b then _ else _) = _ -> _ => destruct b end;
      [discriminate |].
    destruct (Url.unescape mode r'); [| discriminate].
    intros H. injection H as <-. discriminate.
  - match goal with |- (if ?b then _ else _) = _ -> _ => destruct b end;
      [discriminate |].
    destruct (Url.unescape mode r); [| discriminate].
    intros H. injection H as <-. discriminate.
Qed.

Lemma setPath_Path (w u : Url.URL) (c : ascii) (r : string) :
  Url.setPath w (String c r) = Ok u -> Url.Path u <> "".
Proof.
  unfold Url.setPath.
  destruct (Url.unescape Url.encodePath (String c r)) as [x |] eqn:E;
    [| discriminate].
  intros H. injection H as <-. exact (unescape_nonempty _ _ _ _ E).
Qed.

Lemma parseAfterQuery_first_slash (scheme rest t : string) (u : Url.URL) :
  parseAfterQuery scheme rest "" false = Ok u ->
  Url.Path u = "" -> Url.Host u <> "" ->
  allBytes pathByte t = true ->
  parseAfterQuery scheme (rest ++ String "/" t) "" false
  = Ok (withPath u (String "/" t)).
Proof.
  intros H Hpath Hhost Ht.
  assert (allBytes pathByte (String "/" t) = true) as Ht' by exact Ht.
  destruct (pathBytes_text _ Ht') as (_ & _ & _ & _ & Hesc & Hun).
  unfold parseAfterQuery in *. cbv zeta in *.
  destruct (negb (Strings.HasPrefix rest "/") && negb (String.eqb scheme ""))
    eqn:Eo.
  { injection H as <-. exfalso. apply Hhost. reflexivity. }
  destruct (negb (Strings.HasPrefix rest "/")
            && Strings.Contains (fst (fst (Strings.Cut rest "/"))) ":");
    [discriminate |].
  destruct (Strings.HasPrefix rest "//") eqn:E2.
  - pose proof (HasPrefix_length _ _ E2) as Hl2. cbn in Hl2.
    destruct rest as [| c1 [| c2 x]]; try (cbn in Hl2; lia).
    assert (Strings.HasPrefix (String c1 (String c2 x)) "/" = true) as E1.
    { rewrite HasPrefix_head. unfold Strings.HasPrefix in E2.
      cbn [String.prefix] in E2.
      destruct (ascii_dec "/" c1) as [<- |]; [reflexivity | discriminate E2]. }
    rewrite (HasPrefix_extend "/" _ (String "/" t)) by (cbn; lia).
    rewrite (HasPrefix_extend "//" _ (String "/" t)) by (cbn; lia).
    rewrite E1, E2. cbn [negb andb].
    destruct ((negb (String.eqb scheme "")
               || negb (Strings.HasPrefix (String c1 (String c2 x)) "///"))
              && true) eqn:Ea.
    + rewrite substring_from_2 in H.
      destruct (Strings.Cut x "/") as [[authority after] found] eqn:Ec.
      destruct (Url.parseAuthority authority) as [[user host] |] eqn:Eauth;
        [| discriminate].
      destruct found.
      { exfalso. exact (setPath_Path _ _ _ _ H Hpath). }
      apply Cut_not_found in Ec as (-> & -> & Hx).
      assert (x <> "") as Hxne.
      { intros ->. vm_compute in Eauth. injection Eauth as <- <-.
        unfold Url.setPath in H. cbn in H. injection H as <-.
        apply Hhost. reflexivity. }
      rewrite (HasPrefix_extend "///" _ (String "/" t))
        by (destruct x; [congruence | cbn; lia]).
      rewrite Ea.
      change (String c1 (String c2 x) ++ String "/" t)
        with (String c1 (String c2 (x ++ String "/" t))).
      rewrite substring_from_2, (Cut_sep_extend _ _ _ Hx), Eauth.
      unfold Url.setPath in *. cbn in H. injection H as <-.
      rewrite Hun, Hesc, String.eqb_refl. reflexivity.
    + exfalso. apply Hhost.
      match type of H with (if ?b then _ else _) = _ => destruct b end;
        rewrite (setPath_Host _ _ _ H); reflexivity.
  - exfalso. apply Hhost. rewrite andb_false_r in H.
    destruct (negb (String.eqb scheme "") && Strings.HasPrefix rest "/");
      rewrite (setPath_Host _ _ _ H); reflexivity.
Qed.

(** A path after a text without one is the path of the URL read from
    it. *)
Lemma Parse_first_slash (s t : string) (u : Url.URL) :
  Url.Parse s = Ok u -> plainText s ->
  Url.Path u = "" -> Url.Host u <> "" ->
  allBytes pathByte t = true ->
  Url.Parse (s ++ String "/" t) = Ok (withPath u (String "/" t)).
Proof.
  intros Hp Hplain Hpath Hhost Ht.
  assert (allBytes pathByte (String "/" t) = true) as Ht' by exact Ht.
  destruct (pathBytes_text _ Ht') as (Hcolon & Hq & Hh & Hctl & _).
  assert (plainText (s ++ String "/" t)) as Hplain'
      by (apply plainText_append; [exact Hplain | split; assumption]).
  rewrite (Parse_plain _ Hplain) in Hp. rewrite (Parse_plain _ Hplain').
  rewrite (parse_plain _ Hplain) in Hp. rewrite (parse_plain _ Hplain').
  rewrite CTL_append, Hctl, orb_false_r.
  destruct (Url.stringContainsCTLByte s); [discriminate |].
  destruct (String.eqb_spec s "*") as [-> | Hstar].
  { injection Hp as <-. discriminate Hpath. }
  assert (s <> "") as Hne.
  { intros ->. cbn in Hp. injection Hp as <-. apply Hhost. reflexivity. }
  destruct (String.eqb_spec (s ++ String "/" t) "*") as [E | _].
  { exfalso. destruct s as [| c [| d r]]; try congruence; discriminate E. }
  destruct (Url.getScheme s) as [[scheme0 rest0] | e] eqn:Eg; [| discriminate].
  rewrite (getScheme_extend _ _ _ _ Hne Hcolon Eg).
  apply parseAfterQuery_first_slash; assumption.
Qed.


Lemma withPath_twice (B : Url.URL) (r x : string) :
  withPath (withPath B r) x = withPath B x.
Proof. reflexivity. Qed.

Lemma withPath_same (B : Url.URL) :
  Url.RawPath B = "" -> withPath B (Url.Path B) = B.
Proof. destruct B. cbn. intros ->. reflexivity. Qed.

Lemma URL_String_root (B : Url.URL) :
  directory B -> Url.Path B = "" ->
  Url.URL_String (withPath B "/") = Url.URL_String B ++ "/".
Proof.
  intros (_ & _ & _ & Hop & Hhost & _ & _ & _ & _ & _ & Hraw & _
          & Hforce & Hquery & Hfrag & _) Hpath.
  unfold Url.URL_String.
  rewrite (EscapedPath_pathBytes (withPath B "/") eq_refl eq_refl).
  rewrite (EscapedPath_pathBytes B Hraw) by (rewrite Hpath; reflexivity).
  cbn [withPath Url.Scheme Url.Opaque Url.User Url.Host Url.Path Url.RawPath
       Url.OmitHost Url.ForceQuery Url.RawQuery Url.Fragment Url.RawFragment].
  rewrite Hop, Hforce, Hquery, Hfrag, Hpath.
  destruct (String.eqb_spec (Url.Host B) "") as [| _]; [contradiction |].
  cbn [String.eqb negb orb andb String.append Ascii.eqb Strings.Cut fst
       Strings.Contains].
  change (Ascii.eqb "/" "/") with true.
  cbn [negb andb Strings.Cut fst Strings.Contains]. cbv zeta.
  rewrite !orb_true_r, !andb_false_r, !append_nil_r, ?append_assoc.
  reflexivity.
Qed.

(** A base URL without a path stands for its root. *)
Lemma directory_root (B : Url.URL) :
  directory B ->
  directory (withPath B (root B))
  /\ Url.URL_String (withPath B (root B))
     = Url.URL_String B ++ (if String.eqb (Url.Path B) "" then "/" else "").
Proof.
  intros HB. unfold root.
  destruct (String.eqb_spec (Url.Path B) "") as [E | Hne].
  - pose proof (URL_String_root B HB E) as Htext. split; [| exact Htext].
    pose proof HB as (Hparse & Hs & Hsb & Hop & Hhost & Hport & _ & _ & _ & _
                      & Hraw & Homit & Hforce & Hquery & Hfrag & Hrawfrag).
    unfold directory.
    cbn [withPath Url.Scheme Url.Opaque Url.User Url.Host Url.Path Url.RawPath
         Url.OmitHost Url.ForceQuery Url.RawQuery Url.Fragment Url.RawFragment].
    rewrite Htext.
    rewrite (Parse_first_slash _ "" B Hparse
               (URL_String_plain B Hop Hsb Hquery Hforce Hfrag) E Hhost eq_refl).
    repeat apply conj; try assumption; try reflexivity.
    unfold clean, root. cbn. repeat constructor; discriminate.
  - pose proof HB as (_ & _ & _ & _ & _ & _ & _ & _ & _ & _ & Hraw & _).
    rewrite (withPath_same B Hraw), append_nil_r. split; [exact HB | reflexivity].
Qed.

Lemma validMethod_named (m : string) :
  Http.validMethod m = true -> (if String.eqb m "" then "GET" else m) = m.
Proof.
  unfold Http.validMethod. destruct (String.eqb m ""); [discriminate | reflexivity].
Qed.

Lemma Parse_target (p q : string) (u : Url.URL) :
  Url.Parse p = Ok u -> plainText p -> p <> "" -> p <> "*" ->
  allBytes encodedByte q = true ->
  Url.Parse (target p q) = Ok (Url.setRawQuery u q).
Proof.
  intros Hp Hplain Hne Hstar Hq. unfold target.
  destruct (encoded_text q Hq) as (Hq1 & Hq2 & Hq3).
  destruct (String.eqb_spec q "") as [-> | Hqne].
  - destruct (Parse_with_query p "x" u Hp Hplain Hne Hstar) as (Hraw & _ & _);
      try reflexivity; [discriminate |].
    rewrite <- Hraw, setRawQuery_same. exact Hp.
  - apply (Parse_with_query p q u Hp Hplain Hne Hstar Hqne Hq1 Hq2 Hq3).
Qed.

Lemma URL_String_target (u : Url.URL) (q : string) :
  Url.Fragment u = "" -> Url.ForceQuery u = false -> Url.RawQuery u = "" ->
  Url.URL_String (Url.setRawQuery u q) = target (Url.URL_String u) q.
Proof.
  intros Hfr Hf Hraw. unfold target.
  destruct (String.eqb_spec q "") as [-> | Hq].
  - rewrite <- Hraw, setRawQuery_same. reflexivity.
  - rewrite (URL_String_query u q Hfr Hf Hq).
    rewrite <- Hraw at 1. rewrite setRawQuery_same. reflexivity.
Qed.

Lemma removeEmptyPort_kept (h : string) :
  Strings.HasSuffix h ":" = false -> Http.removeEmptyPort h = h.
Proof. unfold Http.removeEmptyPort. intros ->. reflexivity. Qed.

Lemma setHost_same (u : Url.URL) : Url.setHost u (Url.Host u) = u.
Proof. destruct u. reflexivity. Qed.

Lemma URL_of_withHeaders (c : Client) (body : option Json.value)
  (req : Http.Request) :
  Http.URL (withHeaders c body req) = Http.URL req.
Proof.
  unfold withHeaders. destruct body, (negb (String.eqb (apiKey c) ""));
    reflexivity.
Qed.

(** The target of a request under a directory, and its text. *)
Lemma target_under_directory (B : Url.URL) (p q : string) :
  directory B -> relative p -> allBytes encodedByte q = true ->
  let text := target (Url.URL_String B
                      ++ (if String.eqb (Url.Path B) "" then "/" else "") ++ p) q in
  let u := Url.setRawQuery (withPath B (root B ++ p)) q in
  Url.URL_Parse B (target p q) = Ok u
  /\ Url.URL_String u = text
  /\ Url.Parse text = Ok u.
Proof.
  intros HB Hrel Hq. cbv zeta.
  pose proof Hrel as (Hp & Hne & Hslash & Hclean).
  destruct (directory_root B HB) as (HB' & Htext).
  set (B' := withPath B (root B)) in *.
  assert (Url.Path B' <> "") as Hroot.
  { unfold B', root. cbn [withPath Url.Path].
    destruct (String.eqb_spec (Url.Path B) ""); [discriminate | assumption]. }
  assert (withPath B (root B ++ p) = withPath B' (Url.Path B' ++ p)) as Hsame
      by reflexivity.
  pose proof HB' as (Hparse & Hs & Hsb & Hop & Hhost & Hport & _ & _ & _ & _
                     & Hraw & _ & Hforce & Hquery & Hfrag & _).
  pose proof (URL_String_extend B' p HB' Hroot Hp) as Hlong.
  rewrite Htext, append_assoc in Hlong.
  pose proof (URL_String_plain B' Hop Hsb Hquery Hforce Hfrag) as Hplain.
  pose proof (Parse_extend_path _ p B' Hparse Hplain Hroot Hraw (or_introl Hhost) Hp)
    as Hread.
  rewrite Htext, append_assoc in Hread.
  destruct (pathBytes_text p Hp) as (_ & Hp1 & Hp2 & _).
  repeat apply conj.
  - unfold Url.URL_Parse.
    rewrite (Parse_target p q (reference p) (Parse_relative p Hp Hne Hslash)
               (conj Hp1 Hp2) Hne)
      by (try assumption; intros ->; discriminate Hp).
    rewrite (ResolveReference_relative B p q HB Hrel). reflexivity.
  - rewrite Hsame, URL_String_target by assumption. rewrite Hlong. reflexivity.
  - rewrite Hsame.
    destruct (URL_String_long (withPath B' (Url.Path B' ++ p)) Hs) as [Hn1 Hn2].
    rewrite Hlong in Hn1, Hn2.
    apply Parse_target; [exact Hread | | exact Hn1 | exact Hn2 | exact Hq].
    rewrite <- Hlong. apply URL_String_plain; assumption.
Qed.

(** ** [NewRequest] under a directory *)

Lemma NewRequestWithContext_target (method : string) (B : Url.URL)
  (p q : string) (buf : option string) :
  directory B -> Http.validMethod method = true ->
  relative p -> allBytes encodedByte q = true ->
  Http.NewRequestWithContext method
    (Url.URL_String (Url.setRawQuery (withPath B (root B ++ p)) q)) buf
  = Ok {| Http.Method := method;
          Http.URL := Url.setRawQuery (withPath B (root B ++ p)) q;
          Http.ReqHeader := ∅;
          Http.ReqBody := buf;
          Http.ReqHost := Url.Host B |}.
Proof.
  intros HB Hm Hrel Hq.
  destruct (target_under_directory B p q HB Hrel Hq) as (_ & H2 & H3).
  destruct HB as (_ & _ & _ & _ & _ & Hport & _).
  unfold Http.NewRequestWithContext.
  rewrite (validMethod_named _ Hm), Hm, H2, H3. cbn [negb]. cbv zeta.
  cbn [Url.setRawQuery withPath Url.Host].
  rewrite (removeEmptyPort_kept _ Hport).
  reflexivity.
Qed.

Lemma NewRequest_under_directory (c : Client) (method p q : string)
  (body : option Json.value) (buf : option string) :
  directory (baseURL c) -> Http.validMethod method = true ->
  relative p -> allBytes encodedByte q = true -> encoded body buf ->
  NewRequest c method (target p q) body = Ok (request c method p q body buf).
Proof.
  intros HB Hm Hrel Hq Hbody.
  destruct (target_under_directory (baseURL c) p q HB Hrel Hq) as (H1 & _).
  unfold NewRequest. rewrite H1.
  assert (match body with
          | Some b => match Json.Encode b with
                      | Ok t => Ok (Some t)
                      | Err e => Err e
                      end
          | None => Ok None
          end = Ok buf) as ->.
  { destruct body as [b |]; cbn [encoded] in Hbody.
    - destruct Hbody as (t & -> & ->). reflexivity.
    - rewrite Hbody. reflexivity. }
  rewrite (NewRequestWithContext_target method _ p q buf HB Hm Hrel Hq).
  reflexivity.
Qed.

(** X15.  Under a base URL of the form scheme://host or
    scheme://host/dir/, [NewRequest] succeeds for every valid method,
    every relative path of unreserved bytes and slashes that has no dot
    segment, every query of encoded bytes and every body that can be
    encoded.  The request is sent to the host of the base URL; the path
    of its URL is the base path (the root for a base without a path)
    followed by the given path, its query is the given query, and the
    text of its URL is the text of the base URL followed by the path
    and the query. *)
Theorem NewRequest_joins_base_and_path :
  forall (c : Client) (method p q : string) (body : option Json.value)
         (buf : option string),
    directory (baseURL c) -> Http.validMethod method = true ->
    relative p -> allBytes encodedByte q = true -> encoded body buf ->
    NewRequest c method (target p q) body = Ok (request c method p q body buf)
    /\ Url.URL_String (Http.URL (request c method p q body buf))
       = target (Url.URL_String (baseURL c)
                 ++ (if String.eqb (Url.Path (baseURL c)) "" then "/" else "")
                 ++ p) q.
Proof.
  intros c method p q body buf HB Hm Hrel Hq Hbody.
  split; [apply NewRequest_under_directory; assumption |].
  destruct (target_under_directory (baseURL c) p q HB Hrel Hq) as (_ & H2 & _).
  unfold request. rewrite URL_of_withHeaders. exact H2.
Qed.

Lemma testClient_directory : directory (baseURL testClient).
Proof.
  unfold directory. repeat apply conj;
    try (vm_compute; first [reflexivity | discriminate]).
  unfold clean. repeat constructor; discriminate.
Qed.

Lemma NewRequest_joins_base_and_path_witness :
  NewRequest testClient "GET" "applications/app-123/logs?lines=100" None
  = Ok (request testClient "GET" "applications/app-123/logs" "lines=100"
          None None)
  /\ Url.URL_String
       (Http.URL (request testClient "GET" "applications/app-123/logs"
                    "lines=100" None None))
     = "http://127.0.0.1:8080/applications/app-123/logs?lines=100".
Proof.
  apply (NewRequest_joins_base_and_path testClient "GET"
           "applications/app-123/logs" "lines=100" None None).
  - exact testClient_directory.
  - reflexivity.
  - unfold relative, clean. repeat apply conj;
      try (vm_compute; first [reflexivity | discriminate]).
    repeat constructor; discriminate.
  - reflexivity.
  - reflexivity.
Defined.

(** A listing is the request for the path with the encoded options
    for its query. *)
Lemma NewRequestWithQuery_under_directory (c : Client) (method p : string)
  (opts : option ListOptions.t) (v : Url.Values) :
  directory (baseURL c) -> Http.validMethod method = true -> relative p ->
  query_Values opts = Ok v ->
  NewRequestWithQuery c method p (OptsList opts)
  = Ok (request c method p (Url.Values_Encode v) None None).
Proof.
  intros HB Hm Hrel Hv.
  destruct (target_under_directory (baseURL c) p "" HB Hrel eq_refl) as (H1 & _).
  unfold NewRequestWithQuery. change (target p "") with p in H1.
  rewrite H1, Hv.
  change (Url.setRawQuery (Url.setRawQuery (withPath (baseURL c)
                                               (root (baseURL c) ++ p)) "")
            (Url.Values_Encode v))
    with (Url.setRawQuery (withPath (baseURL c) (root (baseURL c) ++ p))
            (Url.Values_Encode v)).
  rewrite (NewRequestWithContext_target method _ p (Url.Values_Encode v) None
             HB Hm Hrel (Encode_bytes v)).
  reflexivity.
Qed.

(** ** The requests of the services *)

Lemma segmentByte_pathByte (c : ascii) :
  segmentByte c = true -> pathByte c = true /\ Ascii.eqb c "/" = false.
Proof.
  each_byte c; vm_compute; intros H; first [discriminate H | split; reflexivity].
Qed.

Lemma segment_text (id : string) :
  segment id ->
  allBytes pathByte id = true /\ Strings.Contains id "/" = false /\ dotless id.
Proof.
  intros (Hb & Hd). split; [| split; [| exact Hd]].
  - apply (allBytes_weaken segmentByte); [| exact Hb].
    intros c Hc. apply (segmentByte_pathByte c Hc).
  - clear Hd. induction id as [| c id IH]; [reflexivity |].
    cbn [allBytes] in Hb. apply andb_true_iff in Hb as [Hc Hid].
    cbn [Strings.Contains].
    destruct (segmentByte_pathByte c Hc) as [_ ->]. exact (IH Hid).
Qed.

Lemma clean_cons (a rest : string) :
  Strings.Contains a "/" = false -> dotless a -> clean rest ->
  clean (a ++ String "/" rest).
Proof.
  unfold clean. intros Ha Hd Hrest.
  rewrite Split_append_sep, (Split_without_sep _ _ Ha).
  constructor; assumption.
Qed.

Lemma clean_one (a : string) :
  Strings.Contains a "/" = false -> dotless a -> clean a.
Proof.
  unfold clean. intros Ha Hd. rewrite (Split_without_sep _ _ Ha).
  constructor; [exact Hd | constructor].
Qed.

Lemma path_of_one (a b id : string) :
  Strings.Contains a "/" = false -> dotless a -> allBytes pathByte a = true ->
  a <> "" -> Strings.HasPrefix a "/" = false ->
  Strings.Contains b "/" = false -> dotless b -> allBytes pathByte b = true ->
  segment id ->
  relative (a ++ String "/" id)
  /\ relative (a ++ String "/" (id ++ String "/" b)).
Proof.
  intros Ha Hda Hpa Hna Hsa Hb Hdb Hpb Hid.
  destruct (segment_text id Hid) as (Hp & Hs & Hd).
  assert (forall x, a ++ x <> "") as Hne
      by (intros x; destruct a; [congruence | discriminate]).
  assert (forall x, Strings.HasPrefix (a ++ x) "/" = false) as Hpre.
  { intros x. destruct a as [| c a]; [congruence |].
    change (String c a ++ x) with (String c (a ++ x)).
    rewrite HasPrefix_head in *. exact Hsa. }
  split; unfold relative; repeat apply conj; try apply Hne; try apply Hpre.
  - rewrite allBytes_append, Hpa. cbn [allBytes]. rewrite Hp. reflexivity.
  - apply clean_cons; try assumption. apply clean_one; assumption.
  - rewrite allBytes_append, Hpa. cbn [allBytes].
    rewrite allBytes_append, Hp. cbn [allBytes]. rewrite Hpb. reflexivity.
  - apply clean_cons; try assumption. apply clean_cons; try assumption.
    apply clean_one; assumption.
Qed.

Lemma Do_transport_error {T : Type} (store : Json.value -> T -> T * error)
  (c : Client) (h : Http.Client) (req : Http.Request) (v : Dest T)
  (e : liberror) :
  Http.Do h req = Err e ->
  Do store (WithHTTPClient h c) req v = Returns (None, Some (Foreign e), v).
Proof.
  intros H. unfold Do. cbn [WithHTTPClient client]. rewrite H. reflexivity.
Qed.

Lemma Do_same_answer {T : Type} (store : Json.value -> T -> T * error)
  (c : Client) (h h' : Http.Client) (req : Http.Request) (v : Dest T) :
  Http.Do h' req = Http.Do h req ->
  Do store (WithHTTPClient h' c) req v = Do store (WithHTTPClient h c) req v.
Proof.
  intros H. unfold Do. cbn [WithHTTPClient client]. rewrite H. reflexivity.
Qed.

Lemma request_of_client (c : Client) (h : Http.Client) :
  request (WithHTTPClient h c) = request c.
Proof. reflexivity. Qed.

(** A method that hands no destination to [Do]. *)
Lemma plain_method_sends (c : Client) (method p : string)
  (body : option Json.value) (buf : option string) :
  directory (baseURL c) -> Http.validMethod method = true -> relative p ->
  encoded body buf ->
  sends (fun c =>
           match NewRequest c method p body with
           | Err e => Returns (None, Some (Foreign e))
           | Ok req => Do_nil c req
           end)
        c (request c method p "" body buf) (fun err => (None, err)).
Proof.
  intros HB Hm Hrel Hbody h.
  assert (forall k, NewRequest (WithHTTPClient k c) method p body
                    = Ok (request c method p "" body buf)) as E.
  { intros k.
    pose proof (NewRequest_under_directory (WithHTTPClient k c) method p "" body
                  buf HB Hm Hrel eq_refl Hbody) as E.
    change (target p "") with p in E. rewrite E, request_of_client.
    reflexivity. }
  split.
  - intros e Hfail. rewrite E. unfold Do_nil.
    rewrite (Do_transport_error _ c h _ _ e Hfail). reflexivity.
  - intros h' Hsame. rewrite !E. unfold Do_nil.
    rewrite (Do_same_answer _ c h h' _ _ Hsame). reflexivity.
Qed.

(** A method that decodes the body into a destination. *)
Lemma typed_method_sends {T R : Type}
  (store : Json.value -> T -> T * error) (dest : Dest T)
  (none : R) (out : Dest T -> R) (c : Client) (method p q : string) :
  directory (baseURL c) -> Http.validMethod method = true -> relative p ->
  allBytes encodedByte q = true ->
  sends (fun c =>
           match NewRequest c method (target p q) None with
           | Err e => Returns (none, None, Some (Foreign e))
           | Ok req =>
               let! r := Do store c req dest in
               match snd (fst r) with
               | Some err => Returns (none, fst (fst r), Some err)
               | None => Returns (out (snd r), fst (fst r), None)
               end
           end)
        c (request c method p q None None) (fun err => (none, None, err)).
Proof.
  intros HB Hm Hrel Hq h.
  assert (forall k, NewRequest (WithHTTPClient k c) method (target p q) None
                    = Ok (request c method p q None None)) as E.
  { intros k.
    rewrite (NewRequest_under_directory (WithHTTPClient k c) method p q None None
               HB Hm Hrel Hq eq_refl), request_of_client.
    reflexivity. }
  split.
  - intros e Hfail. rewrite E.
    rewrite (Do_transport_error _ c h _ _ e Hfail). reflexivity.
  - intros h' Hsame. rewrite !E.
    rewrite (Do_same_answer _ c h h' _ _ Hsame). reflexivity.
Qed.

(** A listing. *)
Lemma listing_sends {T R : Type}
  (store : Json.value -> T -> T * error) (dest : Dest T)
  (none : R) (out : Dest T -> R) (c : Client) (p : string)
  (opts : option ListOptions.t) (v : Url.Values) :
  directory (baseURL c) -> relative p -> query_Values opts = Ok v ->
  sends (fun c =>
           match NewRequestWithQuery c "GET" p (OptsList opts) with
           | Err e => Returns (none, None, Some (Foreign e))
           | Ok req =>
               let! r := Do store c req dest in
               match snd (fst r) with
               | Some err => Returns (none, fst (fst r), Some err)
               | None => Returns (out (snd r), fst (fst r), None)
               end
           end)
        c (request c "GET" p (Url.Values_Encode v) None None)
        (fun err => (none, None, err)).
Proof.
  intros HB Hrel Hv h.
  assert (forall k, NewRequestWithQuery (WithHTTPClient k c) "GET" p (OptsList opts)
                    = Ok (request c "GET" p (Url.Values_Encode v) None None)) as E.
  { intros k.
    rewrite (NewRequestWithQuery_under_directory (WithHTTPClient k c) "GET" p
               opts v HB eq_refl Hrel Hv), request_of_client.
    reflexivity. }
  split.
  - intros e Hfail. rewrite E.
    rewrite (Do_transport_error _ c h _ _ e Hfail). reflexivity.
  - intros h' Hsame. rewrite !E.
    rewrite (Do_same_answer _ c h h' _ _ Hsame). reflexivity.
Qed.

Lemma formatBits_digits (f : nat) : forall n acc,
  allBytes isDigit acc = true ->
  allBytes isDigit (Strconv.formatBits f n acc) = true.
Proof.
  induction f as [| f IH]; intros n acc Hacc; [exact Hacc |].
  cbn [Strconv.formatBits].
  destruct (digit_char (n mod 10)) as [Hd _];
    [apply Z.mod_pos_bound; lia |].
  assert (allBytes isDigit
            (String (ascii_of_N (48 + Z.to_N (n mod 10))) acc) = true) as H
      by (cbn [allBytes]; rewrite Hd, Hacc; reflexivity).
  destruct (n <? 10); [exact H | apply IH, H].
Qed.

Lemma digit_encoded (c : ascii) : isDigit c = true -> encodedByte c = true.
Proof.
  each_byte c; vm_compute; intros H; first [discriminate H | reflexivity].
Qed.

Lemma lines_query (n : Z) :
  allBytes encodedByte (if 0 <? n then "lines=" ++ Strconv.Itoa n else "") = true.
Proof.
  destruct (Z.ltb_spec 0 n) as [Hn | _]; [| reflexivity].
  rewrite allBytes_append. cbn [andb].
  change (allBytes encodedByte "lines=") with true. cbn [andb].
  apply (allBytes_weaken isDigit); [exact digit_encoded |].
  unfold Strconv.Itoa. destruct (Z.ltb_spec n 0) as [| _]; [lia |].
  apply formatBits_digits. reflexivity.
Qed.

Lemma five_segments (a b d x y : string) :
  Strings.Contains a "/" = false -> dotless a -> allBytes pathByte a = true ->
  a <> "" -> Strings.HasPrefix a "/" = false ->
  Strings.Contains b "/" = false -> dotless b -> allBytes pathByte b = true ->
  Strings.Contains d "/" = false -> dotless d -> allBytes pathByte d = true ->
  segment x -> segment y ->
  relative (a ++ String "/" (x ++ String "/" (b ++ String "/"
                                                (y ++ String "/" d)))).
Proof.
  intros Ha Hda Hpa Hna Hsa Hb Hdb Hpb Hd Hdd Hpd Hx Hy.
  destruct (segment_text x Hx) as (Hpx & Hsx & Hdx).
  destruct (segment_text y Hy) as (Hpy & Hsy & Hdy).
  unfold relative. repeat apply conj.
  - rewrite !allBytes_append, Hpa. cbn [allBytes andb].
    rewrite !allBytes_append, Hpx. cbn [allBytes andb].
    rewrite !allBytes_append, Hpb. cbn [allBytes andb].
    rewrite !allBytes_append, Hpy. cbn [allBytes andb]. exact Hpd.
  - destruct a; [congruence | discriminate].
  - destruct a as [| c a]; [congruence |].
    change (Strings.HasPrefix (String c (a ++ String "/"
              (x ++ String "/" (b ++ String "/" (y ++ String "/" d))))) "/"
            = false).
    rewrite HasPrefix_head in *. exact Hsa.
  - repeat (apply clean_cons; try assumption). apply clean_one; assumption.
Qed.

(** X16.  Over a base URL of the form scheme://host or
    scheme://host/dir/ and an identifier that is one path segment of
    unreserved bytes, each method of [ApplicationsService] on one
    application reaches the transport with one request and nothing
    else, without query and body: GET and DELETE for applications/id,
    POST for applications/id/restart, /stop and /start, GET for
    applications/id/env, under the base URL.  A failure of the
    transport on this request is returned as it is, with no response
    and no resource, and transports that answer this request alike
    give the same outcome. *)
Theorem applications_send_their_requests :
  forall (A : Type) (zero : A) (store : Json.value -> A -> A * option liberror)
         (c : Client) (id : string),
    directory (baseURL c) -> segment id ->
    let plain method p := request c method p "" None None in
    sends (fun c => ApplicationsService.Get zero store c id) c
      (plain "GET" ("applications/" ++ id)) (fun err => (None, None, err))
    /\ sends (fun c => ApplicationsService.Delete c id) c
         (plain "DELETE" ("applications/" ++ id)) (fun err => (None, err))
    /\ sends (fun c => ApplicationsService.Restart c id) c
         (plain "POST" ("applications/" ++ id ++ "/restart"))
         (fun err => (None, err))
    /\ sends (fun c => ApplicationsService.Stop c id) c
         (plain "POST" ("applications/" ++ id ++ "/stop"))
         (fun err => (None, err))
    /\ sends (fun c => ApplicationsService.Start c id) c
         (plain "POST" ("applications/" ++ id ++ "/start"))
         (fun err => (None, err))
    /\ sends (fun c => ApplicationsService.GetEnvironmentVariables c id) c
         (plain "GET" ("applications/" ++ id ++ "/env"))
         (fun err => (None, None, err)).
Proof.
  intros A zero store c id HB Hid. cbv zeta.
  repeat apply conj.
  - apply (typed_method_sends (library (storePointer zero store)) (DestValue (Some zero))
             None (fun v => held v None) c "GET"
             ("applications" ++ String "/" id) "");
      try assumption; try reflexivity.
    apply (path_of_one "applications" "x" id);
      first [reflexivity | assumption | discriminate | split; discriminate].
  - apply (plain_method_sends c "DELETE"
             ("applications" ++ String "/" id) None None);
      try assumption; try reflexivity.
    apply (path_of_one "applications" "x" id);
      first [reflexivity | assumption | discriminate | split; discriminate].
  - apply (plain_method_sends c "POST"
             ("applications" ++ String "/" (id ++ String "/" "restart"))
             None None);
      try assumption; try reflexivity.
    apply (path_of_one "applications" "restart" id);
      first [reflexivity | assumption | discriminate | split; discriminate].
  - apply (plain_method_sends c "POST"
             ("applications" ++ String "/" (id ++ String "/" "stop"))
             None None);
      try assumption; try reflexivity.
    apply (path_of_one "applications" "stop" id);
      first [reflexivity | assumption | discriminate | split; discriminate].
  - apply (plain_method_sends c "POST"
             ("applications" ++ String "/" (id ++ String "/" "start"))
             None None);
      try assumption; try reflexivity.
    apply (path_of_one "applications" "start" id);
      first [reflexivity | assumption | discriminate | split; discriminate].
  - apply (typed_method_sends (library storeStringMap) (DestValue (Some ∅))
             None (fun v => held v None) c "GET"
             ("applications" ++ String "/" (id ++ String "/" "env")) "");
      try assumption; try reflexivity.
    apply (path_of_one "applications" "env" id);
      first [reflexivity | assumption | discriminate | split; discriminate].
Qed.

Lemma testSegment : segment "app-123".
Proof.
  unfold segment. repeat apply conj; [reflexivity | discriminate | discriminate].
Qed.

Lemma applications_send_their_requests_witness :
  ApplicationsService.Restart (WithHTTPClient (client testClient) testClient)
    "app-123"
  = Returns (None, Some (Foreign (LibError "net" "connection refused")))
  /\ ApplicationsService.GetEnvironmentVariables
       (WithHTTPClient (client testClient) testClient) "app-123"
     = Returns (None, None, Some (Foreign (LibError "net" "connection refused"))).
Proof.
  destruct (applications_send_their_requests unit tt (fun _ x => (x, None))
              testClient "app-123" testClient_directory testSegment)
    as (_ & _ & H3 & _ & _ & H6).
  split;
    [apply (proj1 (H3 (client testClient)))
    | apply (proj1 (H6 (client testClient)))]; reflexivity.
Defined.

(** X17.  Over such a base URL and identifier, each method of
    [StaticSitesService] on one site reaches the transport with one
    request and nothing else, without query and body: GET and DELETE
    for static-sites/id, POST for static-sites/id/deployments, under
    the base URL.  A failure of the transport on this request is
    returned as it is, with no response and no resource, and
    transports that answer this request alike give the same
    outcome. *)
Theorem static_sites_send_their_requests :
  forall (A : Type) (zero : A) (store : Json.value -> A -> A * option liberror)
         (c : Client) (id : string),
    directory (baseURL c) -> segment id ->
    let plain method p := request c method p "" None None in
    sends (fun c => StaticSitesService.Get zero store c id) c
      (plain "GET" ("static-sites/" ++ id)) (fun err => (None, None, err))
    /\ sends (fun c => StaticSitesService.Delete c id) c
         (plain "DELETE" ("static-sites/" ++ id)) (fun err => (None, err))
    /\ sends (fun c => StaticSitesService.Deploy zero store c id) c
         (plain "POST" ("static-sites/" ++ id ++ "/deployments"))
         (fun err => (None, None, err)).
Proof.
  intros A zero store c id HB Hid. cbv zeta.
  repeat apply conj.
  - apply (typed_method_sends (library (storePointer zero store)) (DestValue (Some zero))
             None (fun v => held v None) c "GET"
             ("static-sites" ++ String "/" id) "");
      try assumption; try reflexivity.
    apply (path_of_one "static-sites" "x" id);
      first [reflexivity | assumption | discriminate | split; discriminate].
  - apply (plain_method_sends c "DELETE"
             ("static-sites" ++ String "/" id) None None);
      try assumption; try reflexivity.
    apply (path_of_one "static-sites" "x" id);
      first [reflexivity | assumption | discriminate | split; discriminate].
  - apply (typed_method_sends (library (storePointer zero store)) (DestValue (Some zero))
             None (fun v => held v None) c "POST"
             ("static-sites" ++ String "/" (id ++ String "/" "deployments")) "");
      try assumption; try reflexivity.
    apply (path_of_one "static-sites" "deployments" id);
      first [reflexivity | assumption | discriminate | split; discriminate].
Qed.

Lemma static_sites_send_their_requests_witness :
  StaticSitesService.Delete (WithHTTPClient (client testClient) testClient)
    "app-123"
  = Returns (None, Some (Foreign (LibError "net" "connection refused")))
  /\ StaticSitesService.Deploy tt (fun _ x => (x, None))
       (WithHTTPClient (client testClient) testClient) "app-123"
     = Returns (None, None, Some (Foreign (LibError "net" "connection refused"))).
Proof.
  destruct (static_sites_send_their_requests unit tt (fun _ x => (x, None))
              testClient "app-123" testClient_directory testSegment)
    as (_ & H2 & H3).
  split;
    [apply (proj1 (H2 (client testClient)))
    | apply (proj1 (H3 (client testClient)))]; reflexivity.
Defined.

(** X18.  Over such a base URL and identifiers, the logs of a
    deployment, a pipeline and the logs of a run of a pipeline are
    each asked with one request and nothing else, without query and
    body: GET for deployments/id/logs, for pipelines/id and for
    pipelines/id/runs/run/logs, under the base URL.  A failure of the
    transport on this request is returned as it is, with no response,
    no text and no pipeline, and transports that answer this request
    alike give the same outcome. *)
Theorem pipelines_and_deployments_send_their_requests :
  forall (A : Type) (zero : A) (store : Json.value -> A -> A * option liberror)
         (c : Client) (id run : string),
    directory (baseURL c) -> segment id -> segment run ->
    let plain method p := request c method p "" None None in
    sends (fun c => DeploymentsService.GetLogs c id) c
      (plain "GET" ("deployments/" ++ id ++ "/logs"))
      (fun err => ("", None, err))
    /\ sends (fun c => PipelinesService.Get zero store c id) c
         (plain "GET" ("pipelines/" ++ id)) (fun err => (None, None, err))
    /\ sends (fun c => PipelinesService.GetRunLogs c id run) c
         (plain "GET" ("pipelines/" ++ id ++ "/runs/" ++ run ++ "/logs"))
         (fun err => ("", None, err)).
Proof.
  intros A zero store c id run HB Hid Hrun. cbv zeta.
  repeat apply conj.
  - apply (typed_method_sends (library storeLogs) (DestValue "")
             "" (fun v => held v "") c "GET"
             ("deployments" ++ String "/" (id ++ String "/" "logs")) "");
      try assumption; try reflexivity.
    apply (path_of_one "deployments" "logs" id);
      first [reflexivity | assumption | discriminate | split; discriminate].
  - apply (typed_method_sends (library (storeStruct store)) (DestValue zero)
             None (fun v => Some (held v zero)) c "GET"
             ("pipelines" ++ String "/" id) "");
      try assumption; try reflexivity.
    apply (path_of_one "pipelines" "x" id);
      first [reflexivity | assumption | discriminate | split; discriminate].
  - apply (typed_method_sends (library storeLogs) (DestValue "")
             "" (fun v => held v "") c "GET"
             ("pipelines" ++ String "/" (id ++ String "/"
                ("runs" ++ String "/" (run ++ String "/" "logs")))) "");
      try assumption; try reflexivity.
    apply five_segments;
      first [reflexivity | assumption | discriminate | split; discriminate].
Qed.

Lemma pipelines_and_deployments_send_their_requests_witness :
  DeploymentsService.GetLogs (WithHTTPClient (client testClient) testClient)
    "app-123"
  = Returns ("", None, Some (Foreign (LibError "net" "connection refused")))
  /\ PipelinesService.GetRunLogs (WithHTTPClient (client testClient) testClient)
       "app-123" "run-456"
     = Returns ("", None, Some (Foreign (LibError "net" "connection refused"))).
Proof.
  destruct (pipelines_and_deployments_send_their_requests unit tt
              (fun _ x => (x, None)) testClient "app-123" "run-456"
              testClient_directory testSegment)
    as (H1 & _ & H3).
  - unfold segment. repeat apply conj; [reflexivity | discriminate | discriminate].
  - split;
      [apply (proj1 (H1 (client testClient)))
      | apply (proj1 (H3 (client testClient)))]; reflexivity.
Defined.

(** X19.  Over such a base URL, the listings reach the transport with
    GET for the path of the collection and the encoded options for
    the query; the logs of an application are asked with the query
    lines=N when N is positive and with no query otherwise; the
    environment variables are sent by PUT with the encoded map for the
    body.  Each method reaches the transport with this request and
    nothing else: a failure of the transport on it is returned as it
    is, with no response, and transports that answer it alike give
    the same outcome. *)
Theorem services_send_queries_and_bodies :
  forall (A : Type) (zero : A) (store : Json.value -> A -> A * option liberror)
         (c : Client) (id : string) (lines : Z) (opts : option ListOptions.t)
         (v : Url.Values) (vars : StringMap) (t : string),
    directory (baseURL c) -> segment id ->
    query_Values opts = Ok v -> Json.Encode (mapValue vars) = Ok t ->
    sends (fun c => ApplicationsService.List zero store c opts) c
      (request c "GET" "applications" (Url.Values_Encode v) None None)
      (fun err => (None, None, err))
    /\ sends (fun c => StaticSitesService.List zero store c opts) c
         (request c "GET" "static-sites" (Url.Values_Encode v) None None)
         (fun err => (None, None, err))
    /\ sends (fun c => ApplicationsService.GetLogs c id lines) c
         (request c "GET" ("applications/" ++ id ++ "/logs")
            (if 0 <? lines then "lines=" ++ Strconv.Itoa lines else "")
            None None)
         (fun err => ("", None, err))
    /\ sends (fun c => ApplicationsService.SetEnvironmentVariables c id vars) c
         (request c "PUT" ("applications/" ++ id ++ "/env") ""
            (Some (mapValue vars)) (Some t))
         (fun err => (None, err)).
Proof.
  intros A zero store c id lines opts v vars t HB Hid Hv Ht.
  assert (relative "applications" /\ relative "static-sites") as [R1 R2].
  { unfold relative, clean. repeat apply conj;
      try (vm_compute; first [reflexivity | discriminate]);
      repeat constructor; discriminate. }
  assert (forall b,
             Strings.Contains b "/" = false -> dotless b ->
             allBytes pathByte b = true ->
             relative ("applications" ++ String "/" (id ++ String "/" b)))
    as Hpath.
  { intros b H1 H2 H3.
    apply (path_of_one "applications" b id);
      first [reflexivity | assumption | discriminate | split; discriminate]. }
  repeat apply conj.
  - apply (listing_sends (library (storeSlice zero store)) (DestValue None) None
             (fun x => held x None) c "applications" opts v);
      assumption.
  - apply (listing_sends (library (storeSlice zero store)) (DestValue None) None
             (fun x => held x None) c "static-sites" opts v);
      assumption.
  - assert (relative ("applications" ++ String "/" (id ++ String "/" "logs")))
      as Hlogs by (apply Hpath; first [reflexivity | split; discriminate]).
    pose proof (typed_method_sends (library storeLogs) (DestValue "") ""
                  (fun x => held x "") c "GET" _
                  (if 0 <? lines then "lines=" ++ Strconv.Itoa lines else "")
                  HB ltac:(reflexivity) Hlogs (lines_query lines)) as H.
    unfold ApplicationsService.GetLogs. cbv zeta.
    destruct (0 <? lines); exact H.
  - apply (plain_method_sends c "PUT"
             ("applications" ++ String "/" (id ++ String "/" "env"))
             (Some (mapValue vars)) (Some t)); try assumption; try reflexivity.
    + apply Hpath; first [reflexivity | split; discriminate].
    + exists t. split; [exact Ht | reflexivity].
Qed.

Lemma services_send_queries_and_bodies_witness :
  ApplicationsService.GetLogs (WithHTTPClient (client testClient) testClient)
    "app-123" 100
  = Returns ("", None, Some (Foreign (LibError "net" "connection refused")))
  /\ ApplicationsService.SetEnvironmentVariables
       (WithHTTPClient (client testClient) testClient) "app-123" testVars
     = Returns (None, Some (Foreign (LibError "net" "connection refused"))).
Proof.
  destruct (services_send_queries_and_bodies unit tt (fun _ x => (x, None))
              testClient "app-123" 100 (Some someOptions)
              (match query_Values (Some someOptions) with
               | Ok v => v
               | Err _ => []
               end)
              testVars testVarsBody testClient_directory testSegment)
    as (_ & _ & H3 & H4).
  - reflexivity.
  - vm_compute. reflexivity.
  - split;
      [apply (proj1 (H3 (client testClient)))
      | apply (proj1 (H4 (client testClient)))]; reflexivity.
Defined.
